(** * AI-Database-Python: a shallow embedding of the CSV-to-SQLite pipeline

    The development follows the four source files of the repository:

    - [src/__main__.py]            : [students_str_map], [prepare_tables],
                                     [main]
    - [src/database/table.py]      : [DBTable] and its methods
    - [src/database/database.py]   : [Database], [DatabaseGenerator]
    - [src/database/import_csv.py] : [gather_csv_paths]

    Python objects live in a heap and are passed by reference; methods are
    functions in a state-and-exception monad over that heap, the file system
    and the relational stores.  The operations of pandas and sqlite3 the
    program calls on frames and connections are modelled by their documented
    behaviour; the CSV reader and writer of pandas are parameters.  Where a
    library call can fail for reasons outside the program (permissions, a
    full disk, a locked store), the model lets it succeed: statements about
    a call that returns are statements about the program's own steps.
    [Database.disconnect] and [__repr__] take no part in what is proved and
    are left out. *)

From Stdlib Require Import ZArith String Ascii List Lia Bool.
From stdpp Require Import base option strings list gmap.
Import ListNotations.
Open Scope string_scope.
Open Scope list_scope.
Open Scope nat_scope.

(** ** Python values *)

(** Cell values of a DataFrame and arguments of the normalisation map.  A
    float is carried as its IEEE-754 bit pattern: the program never computes
    with floats.  [PyNaN] is pandas' missing value. *)
Inductive pyval : Type :=
  | PyNone
  | PyBool (b : bool)
  | PyInt (z : Z)
  | PyFloat (bits : Z)
  | PyNaN
  | PyStr (s : string).

#[global] Instance pyval_eq_dec : EqDecision pyval.
Proof. solve_decision. Defined.

(** Exceptions the modelled code can raise. *)
Inductive exn : Type :=
  | AttributeError
  | TypeError
  | ValueError
  | KeyError
  | ParserError
  | OperationalError
  | FileExistsError
  | OSError.

#[global] Instance exn_eq_dec : EqDecision exn.
Proof. solve_decision. Defined.

(** Outcome of a call that touches no shared object. *)
Inductive res (A : Type) : Type :=
  | Ok (a : A)
  | Raise (e : exn).
Arguments Ok {A} a.
Arguments Raise {A} e.

(** ** [str.upper] on ASCII text

    Strings are sequences of 8-bit characters (UTF-8 for text beyond
    ASCII).  [upper] maps [a]..[z] to [A]..[Z] and leaves every other
    character alone, which is what [str.upper] does on ASCII text; it is
    used where an example needs a concrete upper-casing. *)
Definition upper_ascii (c : ascii) : ascii :=
  let n := N_of_ascii c in
  if ((97 <=? n) && (n <=? 122))%N then ascii_of_N (n - 32) else c.

Fixpoint upper (s : string) : string :=
  match s with
  | EmptyString => EmptyString
  | String c s' => String (upper_ascii c) (upper s')
  end.

(** ** Paths and object references *)

(** A path is its list of components; every path of the model is absolute
    and normalised, so [Path.resolve] is the identity on it. *)
Abbreviation Path := (list string).

(** [Path.parent] *)
Definition parent (p : Path) : Path := removelast p.

(** [Path(folder, file)] *)
Definition joinpath (folder : Path) (file : string) : Path := folder ++ [file].

(** Heap addresses of [DBTable] and of [Database] objects. *)
Abbreviation tref := nat.
Abbreviation dbref := nat.

(** Values an attribute of a [Database] instance can hold.  [OTable] is a
    reference to a [DBTable] object, [OConnection p] an open
    [sqlite3.Connection] on the file [p], [OCursor p] a cursor of it. *)
Inductive pyobj : Type :=
  | ONone
  | OStr (s : string)
  | OPath (p : Path)
  | OTableList (l : list tref)
  | OConnection (p : Path)
  | OCursor (p : Path)
  | OTable (r : tref).

#[global] Instance pyobj_eq_dec : EqDecision pyobj.
Proof. solve_decision. Defined.

(** ** The part of pandas the program uses *)

Module Pandas.

(** A frame: the row index (its name and one value per row) and the regular
    columns in order, each a label with one value per row. *)
Record DataFrame : Type := mkFrame {
  index_name : option string;
  index_values : list pyval;
  columns : list (string * list pyval)
}.

#[global] Instance DataFrame_eq_dec : EqDecision DataFrame.
Proof. solve_decision. Defined.

(** [len(df)] *)
Definition nrows (df : DataFrame) : nat := length (index_values df).

(** [df.columns] *)
Definition labels (df : DataFrame) : list string := map fst (columns df).

(** [label in df.columns] *)
Definition has_column (label : string) (df : DataFrame) : bool :=
  existsb (String.eqb label) (labels df).

(** [df[label]] *)
Fixpoint column_values (label : string) (cols : list (string * list pyval))
  : option (list pyval) :=
  match cols with
  | [] => None
  | (l, vs) :: rest =>
      if String.eqb label l then Some vs else column_values label rest
  end.

(** [del df[label]] *)
Definition drop_column (label : string) (cols : list (string * list pyval))
  : list (string * list pyval) :=
  List.filter (fun c => negb (String.eqb label (fst c))) cols.

(** [df.set_index(label, inplace=True)]: with the defaults [drop=True],
    [append=False] the column replaces the old index and leaves the regular
    columns; an unknown label raises [KeyError]. *)
Definition set_index (label : string) (df : DataFrame) : res DataFrame :=
  match column_values label (columns df) with
  | None => Raise KeyError
  | Some vs =>
      Ok {| index_name := Some label;
            index_values := vs;
            columns := drop_column label (columns df) |}
  end.

(** [list(range(n))] *)
Definition range_values (n : nat) : list pyval :=
  map (fun i => PyInt (Z.of_nat i)) (seq 0 n).

(** [df.insert(0, label, values, allow_duplicates=False)] for a list
    [values].  An existing label raises [ValueError].  A frame with an empty
    index takes a non-empty list as its new rows (a fresh range index, the
    other columns filled with NaN); otherwise the list must have one value
    per row or [ValueError] is raised. *)
Definition insert_front (label : string) (values : list pyval)
    (df : DataFrame) : res DataFrame :=
  if has_column label df then Raise ValueError
  else if (nrows df =? 0) && (0 <? length values) then
    Ok {| index_name := index_name df;
          index_values := range_values (length values);
          columns := (label, values)
                     :: map (fun c => (fst c, repeat PyNaN (length values)))
                            (columns df) |}
  else if length values =? nrows df then
    Ok {| index_name := index_name df;
          index_values := index_values df;
          columns := (label, values) :: columns df |}
  else Raise ValueError.

(** [df[column] = df[column].map(f)] *)
Definition map_column (f : pyval -> pyval) (label : string) (df : DataFrame)
  : DataFrame :=
  {| index_name := index_name df;
     index_values := index_values df;
     columns := map (fun c => if String.eqb label (fst c)
                              then (fst c, map f (snd c)) else c)
                    (columns df) |}.

End Pandas.
Export Pandas.

(** ** [src/database/table.py]: [DBTable] *)

Module Table.

(** The slots of a [DBTable] object.  [index_label] has no default and is
    not an [__init__] argument, so the slot is empty ([None] here) until the
    caller assigns it; reading an empty slot raises [AttributeError].
    [db_name] holds whatever [Database.add_table] copies from the database's
    [name] attribute. *)
Record DBTable : Type := mkTable {
  name : string;
  db_name : pyobj;
  index_label : option string;
  csv_path : Path;
  dataframe : DataFrame;
  database : option dbref;
  index : option (list pyval)
}.

Definition set_dataframe (df : DataFrame) (t : DBTable) : DBTable :=
  {| name := name t; db_name := db_name t; index_label := index_label t;
     csv_path := csv_path t; dataframe := df; database := database t;
     index := index t |}.

Definition set_index_attr (i : option (list pyval)) (t : DBTable) : DBTable :=
  {| name := name t; db_name := db_name t; index_label := index_label t;
     csv_path := csv_path t; dataframe := dataframe t; database := database t;
     index := i |}.

Definition set_index_label (l : string) (t : DBTable) : DBTable :=
  {| name := name t; db_name := db_name t; index_label := Some l;
     csv_path := csv_path t; dataframe := dataframe t; database := database t;
     index := index t |}.

Definition set_database (d : option dbref) (t : DBTable) : DBTable :=
  {| name := name t; db_name := db_name t; index_label := index_label t;
     csv_path := csv_path t; dataframe := dataframe t; database := d;
     index := index t |}.

Definition set_db_name (n : pyobj) (t : DBTable) : DBTable :=
  {| name := name t; db_name := n; index_label := index_label t;
     csv_path := csv_path t; dataframe := dataframe t; database := database t;
     index := index t |}.

(** [DBTable.normalise_data(data_map)] *)
Definition normalise_data (data_map : pyval -> string -> pyval) (t : DBTable)
  : DBTable :=
  set_dataframe
    (fold_left (fun df column =>
                  map_column (fun v => data_map v column) column df)
               (labels (dataframe t)) (dataframe t))
    t.

(** [DBTable.modify_index()].  The object is returned as the call leaves it;
    when the call raises, the object is as before the call (the only raising
    statement after the assignment to [self.index] is the [insert], which
    cannot fail on the list that assignment has just built). *)
Definition modify_index (t : DBTable) : res DBTable :=
  match index_label t with
  | None => Raise AttributeError
  | Some label =>
      if has_column label (dataframe t) then
        match set_index label (dataframe t) with
        | Ok df => Ok (set_dataframe df t)
        | Raise e => Raise e
        end
      else
        let idx := match index t with
                   | None => range_values (nrows (dataframe t))
                   | Some vs => vs
                   end in
        match insert_front label idx (dataframe t) with
        | Raise e => Raise e
        | Ok df1 =>
            match set_index label df1 with
            | Raise e => Raise e
            | Ok df2 => Ok (set_dataframe df2 (set_index_attr (Some idx) t))
            end
        end
  end.

End Table.
Export Table.

(** ** Python dictionaries

    A [dict] keeps its keys in insertion order; assigning to a present key
    keeps the key's position. *)
Module PyDict.

Section Dict.
Context {V : Type}.

Fixpoint get (k : string) (d : list (string * V)) : option V :=
  match d with
  | [] => None
  | (k', v) :: rest => if String.eqb k k' then Some v else get k rest
  end.

(** [d[k] = v] *)
Fixpoint set (k : string) (v : V) (d : list (string * V))
  : list (string * V) :=
  match d with
  | [] => [(k, v)]
  | (k', v') :: rest =>
      if String.eqb k k' then (k', v) :: rest else (k', v') :: set k v rest
  end.

(** [d.keys()], [d.values()] *)
Definition keys (d : list (string * V)) : list string := map fst d.
Definition values (d : list (string * V)) : list V := map snd d.

(** [d.copy().popitem()]: the last inserted item, [None] on an empty
    dictionary (where Python raises [KeyError]). *)
Definition last_item (d : list (string * V)) : option (string * V) :=
  last d.

End Dict.

End PyDict.

(** ** The relational store behind a [sqlite3] connection *)

Module Sqlite.

(** A stored table, column by column; a store (one [.db] file) lists its
    tables in creation order. *)
Definition StoredTable : Type := list (string * list pyval).
Definition Store : Type := list (string * StoredTable).

Definition table_exists (name : string) (s : Store) : bool :=
  existsb (String.eqb name) (map fst s).

(** [DROP TABLE name] *)
Definition drop_table (name : string) (s : Store) : Store :=
  List.filter (fun e => negb (String.eqb name (fst e))) s.

(** pandas writes a missing value as SQL [NULL]. *)
Definition sql_value (v : pyval) : pyval :=
  match v with
  | PyNaN => PyNone
  | _ => v
  end.

(** The columns [to_sql] writes for a frame: the index under
    [index_label], then the regular columns. *)
Definition frame_to_sql (index_label : string) (df : DataFrame)
  : StoredTable :=
  (index_label, map sql_value (index_values df))
  :: map (fun c => (fst c, map sql_value (snd c))) (columns df).

(** [INSERT INTO name (c1, ..) VALUES ..] for every row of [new]: each
    column of the stored table receives the new values of the column of the
    same name, or [NULL]s; a new column the stored table lacks is an error
    ([None]). *)
Definition insert_rows (n : nat) (new old : StoredTable)
  : option StoredTable :=
  if forallb (fun c => existsb (String.eqb (fst c)) (map fst old)) new then
    Some (map (fun c =>
                 (fst c,
                  snd c ++ match column_values (fst c) new with
                           | Some vs => vs
                           | None => repeat PyNone n
                           end)) old)
  else None.

(** Replace the stored table [name] in place. *)
Definition put_table (name : string) (t : StoredTable) (s : Store) : Store :=
  map (fun e => if String.eqb name (fst e) then (fst e, t) else e) s.

(** [DataFrame.to_sql(name, con, if_exists=mode, index_label=label)] on the
    store behind [con], for a valid [mode].  The result is the store the call
    leaves and the exception it raises, if any.  A frame in which [label] is
    also a regular column cannot be written (duplicate column name). *)
Definition write_frame (mode name label : string) (df : DataFrame)
    (s : Store) : Store * option exn :=
  let dup := has_column label df in
  let new := frame_to_sql label df in
  if table_exists name s then
    if String.eqb mode "fail" then (s, Some ValueError)
    else if String.eqb mode "replace" then
      let s' := drop_table name s in
      if dup then (s', Some OperationalError)
      else (s' ++ [(name, new)], None)
    else
      if dup then (s, Some ValueError)
      else
        match PyDict.get name s with
        | None => (s, Some OperationalError)
        | Some old =>
            match insert_rows (nrows df) new old with
            | None => (s, Some OperationalError)
            | Some t => (put_table name t s, None)
            end
        end
  else if dup then (s, Some OperationalError)
  else (s ++ [(name, new)], None).

Definition valid_if_exists (mode : string) : bool :=
  String.eqb mode "fail" || String.eqb mode "replace"
  || String.eqb mode "append".

End Sqlite.
Export Sqlite.

(** ** The world: file system, stores, object heap, log *)

(** What [ic] was called with. *)
Inductive ic_value : Type :=
  | IcStr (s : string)
  | IcFrame (df : DataFrame)
  | IcTables (d : list (string * tref)).

Record World : Type := mkWorld {
  cwd : Path;
  dirs : list Path;
  files : list (Path * string);
  stores : gmap Path Store;
  table_heap : list DBTable;
  database_heap : list (gmap string pyobj);
  ic_output : list ic_value
}.

Definition set_dirs (d : list Path) (w : World) : World :=
  mkWorld (cwd w) d (files w) (stores w) (table_heap w) (database_heap w)
          (ic_output w).

Definition set_files (f : list (Path * string)) (w : World) : World :=
  mkWorld (cwd w) (dirs w) f (stores w) (table_heap w) (database_heap w)
          (ic_output w).

Definition set_stores (s : gmap Path Store) (w : World) : World :=
  mkWorld (cwd w) (dirs w) (files w) s (table_heap w) (database_heap w)
          (ic_output w).

Definition set_table_heap (h : list DBTable) (w : World) : World :=
  mkWorld (cwd w) (dirs w) (files w) (stores w) h (database_heap w)
          (ic_output w).

Definition set_database_heap (h : list (gmap string pyobj)) (w : World)
  : World :=
  mkWorld (cwd w) (dirs w) (files w) (stores w) (table_heap w) h
          (ic_output w).

Definition set_ic_output (o : list ic_value) (w : World) : World :=
  mkWorld (cwd w) (dirs w) (files w) (stores w) (table_heap w)
          (database_heap w) o.

(** ** The monad of method calls: state and exceptions

    A call either returns a value or raises; in both cases the mutations it
    made to shared objects stay. *)
Inductive outcome (A : Type) : Type :=
  | Returns (a : A) (w : World)
  | Raises (e : exn) (w : World).
Arguments Returns {A} a w.
Arguments Raises {A} e w.

Definition M (A : Type) : Type := World -> outcome A.

#[global] Instance M_ret : MRet M := fun A a w => Returns a w.

#[global] Instance M_bind : MBind M := fun A B f m w =>
  match m w with
  | Returns a w' => f a w'
  | Raises e w' => Raises e w'
  end.

Definition raise {A : Type} (e : exn) : M A := fun w => Raises e w.
Definition get_world : M World := fun w => Returns w w.
Definition modify_world (f : World -> World) : M unit :=
  fun w => Returns tt (f w).

Definition lift_res {A : Type} (r : res A) : M A :=
  match r with
  | Ok a => mret a
  | Raise e => raise e
  end.

(** [for x in xs: body(x)] *)
Fixpoint for_each {A : Type} (body : A -> M unit) (xs : list A) : M unit :=
  match xs with
  | [] => mret tt
  | x :: rest => body x ;; for_each body rest
  end.

(** [ic(value)] *)
Definition ic (value : ic_value) : M unit :=
  modify_world (fun w => set_ic_output (ic_output w ++ [value]) w).

(** [try: m  except e: ...] *)
Definition try_except {A : Type} (m : M A) (e : exn) (handler : M A) : M A :=
  fun w =>
    match m w with
    | Returns a w' => Returns a w'
    | Raises e' w' => if decide (e' = e) then handler w' else Raises e' w'
    end.

(** *** Table objects in the heap *)

(** Reading a slot of the table object at [r]. *)
Definition get_table (r : tref) : M DBTable := fun w =>
  match table_heap w !! r with
  | Some t => Returns t w
  | None => Raises AttributeError w
  end.

(** Assigning to slots of the table object at [r]. *)
Definition update_table (r : tref) (f : DBTable -> DBTable) : M unit :=
  modify_world (fun w => set_table_heap (alter f r (table_heap w)) w).

Definition alloc_table (t : DBTable) : M tref := fun w =>
  Returns (length (table_heap w)) (set_table_heap (table_heap w ++ [t]) w).

(** *** The file system *)

Definition is_dir (p : Path) : M bool := fun w =>
  Returns (bool_decide (p ∈ dirs w)) w.

Definition is_file (p : Path) (w : World) : bool :=
  bool_decide (p ∈ map fst (files w)).

(** Reading and (over)writing a text file.  Opening a path that is no
    regular file raises [OSError] ([FileNotFoundError] for a missing file,
    [IsADirectoryError] for a directory). *)
Fixpoint lookup_file (p : Path) (fs : list (Path * string)) : option string :=
  match fs with
  | [] => None
  | (q, text) :: rest =>
      if bool_decide (p = q) then Some text else lookup_file p rest
  end.

Fixpoint store_file (p : Path) (text : string) (fs : list (Path * string))
  : list (Path * string) :=
  match fs with
  | [] => [(p, text)]
  | (q, old) :: rest =>
      if bool_decide (p = q) then (q, text) :: rest
      else (q, old) :: store_file p text rest
  end.

Definition read_file (p : Path) : M string := fun w =>
  match lookup_file p (files w) with
  | Some text => Returns text w
  | None => Raises OSError w
  end.

Definition write_file (p : Path) (text : string) : M unit :=
  modify_world (fun w => set_files (store_file p text (files w)) w).

(** The path itself and the paths above it, outermost first. *)
Fixpoint prefixes (p : Path) : list Path :=
  match p with
  | [] => [[]]
  | c :: rest => [] :: map (cons c) (prefixes rest)
  end.

(** [p.mkdir(parents=True)] *)
Definition mkdir_parents (p : Path) : M unit := fun w =>
  if existsb (fun q => is_file q w) (removelast (prefixes p)) then
    Raises OSError w
  else if is_file p w || bool_decide (p ∈ dirs w) then
    Raises FileExistsError w
  else
    Returns tt
      (set_dirs
         (dirs w
          ++ List.filter (fun q => negb (bool_decide (q ∈ dirs w)))
                         (prefixes p)) w).

(** [sqlite3.Connection(p)]: the file is created, empty, when absent; its
    folder must exist. *)
Definition sqlite_open (p : Path) : M unit := fun w =>
  if bool_decide (parent p ∈ dirs w) then
    Returns tt (set_stores (<[p := default [] (stores w !! p)]> (stores w)) w)
  else Raises OperationalError w.

(** ** [src/database/database.py]: [Database] *)

Module Database.

(** Names defined in the class body, and the names every object inherits
    from [object]. *)
Definition methods : list string :=
  ["__init__"; "__repr__"; "disconnect"; "connect"; "add_table";
   "add_tables"; "show_tables"; "add_table_to_database"].

Definition properties : list string := ["table_names"].

Definition object_attributes : list string :=
  ["__class__"; "__delattr__"; "__dict__"; "__dir__"; "__doc__"; "__eq__";
   "__format__"; "__ge__"; "__getattribute__"; "__getstate__"; "__gt__";
   "__hash__"; "__init_subclass__"; "__le__"; "__lt__"; "__module__";
   "__ne__"; "__new__"; "__reduce__"; "__reduce_ex__"; "__setattr__";
   "__sizeof__"; "__str__"; "__subclasshook__"; "__weakref__"].

(** The instance [__dict__] of the object at [self]. *)
Definition instance_dict (self : dbref) (w : World) : gmap string pyobj :=
  default ∅ (database_heap w !! self).

(** [self.attr] for a name the class does not define. *)
Definition getattr (self : dbref) (attr : string) : M pyobj := fun w =>
  match instance_dict self w !! attr with
  | Some v => Returns v w
  | None => Raises AttributeError w
  end.

(** [self.attr = v] written in the source with a fixed name. *)
Definition assign (self : dbref) (attr : string) (v : pyobj) : M unit :=
  modify_world (fun w =>
    set_database_heap (alter (insert attr v) self (database_heap w)) w).

(** [self.method]: an instance attribute of that name shadows the function
    of the class, and what [add_table] can bind there is not callable. *)
Definition lookup_method (self : dbref) (method : string) : M unit :=
  fun w =>
    match instance_dict self w !! method with
    | Some _ => Raises TypeError w
    | None => Returns tt w
    end.

Definition alloc : M dbref := fun w =>
  Returns (length (database_heap w))
          (set_database_heap (database_heap w ++ [∅]) w).

(** [Database.connect] *)
Definition connect (self : dbref) : M dbref :=
  p ← getattr self "path";
  match p with
  | OPath p =>
      sqlite_open p;;
      assign self "connection" (OConnection p);;
      assign self "cursor" (OCursor p);;
      mret self
  | _ => raise TypeError
  end.

(** [Database.__init__(name, folder=None, if_exists="replace")] *)
Definition init (name : string) (folder : option Path) (if_exists : string)
  : M dbref :=
  self ← alloc;
  assign self "name" (OStr name);;
  assign self "tables" (OTableList []);;
  assign self "folder" (from_option OPath ONone folder);;
  match folder with
  | None =>
      w ← get_world;
      assign self "folder" (OPath (parent (cwd w) ++ ["data"]))
  | Some _ => mret tt
  end;;
  f ← getattr self "folder";
  match f with
  | OPath dir =>
      d ← is_dir dir;
      (if (d : bool) then mret tt
       else try_except (mkdir_parents dir) FileExistsError (mret tt));;
      assign self "path" (OPath (joinpath dir (name +:+ ".db")));;
      assign self "connection" ONone;;
      assign self "cursor" ONone;;
      assign self "if_exists" (OStr if_exists);;
      lookup_method self "connect";;
      connect self;;
      mret self
  | _ => raise AttributeError
  end.

(** [[table.name for table in tables]] *)
Fixpoint names_of (tables : list tref) : M (list string) :=
  match tables with
  | [] => mret []
  | r :: rest =>
      t ← get_table r;
      ns ← names_of rest;
      mret (name t :: ns)
  end.

(** The getter of the property [table_names]; iterating anything but the
    list raises [TypeError]. *)
Definition table_names (self : dbref) : M (list string) :=
  ts ← getattr self "tables";
  match ts with
  | OTableList l => names_of l
  | _ => raise TypeError
  end.

(** [hasattr(self, attr)]: the instance dictionary, then the class.  For
    the property the getter runs; [hasattr] turns its [AttributeError] into
    [False] and lets any other exception through. *)
Definition hasattr (self : dbref) (attr : string) : M bool := fun w =>
  if bool_decide (attr ∈ properties) then
    match table_names self w with
    | Returns _ w' => Returns true w'
    | Raises AttributeError w' => Returns false w'
    | Raises e w' => Raises e w'
    end
  else
    Returns (bool_decide (is_Some (instance_dict self w !! attr))
             || bool_decide (attr ∈ methods ++ object_attributes)) w.

(** [self.__setattr__(attr, v)] for a table object [v].  The method is
    looked up through the instance like any other: once a table named
    [__setattr__] has been bound, the name gives that table, and calling it
    raises [TypeError].  Otherwise [object.__setattr__] runs: a property
    without setter and [__weakref__] refuse the assignment with
    [AttributeError]; [__class__] and [__dict__] refuse a table with
    [TypeError]; any other name, methods included, is bound in the instance
    dictionary. *)
Definition setattr (self : dbref) (attr : string) (v : pyobj) : M unit :=
  lookup_method self "__setattr__";;
  if bool_decide (attr ∈ properties ++ ["__weakref__"]) then
    raise AttributeError
  else if bool_decide (attr ∈ ["__class__"; "__dict__"]) then raise TypeError
  else assign self attr v.

(** [df.to_sql(name=name, con=con, if_exists=if_exists,
    index_label=index_label)] *)
Definition to_sql (df : DataFrame) (name : string) (con if_exists : pyobj)
    (index_label : string) : M unit :=
  match if_exists with
  | OStr mode =>
      if valid_if_exists mode then
        match con with
        | OConnection p => fun w =>
            let (s, e) := write_frame mode name index_label df
                                      (default [] (stores w !! p)) in
            let w' := set_stores (<[p := s]> (stores w)) w in
            match e with
            | None => Returns tt w'
            | Some e => Raises e w'
            end
        | _ => raise AttributeError
        end
      else raise ValueError
  | _ => raise ValueError
  end.

(** [Database.add_table_to_database] *)
Definition add_table_to_database (self : dbref) (table : tref) : M dbref :=
  t ← get_table table;
  con ← getattr self "connection";
  mode ← getattr self "if_exists";
  match index_label t with
  | None => raise AttributeError
  | Some label => to_sql (dataframe t) (name t) con mode label
  end;;
  mret self.

(** [Database.add_table] *)
Definition add_table (self : dbref) (table : tref) : M dbref :=
  update_table table (set_database (Some self));;
  n ← getattr self "name";
  update_table table (set_db_name n);;
  ts ← getattr self "tables";
  match ts with
  | OTableList l => assign self "tables" (OTableList (l ++ [table]))
  | _ => raise AttributeError
  end;;
  t ← get_table table;
  h ← hasattr self (name t);
  (if (h : bool)
   then ic (IcStr ("changing " +:+ name t +:+ " to new value."))
   else mret tt);;
  setattr self (name t) (OTable table);;
  lookup_method self "add_table_to_database";;
  add_table_to_database self table;;
  mret self.

(** [Database.add_tables] *)
Definition add_tables (self : dbref) (tables : list tref) : M dbref :=
  for_each (fun table =>
              lookup_method self "add_table";;
              add_table self table;;
              mret tt) tables;;
  mret self.



End Database.

(** ** [src/database/table.py]: methods of [DBTable] on heap objects *)

Module TableMethods.

(** [DBTable.add] *)
Definition add (self : tref) : M tref :=
  t ← get_table self;
  match database t with
  | None => raise AttributeError
  | Some db =>
      Database.lookup_method db "add_table";;
      Database.add_table db self;;
      mret self
  end.

(** [DBTable.modify_index] called on the object at [self]. *)
Definition modify_index_on (self : tref) : M tref :=
  t ← get_table self;
  t' ← lift_res (Table.modify_index t);
  update_table self (fun _ => t');;
  mret self.

(** [DBTable.normalise_data] called on the object at [self]. *)
Definition normalise_data_on (data_map : pyval -> string -> pyval)
    (self : tref) : M tref :=
  update_table self (Table.normalise_data data_map);;
  mret self.

(** [pd.read_csv] and [DataFrame.to_csv] are taken as given: [read_csv text
    sep] is the frame pandas parses from a file's text or the exception it
    raises, [to_csv df sep] the text pandas writes for a frame. *)
Section Csv.

Variable read_csv : string -> string -> res DataFrame.
Variable to_csv : DataFrame -> string -> string.

(** [DBTable(name=.., db_name=.., csv_path=..)]: the dataclass [__init__]
    followed by [__post_init__], which loads the file.  [index_label] stays
    unassigned. *)
Definition new (name db_name : string) (csv_path : Path) : M tref :=
  text ← read_file csv_path;
  df ← lift_res (read_csv text ";");
  alloc_table (mkTable name (OStr db_name) None csv_path df None None).

(** [DBTable.csv_to_dataframe(separator)] *)
Definition csv_to_dataframe (self : tref) (separator : string) : M tref :=
  t ← get_table self;
  text ← read_file (csv_path t);
  df ← lift_res (read_csv text separator);
  update_table self (set_dataframe df);;
  mret self.

(** [DBTable.dataframe_to_csv(separator)] *)
Definition dataframe_to_csv (self : tref) (separator : string) : M tref :=
  t ← get_table self;
  write_file (csv_path t) (to_csv (dataframe t) separator);;
  mret self.

End Csv.

End TableMethods.

(** ** [src/database/database.py]: [DatabaseGenerator] *)

Module DatabaseGenerator.

(** The body of the loop of [create_from_dict] for one table, with
    [return_dict] passed through. *)
Definition create_step (db_dict : list (string * tref))
    (return_dict : list (string * dbref)) (table : tref)
  : M (list (string * dbref)) :=
  t ← get_table table;
  match db_name t with
  | OStr db_name =>
      return_dict' ←
        match PyDict.get db_name return_dict with
        | Some db =>
            update_table table (set_database (Some db));;
            mret return_dict
        | None =>
            match PyDict.last_item db_dict with
            | None => raise KeyError
            | Some (_, last) =>
                lt ← get_table last;
                db ← Database.init db_name (Some (parent (csv_path lt)))
                                   "replace";
                n ← Database.getattr db "name";
                match n with
                | OStr key =>
                    update_table table (set_database (Some db));;
                    mret (PyDict.set key db return_dict)
                | _ => raise TypeError
                end
            end
        end;
      TableMethods.add table;;
      mret return_dict'
  | _ => raise TypeError
  end.

Fixpoint create_loop (db_dict : list (string * tref))
    (return_dict : list (string * dbref)) (tables : list tref)
  : M (list (string * dbref)) :=
  match tables with
  | [] => mret return_dict
  | table :: rest =>
      return_dict' ← create_step db_dict return_dict table;
      create_loop db_dict return_dict' rest
  end.

(** [DatabaseGenerator.create_from_dict(db_dict)] *)
Definition create_from_dict (db_dict : list (string * tref))
  : M (list (string * dbref)) :=
  create_loop db_dict [] (PyDict.values db_dict).

End DatabaseGenerator.

(** ** [src/database/import_csv.py] *)

Module ImportCsv.

(** *** File-name patterns and stems *)

Inductive glob_token : Type :=
  | Star
  | Lit (c : ascii).

(** [fnmatch] for patterns of literals and [*]. *)
Fixpoint fnmatch (pattern : list glob_token) (s : string) : bool :=
  match pattern with
  | [] => match s with EmptyString => true | _ => false end
  | Lit c :: rest =>
      match s with
      | String c' s' => Ascii.eqb c c' && fnmatch rest s'
      | EmptyString => false
      end
  | Star :: rest =>
      (fix star (s : string) : bool :=
         fnmatch rest s
         || match s with
            | String _ s' => star s'
            | EmptyString => false
            end) s
  end.

(** The pattern [*_*.csv]. *)
Definition csv_pattern : list glob_token :=
  [Star; Lit "_"; Star; Lit "."; Lit "c"; Lit "s"; Lit "v"]%char.

(** [glob] does not let a leading [*] match a hidden file. *)
Definition hidden (file : string) : bool :=
  match file with
  | String "."%char _ => true
  | _ => false
  end.

(** Whether a path component holds one of the characters [glob] gives a
    meaning to. *)
Fixpoint has_magic (s : string) : bool :=
  match s with
  | EmptyString => false
  | String c s' =>
      Ascii.eqb c "*"%char || Ascii.eqb c "?"%char || Ascii.eqb c "["%char
      || has_magic s'
  end.

(** A folder path [glob] takes literally. *)
Definition literal_folder (p : Path) : bool :=
  forallb (fun c => negb (has_magic c)) p.

(** [glob(f"{data_folder}/*_*.csv")] for a [literal_folder].  [glob]
    matches the names of all entries of the folder, sub-directories as well
    as regular files.  The order is that of the directory listing, which
    nothing fixes; here the regular files come in the order of [files], then
    the directories in the order of [dirs]. *)
Definition glob_csv (data_folder : Path) (w : World) : list Path :=
  List.filter
    (fun p => match last p with
              | Some file =>
                  bool_decide (parent p = data_folder)
                  && negb (hidden file) && fnmatch csv_pattern file
              | None => false
              end)
    (map fst (files w) ++ dirs w).

(** [name.rfind(".")] *)
Fixpoint rfind_dot (s : string) : option nat :=
  match s with
  | EmptyString => None
  | String c s' =>
      match rfind_dot s' with
      | Some i => Some (S i)
      | None => if Ascii.eqb c "."%char then Some 0 else None
      end
  end.

(** [Path.stem] *)
Definition stem (p : Path) : string :=
  let file := default "" (last p) in
  match rfind_dot file with
  | Some i =>
      if (0 <? i) && (i <? String.length file - 1)
      then String.substring 0 i file
      else file
  | None => file
  end.

(** [s.split("_")] *)
Fixpoint split_underscore (s : string) : list string :=
  match s with
  | EmptyString => [EmptyString]
  | String c s' =>
      if Ascii.eqb c "_"%char then EmptyString :: split_underscore s'
      else match split_underscore s' with
           | part :: parts => String c part :: parts
           | [] => [String c EmptyString]
           end
  end.

Section Csv.

Variable read_csv : string -> string -> res DataFrame.

(** The body of the loop of [gather_csv_paths]; unpacking anything but two
    parts raises [ValueError]. *)
Definition gather_step (import_dict : list (string * tref)) (path : Path)
  : M (list (string * tref)) :=
  let total_name := stem path in
  match split_underscore total_name with
  | [database_name; table_name] =>
      t ← TableMethods.new read_csv table_name database_name path;
      mret (PyDict.set total_name t import_dict)
  | _ => raise ValueError
  end.

Fixpoint gather_loop (import_dict : list (string * tref))
    (paths : list Path) : M (list (string * tref)) :=
  match paths with
  | [] => mret import_dict
  | path :: rest =>
      import_dict' ← gather_step import_dict path;
      gather_loop import_dict' rest
  end.

(** [gather_csv_paths(data_folder)] *)
Definition gather_csv_paths (data_folder : Path)
  : M (list (string * tref)) :=
  w ← get_world;
  gather_loop [] (glob_csv data_folder w).

End Csv.

End ImportCsv.

(** ** [src/__main__.py] *)

Module Main.

(** [column in {"Mjob", "Fjob"}] *)
Definition in_job_columns (column : string) : bool :=
  String.eqb column "Mjob" || String.eqb column "Fjob".

Section Upper.

(** [str.upper], taken as given: Python upper-cases by the Unicode tables,
    and the function below only compares the result with ASCII literals. *)
Variable str_upper : string -> string.

(** [students_str_map(value, column)].  A [match] statement runs the first
    matching [case] block and then leaves the statement; the ["OTHER"] block
    has no [return] after its [if]/[elif] chain, so control reaches the end
    of the function, which returns [None]. *)
Definition students_str_map (value : pyval) (column : string) : pyval :=
  match value with
  | PyStr s =>
      let u := str_upper s in
      if String.eqb u "YES" then PyInt 1
      else if String.eqb u "NO" then PyInt 0
      else if String.eqb u "OTHER" then
        if String.eqb column "reason" then PyInt 3
        else if String.eqb column "guardian" then PyInt 2
        else if in_job_columns column then PyInt 4
        else PyNone
      else if String.eqb u "GP" then PyInt 0
      else if String.eqb u "MS" then PyInt 1
      else if String.eqb u "F" then PyInt 0
      else if String.eqb u "M" then PyInt 1
      else if String.eqb u "U" then PyInt 0
      else if String.eqb u "R" then PyInt 1
      else if String.eqb u "LE3" then PyInt 0
      else if String.eqb u "GT3" then PyInt 1
      else if String.eqb u "T" then PyInt 0
      else if String.eqb u "A" then PyInt 1
      else if String.eqb u "TEACHER" then PyInt 0
      else if String.eqb u "HEALTH" then PyInt 1
      else if String.eqb u "SERVICES" then PyInt 2
      else if String.eqb u "AT_HOME" then PyInt 3
      else if String.eqb u "HOME" then PyInt 0
      else if String.eqb u "REPUTATION" then PyInt 1
      else if String.eqb u "COURSE" then PyInt 2
      else if String.eqb u "MOTHER" then PyInt 0
      else if String.eqb u "FATHER" then PyInt 1
      else value
  | _ => value
  end.

End Upper.

(** The code table of the specification (section 6), column-independent
    keys only. *)
Definition listed_codes : list (string * Z) :=
  [ ("YES", 1); ("NO", 0); ("GP", 0); ("MS", 1); ("F", 0); ("M", 1);
    ("U", 0); ("R", 1); ("LE3", 0); ("GT3", 1); ("T", 0); ("A", 1);
    ("TEACHER", 0); ("HEALTH", 1); ("SERVICES", 2); ("AT_HOME", 3);
    ("HOME", 0); ("REPUTATION", 1); ("COURSE", 2); ("MOTHER", 0);
    ("FATHER", 1) ]%Z.

(** Every key the specification lists, ["OTHER"] included. *)
Definition recognized_keys : list string :=
  "OTHER" :: map fst listed_codes.

Section Csv.

Variable read_csv : string -> string -> res DataFrame.
Variable to_csv : DataFrame -> string -> string.

(** [table_dict[key].index_label = label] *)
Definition set_label (table_dict : list (string * tref)) (key label : string)
  : M unit :=
  match PyDict.get key table_dict with
  | Some t => update_table t (set_index_label label)
  | None => raise KeyError
  end.

(** [prepare_tables(table_dict)] *)
Definition prepare_tables (table_dict : list (string * tref)) : M unit :=
  set_label table_dict "students_description" "DID";;
  set_label table_dict "students_math" "MUID";;
  set_label table_dict "students_portuguese" "PUID";;
  for_each (fun tab => TableMethods.modify_index_on tab;; mret tt)
           (PyDict.values table_dict);;
  for_each (fun tab => TableMethods.dataframe_to_csv to_csv tab ";";;
                       mret tt)
           (PyDict.values table_dict);;
  match PyDict.get "students_description" table_dict with
  | Some t => (d ← get_table t; ic (IcFrame (dataframe d)))
  | None => raise KeyError
  end.

(** [main()] *)
Definition main : M Z :=
  w ← get_world;
  let db_folder := cwd w ++ ["data"] in
  import_csv ← ImportCsv.gather_csv_paths read_csv db_folder;
  ic (IcTables import_csv);;
  prepare_tables import_csv;;
  db_dict ← DatabaseGenerator.create_from_dict import_csv;
  match PyDict.get "students" db_dict with
  | Some _ => mret 0%Z
  | None => raise KeyError
  end.

End Csv.

End Main.

(** ** Definitions used in the statements *)

(** The world an outcome leaves. *)
Definition world_of {A : Type} (o : outcome A) : World :=
  match o with
  | Returns _ w => w
  | Raises _ w => w
  end.

(** Names [Database.setattr] refuses. *)
Definition unsettable : list string :=
  ["table_names"; "__weakref__"; "__class__"; "__dict__"].

(** The last three statements of [Database.add_table]. *)
Definition store_phase (self : dbref) (table : tref) : M dbref :=
  Database.lookup_method self "add_table_to_database";;
  Database.add_table_to_database self table;;
  mret self.

(** Whether [hasattr(self, n)] holds for a name [n] that is not a property,
    on an instance dictionary [d]. *)
Definition warns (d : gmap string pyobj) (n : string) : bool :=
  bool_decide (is_Some (d !! n))
  || bool_decide (n ∈ Database.methods ++ Database.object_attributes).

(** The warning [Database.add_table] hands to [ic]. *)
Definition warning (n : string) : ic_value :=
  IcStr ("changing " +:+ n +:+ " to new value.").

(** The world [Database.add_table] has built when it reaches its last three
    statements: [t] is the table object and [d] the instance dictionary
    before the call, [n] and [l] the database's [name] and [tables]. *)
Definition after_bookkeeping (self : dbref) (table : tref) (n : pyobj)
    (d : gmap string pyobj) (l : list tref) (t : DBTable) (w : World)
  : World :=
  mkWorld (cwd w) (dirs w) (files w) (stores w)
    (alter (set_db_name n) table
       (alter (set_database (Some self)) table (table_heap w)))
    (alter (insert (name t) (OTable table)) self
       (alter (insert "tables" (OTableList (l ++ [table]))) self
          (database_heap w)))
    (if warns (<["tables" := OTableList (l ++ [table])]> d) (name t)
     then ic_output w ++ [warning (name t)]
     else ic_output w).

(** The world [Database.add_table] has built when it reaches
    [self.__setattr__]: as [after_bookkeeping], the attribute not yet
    bound. *)
Definition before_binding (self : dbref) (table : tref) (n : pyobj)
    (d : gmap string pyobj) (l : list tref) (t : DBTable) (w : World)
  : World :=
  mkWorld (cwd w) (dirs w) (files w) (stores w)
    (alter (set_db_name n) table
       (alter (set_database (Some self)) table (table_heap w)))
    (alter (insert "tables" (OTableList (l ++ [table]))) self
       (database_heap w))
    (if warns (<["tables" := OTableList (l ++ [table])]> d) (name t)
     then ic_output w ++ [warning (name t)]
     else ic_output w).

(** Example objects. *)
Definition marks_frame : DataFrame :=
  mkFrame (Some "MUID") [PyInt 0; PyInt 1]
          [("age", [PyInt 15; PyInt 16]); ("sex", [PyStr "F"; PyStr "M"])].

Definition resit_frame : DataFrame :=
  mkFrame (Some "MUID") [PyInt 0] [("age", [PyInt 17]); ("sex", [PyStr "M"])].

Definition example_table (name db : string) (df : DataFrame) : DBTable :=
  mkTable name (OStr db) (Some "MUID")
          ["data"; db +:+ "_" +:+ name +:+ ".csv"] df None None.

(** The table used against the unguarded idempotence claim: a CSV with its
    own identifier column [id]. *)
Definition table_with_id_column : DBTable :=
  {| name := "math"; db_name := OStr "school"; index_label := Some "id";
     csv_path := ["data"; "school_math.csv"];
     dataframe := {| index_name := None;
                     index_values := [PyInt 0; PyInt 1];
                     columns := [("id", [PyInt 10; PyInt 20]);
                                 ("x", [PyStr "a"; PyStr "b"])] |};
     database := None; index := None |}.

(** A world with the folder [/data] and the given table objects, no
    database yet. *)
Definition world_with (tables : list DBTable) : World :=
  mkWorld ["home"] [[]; ["data"]] [] ∅ tables [] [].

(** Two states of a table object that differ at most in the slots
    [Database.add_table] assigns ([database] and [db_name]). *)
Definition same_table_data (a b : DBTable) : Prop :=
  name a = name b /\ index_label a = index_label b /\
  csv_path a = csv_path b /\ dataframe a = dataframe b /\ index a = index b.

(** Two table objects named [math], and a database [school] for them. *)
Definition two_maths : World :=
  world_with [example_table "math" "school" marks_frame;
              example_table "math" "school" resit_frame].

Definition school_world (if_exists : string) (tables : list DBTable)
  : World :=
  world_of (Database.init "school" (Some ["data"]) if_exists
                          (world_with tables)).

(** Registering the table objects 0 and 1 with the database object 0. *)
Definition register_both : M (list string) :=
  Database.add_table 0 0;;
  Database.add_table 0 1;;
  Database.table_names 0.

(** A table object whose name is that of the read-only property. *)
Definition property_named : World :=
  school_world "replace"
    [example_table "table_names" "school" marks_frame].

(** A table object named like the method [add_table] calls to bind it,
    and a second one. *)
Definition setattr_named : World :=
  school_world "replace"
    [example_table "__setattr__" "school" marks_frame;
     example_table "math" "school" resit_frame].

(** A table object named like the owned list. *)
Definition tables_named : World :=
  school_world "replace" [example_table "tables" "school" marks_frame].

(** How many tables of a store carry the name [n]. *)
Definition tables_named_in (n : string) (s : Store) : nat :=
  length (List.filter (fun e => String.eqb n (fst e)) s).

(** The instance dictionary [Database.__init__] leaves. *)
Definition fresh_dict (n : string) (dir : Path) (mode : string)
  : gmap string pyobj :=
  let p := joinpath dir (n +:+ ".db") in
  <["cursor" := OCursor p]>
    (<["connection" := OConnection p]>
       (<["if_exists" := OStr mode]>
          (<["cursor" := ONone]>
             (<["connection" := ONone]>
                (<["path" := OPath p]>
                   (<["folder" := OPath dir]>
                      (<["tables" := OTableList []]>
                         (<["name" := OStr n]> ∅)))))))).

(** The database's [name] attribute still holds the string [n], or a table
    object that a registration under the name ["name"] has put there. *)
Definition name_or_rebound (v : option pyobj) (n : string) : Prop :=
  v = Some (OStr n) \/ exists x, v = Some (OTable x).

(** Traces a registration of the table object [r], named [m], leaves in the
    database object [db]: an attribute [m] holding a table object, and [r]
    in the owned list as long as the attribute [tables] holds the list. *)
Definition registered_in (db : dbref) (r : tref) (m : string) (w : World)
  : Prop :=
  (exists r', Database.instance_dict db w !! m = Some (OTable r')) /\
  (forall l, Database.instance_dict db w !! "tables" = Some (OTableList l) ->
     r ∈ l).

(** State of the table object [r], [t0] before [create_from_dict], once the
    loop has handled it with [return_dict] now [acc]. *)
Definition processed (acc : list (string * dbref)) (w : World) (r : tref)
    (t0 : DBTable) : Prop :=
  exists ti n db,
    table_heap w !! r = Some ti /\ same_table_data t0 ti /\
    db_name t0 = OStr n /\ PyDict.get n acc = Some db /\
    database ti = Some db /\
    name_or_rebound (Some (db_name ti)) n /\
    registered_in db r (name t0) w.

(** Invariant of the loop of [create_from_dict]: [w0] is the world at the
    call, [done] the tables handled so far. *)
Record loop_invariant (w0 : World) (done : list tref)
    (acc : list (string * dbref)) (w : World) : Prop := mkInv {
  inv_heap : length (table_heap w) = length (table_heap w0);
  inv_len : length (database_heap w)
            = length (database_heap w0) + length acc;
  inv_vals : PyDict.values acc
             = seq (length (database_heap w0)) (length acc);
  inv_keys : NoDup (PyDict.keys acc);
  inv_names : forall k db, PyDict.get k acc = Some db ->
      name_or_rebound (Database.instance_dict db w !! "name") k;
  inv_tables : forall r t0, table_heap w0 !! r = Some t0 ->
      table_heap w !! r = Some t0 \/ processed acc w r t0;
  inv_done : forall r t0, r ∈ done -> table_heap w0 !! r = Some t0 ->
      processed acc w r t0;
  inv_used : forall k, k ∈ PyDict.keys acc ->
      exists r t0, r ∈ done /\ table_heap w0 !! r = Some t0 /\
                   db_name t0 = OStr k
}.

(** Three prepared tables for two databases, as [gather_csv_paths] would
    return them. *)
Definition three_tables : World :=
  world_with [example_table "math" "school" marks_frame;
              example_table "portuguese" "school" resit_frame;
              example_table "grades" "uni" marks_frame].

Definition three_tables_dict : list (string * tref) :=
  [("school_math", 0); ("school_portuguese", 1); ("uni_grades", 2)].

(** Number of underscores of a stem. *)
Fixpoint count_underscores (s : string) : nat :=
  match s with
  | EmptyString => 0
  | String c s' =>
      (if Ascii.eqb c "_"%char then 1 else 0) + count_underscores s'
  end.

(** A stand-in for [pd.read_csv] in examples: every text is read as a CSV
    with a header and no rows, the text being the only column label. *)
Definition header_only (text sep : string) : res DataFrame :=
  Ok (mkFrame None [] [(text, [])]).

(** A folder [/data] with the two files of the specification's example,
    listed after a file the pattern does not match. *)
Definition school_folder : World :=
  mkWorld ["home"] [[]; ["data"]]
          [(["data"; "notes.txt"], "n");
           (["data"; "school_portuguese.csv"], "G1;G2");
           (["data"; "school_math.csv"], "G1;G2;G3")]
          ∅ [] [] [].

(** A folder [/data] with one file whose stem has two underscores. *)
Definition underscored_folder : World :=
  mkWorld ["home"] [[]; ["data"]]
          [(["data"; "high_school_math.csv"], "G1;G2")] ∅ [] [] [].

(** The paths [glob] matches for [*_*.csv]. *)
Definition globbed (data_folder : Path) (p : Path) : bool :=
  match last p with
  | Some file =>
      bool_decide (parent p = data_folder)
      && negb (ImportCsv.hidden file)
      && ImportCsv.fnmatch ImportCsv.csv_pattern file
  | None => false
  end.

(** What every entry of the mapping under construction satisfies. *)
Definition well_split (w : World) (entry : string * tref) : Prop :=
  exists t db tb,
    table_heap w !! entry.2 = Some t /\
    ImportCsv.split_underscore entry.1 = [db; tb] /\
    db_name t = OStr db /\ name t = tb.

(** ** Further definitions used in the statements *)

(** A database name that gives one path component [name.db]: no path
    separator and no NUL character. *)
Definition plain_name (s : string) : bool :=
  forallb (fun c => negb (Ascii.eqb c "/"%char || Ascii.eqb c "000"%char))
          (list_ascii_of_string s).

(** Whether a proper ancestor of [p] is a regular file. *)
Definition under_file (p : Path) (w : World) : bool :=
  existsb (fun q => is_file q w) (removelast (prefixes p)).

(** The folder [Database.__init__] uses. *)
Definition database_folder (folder : option Path) (w : World) : Path :=
  match folder with
  | Some dir => dir
  | None => parent (cwd w) ++ ["data"]
  end.



(** The table object at [x] is named [n]. *)
Definition named (w : World) (x : tref) (n : string) : Prop :=
  exists T, table_heap w !! x = Some T /\ name T = n.

(** A file the scanner can turn into a table: its stem has two parts and
    pandas parses its text. *)
Definition loadable (read_csv : string -> string -> res DataFrame)
    (w : World) (p : Path) : Prop :=
  (exists db tb,
     ImportCsv.split_underscore (ImportCsv.stem p) = [db; tb]) /\
  (exists text df,
     lookup_file p (files w) = Some text /\ read_csv text ";" = Ok df).

(** The table object the scanner builds for the file [p]. *)
Definition scanned (read_csv : string -> string -> res DataFrame)
    (w : World) (p : Path) (t : DBTable) : Prop :=
  exists db tb text df,
    ImportCsv.split_underscore (ImportCsv.stem p) = [db; tb] /\
    lookup_file p (files w) = Some text /\
    read_csv text ";" = Ok df /\
    t = mkTable tb (OStr db) None p df None None.

(** The keys [prepare_tables] looks up, with the labels it assigns. *)
Definition student_labels : list (string * string) :=
  [("students_description", "DID"); ("students_math", "MUID");
   ("students_portuguese", "PUID")].

(** The table heap after the three assignments of [prepare_tables]. *)
Definition label_tables (d : list (string * tref)) (th : list DBTable)
  : list DBTable :=
  fold_left (fun h kl => match PyDict.get (fst kl) d with
                         | Some r => alter (set_index_label (snd kl)) r h
                         | None => h
                         end)
            student_labels th.

(** The table under the key [k] once [prepare_tables] has assigned the
    labels. *)
Definition relabel (k : string) (t : DBTable) : DBTable :=
  match PyDict.get k student_labels with
  | Some l => set_index_label l t
  | None => t
  end.

(** [main] up to its last statement, the lookup of ["students"]. *)
Definition pipeline (read_csv : string -> string -> res DataFrame)
    (to_csv : DataFrame -> string -> string) : M (list (string * dbref)) :=
  w ← get_world;
  import_csv ← ImportCsv.gather_csv_paths read_csv (cwd w ++ ["data"]);
  ic (IcTables import_csv);;
  Main.prepare_tables to_csv import_csv;;
  DatabaseGenerator.create_from_dict import_csv.

(** The three files [main] is written for, in a folder [data] of the
    working directory. *)
Definition students_paths (w : World) : list Path :=
  [cwd w ++ ["data"; "students_description.csv"];
   cwd w ++ ["data"; "students_math.csv"];
   cwd w ++ ["data"; "students_portuguese.csv"]].

(** A stand-in for [DataFrame.to_csv] in examples: the header line only. *)
Definition header_line (df : DataFrame) (sep : string) : string :=
  String.concat sep (labels df).

(** A working directory [/home] whose folder [data] holds the three
    files. *)
Definition students_folder : World :=
  mkWorld ["home"] [[]; ["home"]; ["home"; "data"]]
          [(["home"; "data"; "students_math.csv"], "school;sex;age");
           (["home"; "data"; "students_description.csv"], "field;meaning");
           (["home"; "data"; "students_portuguese.csv"], "school;sex;age")]
          ∅ [] [] [].

(** Every database of the mapping [acc] is connected to the store
    [dir/name.db], which exists, as does the folder [dir]. *)
Definition connected_in (dir : Path) (acc : list (string * dbref))
    (w : World) : Prop :=
  forall n db, PyDict.get n acc = Some db ->
    dir ∈ dirs w /\
    Database.instance_dict db w !! "connection"
      = Some (OConnection (joinpath dir (n +:+ ".db"))) /\
    is_Some (stores w !! joinpath dir (n +:+ ".db")).

(** No directory is matched by the pattern in [folder]: [glob] returns a
    matched directory along with the files, and loading it raises. *)
Definition only_files_match (folder : Path) (w : World) : bool :=
  forallb (fun q => negb (globbed folder q)) (dirs w).



(** ** Theorems: the normalisation map *)

Lemma upper_idempotent (s : string) : upper (upper s) = upper s.
Proof.
  induction s as [|c s IH]; simpl; [reflexivity|].
  rewrite IH. f_equal.
  destruct c as [[] [] [] [] [] [] [] []]; reflexivity.
Qed.

(** C7. Case-insensitively (the value is compared after [str.upper]),
    ["OTHER"] maps to 4 in columns [Mjob] and [Fjob], to 3 in column
    [reason] and to 2 in column [guardian]; every other listed key maps to
    its listed code whatever the column; and a string that is not a
    recognized key is returned unchanged. *)
Theorem students_str_map_table (str_upper : string -> string)
    (v column : string) :
  (str_upper v = "OTHER" ->
     ((column = "Mjob" \/ column = "Fjob") ->
        Main.students_str_map str_upper (PyStr v) column = PyInt 4) /\
     (column = "reason" ->
        Main.students_str_map str_upper (PyStr v) column = PyInt 3) /\
     (column = "guardian" ->
        Main.students_str_map str_upper (PyStr v) column = PyInt 2)) /\
  (forall k c, In (k, c) Main.listed_codes -> str_upper v = k ->
     Main.students_str_map str_upper (PyStr v) column = PyInt c) /\
  (~ In (str_upper v) Main.recognized_keys ->
     Main.students_str_map str_upper (PyStr v) column = PyStr v).
Proof.
  split; [|split].
  - intros Hu. unfold Main.students_str_map. rewrite Hu. simpl.
    split; [|split].
    + intros [-> | ->]; reflexivity.
    + intros ->; reflexivity.
    + intros ->; reflexivity.
  - intros k c Hin Hu. unfold Main.students_str_map. rewrite Hu.
    unfold Main.listed_codes in Hin. simpl in Hin.
    repeat (destruct Hin as [Hin | Hin];
            [injection Hin as <- <-; reflexivity|]).
    contradiction.
  - intros Hnot. unfold Main.students_str_map.
    set (u := str_upper v) in *.
    repeat match goal with
    | |- context [String.eqb u ?k] =>
        destruct (String.eqb_spec u k) as [E | _];
        [exfalso; apply Hnot; rewrite E; simpl; tauto|]
    end.
    reflexivity.
Qed.

Lemma students_str_map_table_witness :
  Main.students_str_map upper (PyStr "Other") "Fjob" = PyInt 4 /\
  Main.students_str_map upper (PyStr "other") "reason" = PyInt 3 /\
  Main.students_str_map upper (PyStr "OTHER") "guardian" = PyInt 2 /\
  Main.students_str_map upper (PyStr "at_home") "Mjob" = PyInt 3 /\
  Main.students_str_map upper (PyStr "15") "age" = PyStr "15".
Proof.
  split; [|split; [|split; [|split]]].
  - apply (students_str_map_table upper "Other" "Fjob");
      [reflexivity | right; reflexivity].
  - apply (students_str_map_table upper "other" "reason"); reflexivity.
  - apply (students_str_map_table upper "OTHER" "guardian"); reflexivity.
  - apply (proj1 (proj2 (students_str_map_table upper "at_home" "Mjob"))
                 "AT_HOME" 3%Z);
      [simpl; tauto | reflexivity].
  - apply (students_str_map_table upper "15" "age").
    vm_compute. intuition discriminate.
Defined.

(** C10. ["OTHER"] (in any letter case) in a column other than [reason],
    [guardian], [Mjob], [Fjob] yields [None], not the value. *)
Theorem students_str_map_other_elsewhere (str_upper : string -> string)
    (v column : string) :
  str_upper v = "OTHER" ->
  column <> "reason" -> column <> "guardian" ->
  column <> "Mjob" -> column <> "Fjob" ->
  Main.students_str_map str_upper (PyStr v) column = PyNone /\
  Main.students_str_map str_upper (PyStr v) column <> PyStr v.
Proof.
  intros Hu Hr Hg Hm Hf.
  assert (E : Main.students_str_map str_upper (PyStr v) column = PyNone).
  { unfold Main.students_str_map, Main.in_job_columns. rewrite Hu. simpl.
    destruct (String.eqb_spec column "reason"); [contradiction|].
    destruct (String.eqb_spec column "guardian"); [contradiction|].
    destruct (String.eqb_spec column "Mjob"); [contradiction|].
    destruct (String.eqb_spec column "Fjob"); [contradiction|].
    reflexivity. }
  split; [exact E | rewrite E; discriminate].
Qed.

Lemma students_str_map_other_elsewhere_witness :
  Main.students_str_map upper (PyStr "Other") "school" = PyNone /\
  Main.students_str_map upper (PyStr "Other") "school" <> PyStr "Other".
Proof.
  apply (students_str_map_other_elsewhere upper "Other" "school");
    [reflexivity | discriminate ..].
Defined.

(** ** Theorems: index assignment ([DBTable.modify_index]) *)

Section FrameFacts.

Implicit Types (label : string) (cols : list (string * list pyval)).

Lemma column_values_none label cols :
  existsb (String.eqb label) (map fst cols) = false ->
  column_values label cols = None.
Proof.
  induction cols as [|[l vs] cols IH]; simpl; [reflexivity|].
  destruct (String.eqb label l); simpl; [discriminate | exact IH].
Qed.

Lemma column_values_some label cols :
  existsb (String.eqb label) (map fst cols) = true ->
  exists vs, column_values label cols = Some vs.
Proof.
  induction cols as [|[l vs] cols IH]; simpl; [discriminate|].
  destruct (String.eqb label l); simpl; [eauto | exact IH].
Qed.

Lemma drop_column_absent label cols :
  existsb (String.eqb label) (map fst cols) = false ->
  drop_column label cols = cols.
Proof.
  induction cols as [|[l vs] cols IH]; simpl; [reflexivity|].
  destruct (String.eqb label l); simpl; [discriminate|].
  intros H. f_equal. exact (IH H).
Qed.

Lemma drop_column_removes label cols :
  existsb (String.eqb label) (map fst (drop_column label cols)) = false.
Proof.
  induction cols as [|[l vs] cols IH]; simpl; [reflexivity|].
  destruct (String.eqb label l) eqn:E; simpl; [exact IH|].
  rewrite E. exact IH.
Qed.

Lemma length_range_values (n : nat) : length (range_values n) = n.
Proof. unfold range_values. rewrite length_map. apply length_seq. Qed.

End FrameFacts.

Section ModifyIndexFacts.

Implicit Types (t : DBTable) (l : string) (df : DataFrame).

(** What a successful [insert] at position 0 produces. *)
Lemma insert_front_ok l vs df df1 :
  insert_front l vs df = Ok df1 ->
  has_column l df = false /\
  index_name df1 = index_name df /\
  nrows df1 = length vs /\
  exists cs, columns df1 = (l, vs) :: cs /\ map fst cs = labels df /\
             (length vs = nrows df -> df1 = mkFrame (index_name df)
                                                   (index_values df)
                                                   ((l, vs) :: columns df)).
Proof.
  unfold insert_front. destruct (has_column l df) eqn:Hc; [discriminate|].
  destruct (Nat.eqb (nrows df) 0 && Nat.ltb 0 (length vs)) eqn:Hgrow.
  - intros [= <-]. apply andb_prop in Hgrow as [Hz Hpos].
    apply Nat.eqb_eq in Hz. apply Nat.ltb_lt in Hpos.
    simpl. repeat split.
    + unfold nrows. simpl. apply length_range_values.
    + eexists. split; [reflexivity|]. split.
      * unfold labels. rewrite map_map. reflexivity.
      * intros Hlen. lia.
  - destruct (Nat.eqb (length vs) (nrows df)) eqn:Hlen; [|discriminate].
    apply Nat.eqb_eq in Hlen. intros [= <-]. simpl. repeat split.
    + unfold nrows in *. simpl. lia.
    + eexists. split; [reflexivity|]. split; reflexivity.
Qed.

(** An [insert] of one value per row succeeds on a frame without the
    label. *)
Lemma insert_front_fits l vs df :
  has_column l df = false -> length vs = nrows df ->
  insert_front l vs df =
    Ok (mkFrame (index_name df) (index_values df) ((l, vs) :: columns df)).
Proof.
  intros Hc Hlen. unfold insert_front. rewrite Hc.
  destruct (Nat.eqb (nrows df) 0 && Nat.ltb 0 (length vs)) eqn:Hgrow.
  - apply andb_prop in Hgrow as [Hz Hpos].
    apply Nat.eqb_eq in Hz. apply Nat.ltb_lt in Hpos. lia.
  - rewrite Hlen, Nat.eqb_refl. reflexivity.
Qed.

(** Promoting the column that was just put in front. *)
Lemma set_index_front l vs cs df :
  columns df = (l, vs) :: cs ->
  existsb (String.eqb l) (map fst cs) = false ->
  set_index l df = Ok (mkFrame (Some l) vs cs).
Proof.
  intros Hcols Hfresh. unfold set_index. rewrite Hcols. simpl.
  rewrite String.eqb_refl. simpl.
  rewrite (drop_column_absent _ _ Hfresh). reflexivity.
Qed.

(** The branch of [modify_index] taken when the label is not a column. *)
Lemma modify_index_insert_branch t l :
  index_label t = Some l ->
  has_column l (dataframe t) = false ->
  let idx := match index t with
             | None => range_values (nrows (dataframe t))
             | Some vs => vs
             end in
  modify_index t =
    match insert_front l idx (dataframe t) with
    | Raise e => Raise e
    | Ok df1 =>
        Ok (set_dataframe (mkFrame (Some l) idx (tl (columns df1)))
                          (set_index_attr (Some idx) t))
    end.
Proof.
  intros Hl Hc idx. unfold modify_index. rewrite Hl, Hc. fold idx.
  destruct (insert_front l idx (dataframe t)) as [df1|e] eqn:Hins;
    [|reflexivity].
  destruct (insert_front_ok _ _ _ _ Hins) as (_ & _ & _ & cs & Hcs & Hlab & _).
  rewrite (set_index_front l idx cs df1 Hcs).
  - rewrite Hcs. reflexivity.
  - rewrite Hlab. exact Hc.
Qed.

End ModifyIndexFacts.

(** C1, as stated, fails: on a table whose [index_label] names an existing
    column, the second run inserts a fresh column [0..N-1] under the label
    and promotes it, so the identifiers taken from the file are lost. *)
Lemma modify_index_twice_replaces_identifiers :
  exists t1 t2,
    modify_index table_with_id_column = Ok t1 /\
    modify_index t1 = Ok t2 /\
    index_values (dataframe t1) = [PyInt 10; PyInt 20] /\
    index_values (dataframe t2) = [PyInt 0; PyInt 1] /\
    dataframe t2 <> dataframe t1.
Proof.
  eexists _, _. split; [reflexivity|]. split; [reflexivity|].
  split; [reflexivity|]. split; [reflexivity|]. discriminate.
Qed.

(** C1, amended.  After a successful first run on a table with label [l]:
    (i) if [l] was not a column before the first run, a second run succeeds
    and leaves the whole object as the first run left it;
    (ii) if [l] named a column and no identifiers were pre-assigned, the
    second run succeeds, keeps the regular columns and the index name, and
    puts [0..N-1] in place of the index values;
    (iii) whenever the second run succeeds, [l] is the index name and is not
    among the regular columns, whose labels are those left by the first
    run. *)
Theorem modify_index_twice (t t1 : DBTable) (l : string) :
  index_label t = Some l ->
  modify_index t = Ok t1 ->
  (has_column l (dataframe t) = false -> modify_index t1 = Ok t1) /\
  (has_column l (dataframe t) = true -> index t = None ->
     exists t2, modify_index t1 = Ok t2 /\
       columns (dataframe t2) = columns (dataframe t1) /\
       index_name (dataframe t2) = index_name (dataframe t1) /\
       index_values (dataframe t2) = range_values (nrows (dataframe t1))) /\
  (forall t2, modify_index t1 = Ok t2 ->
     index_name (dataframe t2) = Some l /\
     has_column l (dataframe t2) = false /\
     labels (dataframe t2) = labels (dataframe t1)).
Proof.
  intros Hl H1.
  destruct (has_column l (dataframe t)) eqn:Hc.
  - (* the label named a column: the first run only promotes it *)
    unfold modify_index in H1. rewrite Hl, Hc in H1.
    unfold set_index in H1.
    destruct (column_values l (columns (dataframe t))) as [vs|] eqn:Hv;
      [|discriminate].
    injection H1 as <-.
    set (df1 := mkFrame (Some l) vs (drop_column l (columns (dataframe t)))).
    assert (Hc1 : has_column l df1 = false)
      by (unfold has_column, labels; simpl; apply drop_column_removes).
    split; [discriminate|]. split.
    + intros _ Hi.
      pose proof (modify_index_insert_branch (set_dataframe df1 t) l Hl Hc1)
        as Hrun.
      simpl in Hrun. rewrite Hi in Hrun.
      rewrite (insert_front_fits l _ df1 Hc1) in Hrun
        by (rewrite length_range_values; reflexivity).
      eexists. split; [exact Hrun|]. simpl. repeat split.
    + intros t2 H2.
      rewrite (modify_index_insert_branch (set_dataframe df1 t) l Hl Hc1)
        in H2.
      simpl in H2.
      destruct (insert_front l _ df1) as [df2|e] eqn:Hins; [|discriminate].
      injection H2 as <-.
      destruct (insert_front_ok _ _ _ _ Hins)
        as (_ & _ & _ & cs & Hcs & Hlab & _).
      simpl. rewrite Hcs. simpl. repeat split.
      * unfold has_column, labels. simpl. rewrite Hlab. exact Hc1.
      * unfold labels. simpl. exact Hlab.
  - (* the label was not a column: the first run inserts and promotes *)
    rewrite (modify_index_insert_branch t l Hl Hc) in H1.
    destruct (insert_front l _ (dataframe t)) as [df1|e] eqn:Hins;
      [|discriminate].
    injection H1 as <-.
    destruct (insert_front_ok _ _ _ _ Hins)
      as (_ & _ & Hn & cs & Hcs & Hlab & _).
    rewrite Hcs. simpl.
    set (idx := match index t with
                | Some vs => vs
                | None => range_values (nrows (dataframe t))
                end) in *.
    set (df' := mkFrame (Some l) idx cs).
    set (t1 := set_dataframe df' (set_index_attr (Some idx) t)).
    assert (Hc1 : has_column l df' = false)
      by (unfold has_column, labels; simpl; rewrite Hlab; exact Hc).
    assert (Hrun : modify_index t1 = Ok t1).
    { rewrite (modify_index_insert_branch t1 l Hl Hc1). simpl.
      rewrite (insert_front_fits l idx df' Hc1) by reflexivity.
      reflexivity. }
    split; [intros _; exact Hrun|]. split; [discriminate|].
    intros t2 H2. rewrite Hrun in H2. injection H2 as <-.
    simpl. repeat split. exact Hc1.
Qed.

Lemma modify_index_twice_witness :
  exists t1,
    modify_index (set_index_label "MUID" table_with_id_column) = Ok t1 /\
    modify_index t1 = Ok t1.
Proof.
  eexists. split; [reflexivity|].
  refine (proj1 (modify_index_twice
                   (set_index_label "MUID" table_with_id_column) _ "MUID"
                   eq_refl eq_refl) eq_refl).
Defined.

(** ** Theorems: [Database.add_table] *)

Ltac run_head := cbv beta iota delta
    [mbind M_bind mret M_ret update_table modify_world
     Database.getattr Database.assign get_table Database.hasattr ic
     Database.setattr raise Database.instance_dict
     set_table_heap set_database_heap set_ic_output set_stores
     table_heap database_heap ic_output stores cwd dirs files].

Ltac run := cbv beta iota delta
    [mbind M_bind mret M_ret update_table modify_world
     Database.getattr Database.assign get_table Database.hasattr ic
     Database.setattr raise Database.instance_dict Database.lookup_method
     Database.add_table_to_database Database.to_sql store_phase
     set_table_heap set_database_heap set_ic_output set_stores
     table_heap database_heap ic_output stores cwd dirs files].

Ltac run_start := cbv beta iota delta
    [mbind M_bind mret M_ret update_table modify_world
     Database.getattr Database.assign get_table Database.hasattr ic
     raise Database.instance_dict
     set_table_heap set_database_heap set_ic_output set_stores
     table_heap database_heap ic_output stores cwd dirs files].

Lemma unsettable_checks (n : string) :
  n ∉ unsettable <->
  bool_decide (n ∈ Database.properties ++ ["__weakref__"]) = false /\
  bool_decide (n ∈ ["__class__"; "__dict__"]) = false.
Proof.
  rewrite !bool_decide_eq_false, !list_elem_of_In.
  unfold unsettable, Database.properties. simpl. tauto.
Qed.

Lemma unsettable_not_property (n : string) :
  n ∉ unsettable -> bool_decide (n ∈ Database.properties) = false.
Proof.
  rewrite bool_decide_eq_false, !list_elem_of_In.
  unfold unsettable, Database.properties. simpl. tauto.
Qed.

(** [add_table] up to the call of [self.__setattr__], for a table whose
    name is not that of the property. *)
Lemma add_table_start self table w d t l nm :
  database_heap w !! self = Some d ->
  d !! "tables" = Some (OTableList l) ->
  d !! "name" = Some nm ->
  table_heap w !! table = Some t ->
  bool_decide (name t ∈ Database.properties) = false ->
  Database.add_table self table w =
  (Database.setattr self (name t) (OTable table);;
   store_phase self table) (before_binding self table nm d l t w).
Proof.
  intros Hd Hl Hn Ht Hp.
  destruct w as [cw di fi st th dh io].
  cbn [table_heap database_heap] in Hd, Ht.
  unfold Database.add_table, before_binding.
  run_start. rewrite Hd. simpl default. rewrite Hn. run_start.
  rewrite Hd. simpl default.
  rewrite Hl. run_start.
  rewrite !list_lookup_alter_eq, Ht. simpl fmap. run_start.
  change (name (set_db_name nm (set_database (Some self) t))) with (name t).
  rewrite Hp. run_start.
  rewrite list_lookup_alter_eq, Hd. simpl fmap. simpl default.
  unfold warns, store_phase, warning.
  destruct (_ || _); run_start; reflexivity.
Qed.

Lemma add_table_forward self table w d t l nm :
  database_heap w !! self = Some d ->
  d !! "tables" = Some (OTableList l) ->
  d !! "name" = Some nm ->
  table_heap w !! table = Some t ->
  name t ∉ unsettable ->
  d !! "__setattr__" = None ->
  Database.add_table self table w =
  store_phase self table (after_bookkeeping self table nm d l t w).
Proof.
  intros Hd Hl Hn Ht Hs Hu.
  pose proof (unsettable_not_property _ Hs) as Hp.
  rewrite (add_table_start _ _ _ _ _ _ _ Hd Hl Hn Ht Hp).
  apply unsettable_checks in Hs as [Hp2 Hp3].
  destruct w as [cw di fi st th dh io]. cbn [database_heap] in Hd.
  unfold before_binding, after_bookkeeping.
  cbv beta iota delta
    [mbind M_bind Database.setattr Database.lookup_method
     Database.instance_dict database_heap].
  rewrite list_lookup_alter_eq, Hd. simpl fmap. simpl default.
  rewrite lookup_insert_ne, Hu by discriminate.
  rewrite Hp2, Hp3. run_start. reflexivity.
Qed.

(** Once an instance attribute hides [__setattr__], [add_table] raises
    [TypeError] where it calls it: the table is in the owned list by then,
    and no attribute is bound. *)
Lemma add_table_shadowed self table w d t l nm v :
  database_heap w !! self = Some d ->
  d !! "tables" = Some (OTableList l) ->
  d !! "name" = Some nm ->
  table_heap w !! table = Some t ->
  bool_decide (name t ∈ Database.properties) = false ->
  d !! "__setattr__" = Some v ->
  Database.add_table self table w =
  Raises TypeError (before_binding self table nm d l t w).
Proof.
  intros Hd Hl Hn Ht Hp Hu.
  rewrite (add_table_start _ _ _ _ _ _ _ Hd Hl Hn Ht Hp).
  destruct w as [cw di fi st th dh io]. cbn [database_heap] in Hd.
  unfold before_binding.
  cbv beta iota delta
    [mbind M_bind Database.setattr Database.lookup_method
     Database.instance_dict database_heap].
  rewrite list_lookup_alter_eq, Hd. simpl fmap. simpl default.
  rewrite lookup_insert_ne, Hu by discriminate. reflexivity.
Qed.

Ltac stuck_after_hasattr :=
  match goal with
  | |- match ?h with _ => _ end = _ -> _ =>
      destruct h as [[] ?|? ?]; run; try discriminate;
      match goal with
      | |- context [?x !! "__setattr__"] =>
          destruct (x !! "__setattr__"); discriminate
      end
  end.

Lemma add_table_returns_pre self table w r w1 :
  Database.add_table self table w = Returns r w1 ->
  exists d t l nm,
    database_heap w !! self = Some d /\
    d !! "tables" = Some (OTableList l) /\
    d !! "name" = Some nm /\
    table_heap w !! table = Some t /\
    (name t ∉ unsettable) /\
    d !! "__setattr__" = None.
Proof.
  intros H0. pose proof H0 as H. revert H.
  destruct w as [cw di fi st th dh io].
  unfold Database.add_table. run.
  destruct (dh !! self) as [d|] eqn:Hd; simpl default;
    [|rewrite lookup_empty; discriminate].
  destruct (d !! "name") as [nm|] eqn:Hn; [|discriminate]. run.
  rewrite Hd. simpl default.
  destruct (d !! "tables") as [ts|] eqn:Hl; [|discriminate]. run.
  destruct ts as [| | |l| | |]; try discriminate. run.
  rewrite !list_lookup_alter_eq.
  destruct (th !! table) as [t|] eqn:Ht; simpl fmap; run; [|discriminate].
  change (name (set_db_name nm (set_database (Some self) t))) with (name t).
  intros H.
  assert (Hs : name t ∉ unsettable).
  { apply unsettable_checks.
    destruct (bool_decide (name t ∈ Database.properties ++ ["__weakref__"]));
      [exfalso; revert H; stuck_after_hasattr|].
    destruct (bool_decide (name t ∈ ["__class__"; "__dict__"]));
      [exfalso; revert H; stuck_after_hasattr|].
    split; reflexivity. }
  exists d, t, l, nm. repeat split; try assumption.
  clear H.
  rewrite (add_table_start self table (mkWorld cw di fi st th dh io)
             d t l nm Hd Hl Hn Ht (unsettable_not_property _ Hs)) in H0.
  revert H0. unfold before_binding.
  cbv beta iota delta
    [mbind M_bind Database.setattr Database.lookup_method
     Database.instance_dict database_heap].
  rewrite list_lookup_alter_eq, Hd. simpl fmap. simpl default.
  rewrite lookup_insert_ne by discriminate.
  destruct (d !! "__setattr__"); [discriminate | reflexivity].
Qed.

Lemma store_phase_frame self table w :
  let w' := world_of (store_phase self table w) in
  database_heap w' = database_heap w /\ table_heap w' = table_heap w /\
  ic_output w' = ic_output w /\ files w' = files w /\ dirs w' = dirs w /\
  cwd w' = cwd w.
Proof.
  destruct w as [cw di fi st th dh io]. unfold store_phase. run.
  destruct (default ∅ (dh !! self) !! "add_table_to_database"); run;
    [simpl; tauto|].
  destruct (th !! table) as [t|]; run; [|simpl; tauto].
  destruct (default ∅ (dh !! self) !! "connection") as [con|]; run;
    [|simpl; tauto].
  destruct (default ∅ (dh !! self) !! "if_exists") as [ife|]; run;
    [|simpl; tauto].
  destruct (index_label t) as [label|]; [|simpl; tauto].
  destruct ife as [|mode| | | | |]; try (simpl; tauto).
  destruct (valid_if_exists mode); [|simpl; tauto].
  destruct con as [| | | |p| |]; try (simpl; tauto).
  destruct (write_frame mode (name t) label (dataframe t)
                        (default [] (st !! p))) as [s' [e|]];
    simpl; tauto.
Qed.

Lemma store_phase_returns self table w r w1 :
  store_phase self table w = Returns r w1 ->
  exists t p mode label s',
    table_heap w !! table = Some t /\
    Database.instance_dict self w !! "connection" = Some (OConnection p) /\
    Database.instance_dict self w !! "if_exists" = Some (OStr mode) /\
    Database.instance_dict self w !! "add_table_to_database" = None /\
    valid_if_exists mode = true /\
    index_label t = Some label /\
    write_frame mode (name t) label (dataframe t)
                (default [] (stores w !! p)) = (s', None) /\
    r = self /\
    w1 = set_stores (<[p := s']> (stores w)) w.
Proof.
  destruct w as [cw di fi st th dh io]. unfold store_phase. run.
  destruct (default ∅ (dh !! self) !! "add_table_to_database") eqn:Hm;
    [discriminate|]. run.
  destruct (th !! table) as [t|] eqn:Ht; [|discriminate]. run.
  destruct (default ∅ (dh !! self) !! "connection") as [con|] eqn:Hc;
    [|discriminate]. run.
  destruct (default ∅ (dh !! self) !! "if_exists") as [ife|] eqn:Hi;
    [|discriminate]. run.
  destruct (index_label t) as [label|] eqn:Hlab; [|discriminate].
  destruct ife as [|mode| | | | |]; try discriminate.
  destruct (valid_if_exists mode) eqn:Hv; [|discriminate].
  destruct con as [| | | |p| |]; try discriminate.
  destruct (write_frame mode (name t) label (dataframe t)
                        (default [] (st !! p))) as [s' [e|]] eqn:Hw;
    [discriminate|].
  intros [= <- <-].
  exists t, p, mode, label, s'. repeat split; assumption.
Qed.

Section Bookkeeping.

Variables (self : dbref) (table : tref) (nm : pyobj) (d : gmap string pyobj)
  (l : list tref) (t : DBTable) (w : World).

Let wb := after_bookkeeping self table nm d l t w.

Lemma instance_dict_after_bookkeeping :
  database_heap w !! self = Some d ->
  database_heap wb !! self =
    Some (<[name t := OTable table]>
            (<["tables" := OTableList (l ++ [table])]> d)).
Proof.
  intros Hd. unfold wb, after_bookkeeping. cbn [database_heap].
  rewrite !list_lookup_alter_eq, Hd. reflexivity.
Qed.

Lemma other_database_after_bookkeeping (other : dbref) :
  other <> self -> database_heap wb !! other = database_heap w !! other.
Proof.
  intros Hne. unfold wb, after_bookkeeping. cbn [database_heap].
  rewrite !list_lookup_alter_ne by congruence. reflexivity.
Qed.

Lemma table_after_bookkeeping :
  table_heap w !! table = Some t ->
  table_heap wb !! table = Some (set_db_name nm (set_database (Some self) t)).
Proof.
  intros Ht. unfold wb, after_bookkeeping. cbn [table_heap].
  rewrite !list_lookup_alter_eq, Ht. reflexivity.
Qed.

Lemma other_table_after_bookkeeping (other : tref) :
  other <> table -> table_heap wb !! other = table_heap w !! other.
Proof.
  intros Hne. unfold wb, after_bookkeeping. cbn [table_heap].
  rewrite !list_lookup_alter_ne by congruence. reflexivity.
Qed.

End Bookkeeping.

Lemma add_table_returns self table w r w1 :
  Database.add_table self table w = Returns r w1 ->
  exists d t l nm p mode label s',
    database_heap w !! self = Some d /\
    d !! "tables" = Some (OTableList l) /\
    d !! "name" = Some nm /\
    table_heap w !! table = Some t /\
    (name t ∉ unsettable) /\
    (let d' := <[name t := OTable table]>
                 (<["tables" := OTableList (l ++ [table])]> d) in
     d' !! "connection" = Some (OConnection p) /\
     d' !! "if_exists" = Some (OStr mode)) /\
    valid_if_exists mode = true /\
    index_label t = Some label /\
    write_frame mode (name t) label (dataframe t)
                (default [] (stores w !! p)) = (s', None) /\
    r = self /\
    w1 = set_stores (<[p := s']> (stores w))
                    (after_bookkeeping self table nm d l t w).
Proof.
  intros H.
  destruct (add_table_returns_pre _ _ _ _ _ H)
    as (d & t & l & nm & Hd & Hl & Hn & Ht & Hs & Hu).
  rewrite (add_table_forward _ _ _ _ _ _ _ Hd Hl Hn Ht Hs Hu) in H.
  destruct (store_phase_returns _ _ _ _ _ H)
    as (t' & p & mode & label & s' & Ht' & Hc & Hi & _ & Hv & Hlab & Hw
        & -> & ->).
  rewrite (table_after_bookkeeping _ _ _ _ _ _ _ Ht) in Ht'.
  injection Ht' as <-.
  unfold Database.instance_dict in Hc, Hi.
  rewrite (instance_dict_after_bookkeeping _ _ _ _ _ _ _ Hd) in Hc, Hi.
  simpl in Hc, Hi.
  exists d, t, l, nm, p, mode, label, s'.
  repeat split; assumption.
Qed.

Lemma same_table_data_refl a : same_table_data a a.
Proof. repeat split. Qed.

Lemma same_table_data_trans a b c :
  same_table_data a b -> same_table_data b c -> same_table_data a c.
Proof.
  unfold same_table_data. intros (?&?&?&?&?) (?&?&?&?&?).
  repeat split; congruence.
Qed.

(** [Database.add_table] leaves the data slots of every table object. *)
Lemma add_table_keeps_table_data self table w r w1 x T :
  Database.add_table self table w = Returns r w1 ->
  table_heap w !! x = Some T ->
  exists T', table_heap w1 !! x = Some T' /\ same_table_data T T'.
Proof.
  intros H HT.
  destruct (add_table_returns _ _ _ _ _ H)
    as (d & t & l & nm & p & mode & label & s' & _ & _ & _ & Ht & _ & _ & _
        & _ & _ & _ & ->).
  cbn [table_heap set_stores].
  destruct (decide (x = table)) as [->|Hne].
  - rewrite (table_after_bookkeeping _ _ _ _ _ _ _ Ht).
    rewrite Ht in HT. injection HT as <-.
    eexists. split; [reflexivity|]. repeat split.
  - rewrite other_table_after_bookkeeping by exact Hne.
    exists T. split; [exact HT | apply same_table_data_refl].
Qed.

Lemma names_of_world l w ns w' :
  Database.names_of l w = Returns ns w' -> w' = w.
Proof.
  revert ns w'. induction l as [|r l IH]; intros ns w'; simpl.
  - intros [= _ <-]. reflexivity.
  - cbv beta iota delta [mbind M_bind mret M_ret get_table].
    destruct (table_heap w !! r); [|discriminate].
    destruct (Database.names_of l w) as [ns' w''|] eqn:E; [|discriminate].
    intros [= _ <-]. eapply IH. reflexivity.
Qed.

Lemma names_of_app l1 l2 w w2 ns1 :
  Database.names_of l1 w = Returns ns1 w ->
  (forall r T, table_heap w !! r = Some T ->
     exists T', table_heap w2 !! r = Some T' /\ name T = name T') ->
  Database.names_of (l1 ++ l2) w2 =
    match Database.names_of l2 w2 with
    | Returns ns2 w' => Returns (ns1 ++ ns2) w'
    | Raises e w' => Raises e w'
    end.
Proof.
  intros H Hkeep. revert ns1 H.
  induction l1 as [|r l1 IH]; intros ns1; simpl.
  - intros [= <-]. destruct (Database.names_of l2 w2); reflexivity.
  - cbv beta iota delta [mbind M_bind mret M_ret get_table].
    destruct (table_heap w !! r) as [T|] eqn:HT; [|discriminate].
    destruct (Hkeep _ _ HT) as (T' & -> & Hname).
    destruct (Database.names_of l1 w) as [ns' w''|] eqn:E; [|discriminate].
    pose proof (names_of_world _ _ _ _ E) as ->.
    intros [= <-]. rewrite (IH _ eq_refl).
    destruct (Database.names_of l2 w2); [|reflexivity].
    rewrite Hname. reflexivity.
Qed.

(** C2, amended.  Two registrations under one name, both returning: the
    owned list holds both tables in call order (the earlier entry stays, so
    [table_names] lists the name twice); the attribute of that name is
    rebound to the second table and the second call logs the warning. *)
Theorem add_table_same_name_twice
    (self : dbref) (t1 t2 : tref) (w w1 w2 : World) (r1 r2 : dbref)
    (T1 T2 : DBTable) (d : gmap string pyobj) (l : list tref) :
  database_heap w !! self = Some d ->
  d !! "tables" = Some (OTableList l) ->
  table_heap w !! t1 = Some T1 ->
  table_heap w !! t2 = Some T2 ->
  name T1 = name T2 ->
  Database.add_table self t1 w = Returns r1 w1 ->
  Database.add_table self t2 w1 = Returns r2 w2 ->
  Database.instance_dict self w2 !! "tables"
    = Some (OTableList (l ++ [t1; t2])) /\
  Database.instance_dict self w2 !! name T2 = Some (OTable t2) /\
  ic_output w2 = ic_output w1 ++ [warning (name T2)] /\
  (forall ns, Database.table_names self w = Returns ns w ->
     Database.table_names self w2 = Returns (ns ++ [name T1; name T2]) w2).
Proof.
  intros Hd Hl HT1 HT2 Hname H1 H2.
  destruct (add_table_keeps_table_data _ _ _ _ _ t2 T2 H1 HT2)
    as (T2a & HT2a & Hsame2).
  pose proof H1 as H1'. pose proof H2 as H2'.
  apply add_table_returns in H1
    as (d0 & T1' & l0 & nm & p & mode & label & s' & Hd0 & Hl0 & Hn & Ht1
        & Hs1 & _ & _ & _ & _ & _ & Hw1).
  rewrite Hd in Hd0. injection Hd0 as <-.
  rewrite Hl in Hl0. injection Hl0 as <-.
  rewrite HT1 in Ht1. injection Ht1 as <-.
  apply add_table_returns in H2
    as (d1 & T2' & l1 & nm1 & p1 & mode1 & label1 & s1 & Hd1 & Hl1 & Hn1
        & Ht2 & Hs2 & _ & _ & _ & _ & _ & Hw2).
  rewrite HT2a in Ht2. injection Ht2 as <-.
  assert (Hn2 : name T2a = name T2) by (symmetry; apply Hsame2).
  rewrite Hn2 in Hs2.
  rewrite Hw1 in Hd1. cbn [database_heap set_stores] in Hd1.
  rewrite (instance_dict_after_bookkeeping _ _ _ _ _ _ _ Hd) in Hd1.
  injection Hd1 as <-. rewrite Hname in Hl1.
  assert (Hnt : name T2 <> "tables").
  { intros E. rewrite E, lookup_insert_eq in Hl1. discriminate. }
  rewrite lookup_insert_ne, lookup_insert_eq in Hl1 by exact Hnt.
  injection Hl1 as <-.
  assert (Hdict : database_heap w2 !! self =
            Some (<[name T2 := OTable t2]>
                    (<["tables" := OTableList ((l ++ [t1]) ++ [t2])]>
                       (<[name T2 := OTable t1]>
                          (<["tables" := OTableList (l ++ [t1])]> d))))).
  { rewrite Hw2. cbn [database_heap set_stores].
    erewrite instance_dict_after_bookkeeping.
    - rewrite Hn2, Hname. reflexivity.
    - rewrite Hw1. cbn [database_heap set_stores].
      apply instance_dict_after_bookkeeping. exact Hd. }
  assert (Htabs : Database.instance_dict self w2 !! "tables"
                  = Some (OTableList (l ++ [t1; t2]))).
  { unfold Database.instance_dict. rewrite Hdict. simpl default.
    rewrite lookup_insert_ne, lookup_insert_eq by exact Hnt.
    rewrite <- app_assoc. reflexivity. }
  split; [exact Htabs|]. split; [|split].
  - unfold Database.instance_dict. rewrite Hdict. simpl default.
    apply lookup_insert_eq.
  - rewrite Hw2. cbn [ic_output set_stores after_bookkeeping].
    rewrite !Hn2, Hname.
    assert (Hwarn : warns (<["tables" := OTableList ((l ++ [t1]) ++ [t2])]>
                             (<[name T2 := OTable t1]>
                                (<["tables" := OTableList (l ++ [t1])]> d)))
                          (name T2) = true).
    { unfold warns. apply orb_true_intro. left. apply bool_decide_eq_true.
      rewrite lookup_insert_ne, lookup_insert_eq by congruence. eauto. }
    rewrite Hwarn. reflexivity.
  - intros ns Hns. unfold Database.table_names in *.
    cbv beta iota delta [mbind M_bind Database.getattr] in *.
    rewrite Htabs.
    unfold Database.instance_dict in Hns. rewrite Hd in Hns.
    simpl default in Hns. rewrite Hl in Hns.
    assert (Hkeep : forall r T, table_heap w !! r = Some T ->
              exists T', table_heap w2 !! r = Some T' /\ name T = name T').
    { intros r T HT.
      destruct (add_table_keeps_table_data _ _ _ _ _ r T H1' HT)
        as (Ta & HTa & Hsa).
      destruct (add_table_keeps_table_data _ _ _ _ _ r Ta H2' HTa)
        as (Tb & HTb & Hsb).
      exists Tb. split; [exact HTb|].
      transitivity (name Ta); [apply Hsa | apply Hsb]. }
    rewrite (names_of_app l [t1; t2] w w2 ns Hns Hkeep).
    destruct (Hkeep _ _ HT1) as (T1b & HT1b & Hn1b).
    destruct (Hkeep _ _ HT2) as (T2b & HT2b & Hn2b).
    simpl. cbv beta iota delta [mbind M_bind mret M_ret get_table].
    rewrite HT1b, HT2b. rewrite <- Hn1b, <- Hn2b, Hname. reflexivity.
Qed.

(** C2, as stated, fails: after two registrations under the name [math] the
    owned collection holds two tables of that name. *)
Lemma add_table_keeps_earlier_entry :
  exists names w',
    register_both (school_world "replace" (table_heap two_maths))
      = Returns names w' /\
    names = ["math"; "math"] /\
    Database.instance_dict 0 w' !! "tables" = Some (OTableList [0; 1]) /\
    ~ NoDup names.
Proof.
  eexists _, _. split; [vm_compute; reflexivity|].
  split; [reflexivity|]. split; [vm_compute; reflexivity|].
  intros Hnd. apply NoDup_cons_1_1 in Hnd. apply Hnd. left.
Qed.

Lemma add_table_same_name_twice_witness :
  exists w1 w2,
    Database.add_table 0 0 (school_world "replace" (table_heap two_maths))
      = Returns 0 w1 /\
    Database.add_table 0 1 w1 = Returns 0 w2 /\
    Database.instance_dict 0 w2 !! "tables" = Some (OTableList [0; 1]).
Proof.
  eexists _, _. split; [vm_compute; reflexivity|].
  split; [vm_compute; reflexivity|].
  refine (proj1 (add_table_same_name_twice 0 0 1
                   (school_world "replace" (table_heap two_maths)) _ _ 0 0
                   (example_table "math" "school" marks_frame)
                   (example_table "math" "school" resit_frame)
                   (Database.instance_dict 0
                      (school_world "replace" (table_heap two_maths)))
                   [] _ _ _ _ _ _ _)).
  - vm_compute. reflexivity.
  - vm_compute. reflexivity.
  - vm_compute. reflexivity.
  - vm_compute. reflexivity.
  - reflexivity.
  - vm_compute. reflexivity.
  - vm_compute. reflexivity.
Defined.

(** ** Theorems: the relational store *)

Section StoreFacts.

Implicit Types (s : Store) (n : string).

Lemma table_exists_drop n s : table_exists n (drop_table n s) = false.
Proof.
  unfold table_exists, drop_table.
  induction s as [|[k v] s IH]; simpl; [reflexivity|].
  destruct (String.eqb n k) eqn:E; simpl; [exact IH|].
  rewrite E. exact IH.
Qed.

Lemma drop_table_absent n s :
  table_exists n s = false -> drop_table n s = s.
Proof.
  unfold table_exists, drop_table.
  induction s as [|[k v] s IH]; simpl; [reflexivity|].
  destruct (String.eqb n k); simpl; [discriminate|].
  intros H. f_equal. exact (IH H).
Qed.

Lemma get_after_absent n s (t : StoredTable) :
  table_exists n s = false -> PyDict.get n (s ++ [(n, t)]) = Some t.
Proof.
  unfold table_exists.
  induction s as [|[k v] s IH]; simpl.
  - rewrite String.eqb_refl. reflexivity.
  - destruct (String.eqb n k); simpl; [discriminate | exact IH].
Qed.

Lemma tables_named_in_after_absent n s (t : StoredTable) :
  table_exists n s = false -> tables_named_in n (s ++ [(n, t)]) = 1.
Proof.
  unfold table_exists, tables_named_in.
  induction s as [|[k v] s IH]; simpl.
  - rewrite String.eqb_refl. reflexivity.
  - destruct (String.eqb n k); simpl; [discriminate | exact IH].
Qed.

(** A successful write in mode [replace] leaves exactly the new table under
    the name. *)
Lemma write_frame_replace n label df s s' :
  write_frame "replace" n label df s = (s', None) ->
  s' = drop_table n s ++ [(n, frame_to_sql label df)].
Proof.
  unfold write_frame.
  destruct (table_exists n s) eqn:Hex; simpl.
  - destruct (has_column label df); intros [= <-]. reflexivity.
  - destruct (has_column label df); intros [= <-].
    rewrite (drop_table_absent _ _ Hex). reflexivity.
Qed.

Lemma table_exists_snoc n s (t : StoredTable) :
  table_exists n (s ++ [(n, t)]) = true.
Proof.
  unfold table_exists. rewrite map_app, existsb_app. simpl.
  rewrite String.eqb_refl. apply orb_true_iff. right. reflexivity.
Qed.

Lemma put_table_names n (t : StoredTable) s :
  map fst (put_table n t s) = map fst s.
Proof.
  unfold put_table. rewrite map_map. apply map_ext.
  intros e. destruct (String.eqb n (fst e)); reflexivity.
Qed.

(** A successful write, in any mode, leaves a table of that name. *)
Lemma write_frame_stores_table mode n label df s s' :
  write_frame mode n label df s = (s', None) ->
  table_exists n s' = true.
Proof.
  unfold write_frame.
  destruct (table_exists n s) eqn:Hex.
  - destruct (String.eqb mode "fail"); [discriminate|].
    destruct (String.eqb mode "replace").
    + destruct (has_column label df); intros [= <-].
      apply table_exists_snoc.
    + destruct (has_column label df); [discriminate|].
      destruct (PyDict.get n s) as [old|]; [|discriminate].
      destruct (insert_rows (nrows df) (frame_to_sql label df) old);
        intros [= <-].
      unfold table_exists. rewrite put_table_names. exact Hex.
  - destruct (has_column label df); intros [= <-].
    apply table_exists_snoc.
Qed.

End StoreFacts.

(** C9, as stated, fails: not every call of [add_table] binds the table.
    A table named like the read-only property [table_names] is appended to
    the owned list, but [__setattr__] refuses the name, so the call raises
    before any attribute is bound.  And once a table named [__setattr__] has
    been registered, the instance attribute of that name hides the method:
    the next call, for a table named [math], raises [TypeError] where it
    calls [self.__setattr__], the table in the owned list and no attribute
    [math] bound. *)
Lemma add_table_does_not_always_bind :
  (exists w',
     Database.add_table 0 0 property_named = Raises AttributeError w' /\
     Database.instance_dict 0 w' !! "table_names" = None /\
     Database.instance_dict 0 w' !! "tables" = Some (OTableList [0])) /\
  (exists w1 w2,
     Database.add_table 0 0 setattr_named = Returns 0 w1 /\
     Database.instance_dict 0 w1 !! "__setattr__" = Some (OTable 0) /\
     Database.add_table 0 1 w1 = Raises TypeError w2 /\
     Database.instance_dict 0 w2 !! "math" = None /\
     Database.instance_dict 0 w2 !! "tables" = Some (OTableList [0; 1])).
Proof.
  split.
  - eexists. split; [vm_compute; reflexivity|].
    split; vm_compute; reflexivity.
  - eexists _, _. split; [vm_compute; reflexivity|].
    split; [vm_compute; reflexivity|].
    split; [vm_compute; reflexivity|].
    split; vm_compute; reflexivity.
Qed.

(** C9, amended.  A call of [add_table] on a database object (its [tables]
    attribute holding the owned list, no instance attribute hiding
    [__setattr__]) with a table whose name [__setattr__]
    accepts appends the table to the owned list and binds the table object
    as the instance attribute named [table.name], whether or not the write
    to the store that follows raises; whatever the attribute of that name
    held before (for the names ["tables"], ["name"], ["connection"],
    ["cursor"]: the database's own field) is overwritten by the table
    object, and the other attributes are left as they were.  When the call
    returns, the store behind the connection holds a table of that name. *)
Theorem add_table_binds_table_name
    (self : dbref) (table : tref) (w : World) (d : gmap string pyobj)
    (l : list tref) (nm : pyobj) (t : DBTable) :
  database_heap w !! self = Some d ->
  d !! "tables" = Some (OTableList l) ->
  d !! "name" = Some nm ->
  d !! "__setattr__" = None ->
  table_heap w !! table = Some t ->
  name t ∉ unsettable ->
  let w' := world_of (Database.add_table self table w) in
  Database.instance_dict self w' !! name t = Some (OTable table) /\
  (name t <> "tables" ->
     Database.instance_dict self w' !! "tables"
       = Some (OTableList (l ++ [table]))) /\
  (forall a, a <> name t -> a <> "tables" ->
     Database.instance_dict self w' !! a = d !! a) /\
  (forall r w1, Database.add_table self table w = Returns r w1 ->
     exists p s, d !! "connection" = Some (OConnection p) /\
                 stores w1 !! p = Some s /\
                 table_exists (name t) s = true).
Proof.
  intros Hd Hl Hn Hu Ht Hs w'. subst w'.
  rewrite (add_table_forward _ _ _ _ _ _ _ Hd Hl Hn Ht Hs Hu).
  split; [|split; [|split]].
  - unfold Database.instance_dict.
    destruct (store_phase_frame self table
                (after_bookkeeping self table nm d l t w)) as (-> & _).
    rewrite (instance_dict_after_bookkeeping _ _ _ _ _ _ _ Hd).
    apply lookup_insert_eq.
  - intros Hne.
    unfold Database.instance_dict.
    destruct (store_phase_frame self table
                (after_bookkeeping self table nm d l t w)) as (-> & _).
    rewrite (instance_dict_after_bookkeeping _ _ _ _ _ _ _ Hd).
    simpl default. rewrite lookup_insert_ne by exact Hne.
    apply lookup_insert_eq.
  - intros a Ha Hat.
    unfold Database.instance_dict.
    destruct (store_phase_frame self table
                (after_bookkeeping self table nm d l t w)) as (-> & _).
    rewrite (instance_dict_after_bookkeeping _ _ _ _ _ _ _ Hd).
    simpl default. rewrite !lookup_insert_ne by congruence. reflexivity.
  - intros r w1 H.
    rewrite <- (add_table_forward _ _ _ _ _ _ _ Hd Hl Hn Ht Hs Hu) in H.
    apply add_table_returns in H
      as (d0 & t0 & l0 & nm0 & p & mode & label & s' & Hd0 & _ & _ & Ht0 & _
          & [Hc _] & _ & _ & Hw & _ & ->).
    rewrite Hd in Hd0. injection Hd0 as <-.
    rewrite Ht in Ht0. injection Ht0 as <-.
    assert (Hnc : name t <> "connection").
    { intros E. rewrite E, lookup_insert_eq in Hc. discriminate. }
    rewrite !lookup_insert_ne in Hc by congruence.
    exists p, s'. split; [exact Hc|]. cbn [stores set_stores].
    split; [apply lookup_insert_eq|].
    exact (write_frame_stores_table _ _ _ _ _ _ Hw).
Qed.

Lemma add_table_binds_table_name_witness :
  Database.instance_dict 0 (world_of (Database.add_table 0 0 tables_named))
    !! "tables" = Some (OTable 0).
Proof.
  refine (proj1 (add_table_binds_table_name 0 0 tables_named
                   (Database.instance_dict 0 tables_named) [] (OStr "school")
                   (example_table "tables" "school" marks_frame)
                   _ _ _ _ _ _)).
  - vm_compute. reflexivity.
  - vm_compute. reflexivity.
  - vm_compute. reflexivity.
  - vm_compute. reflexivity.
  - vm_compute. reflexivity.
  - rewrite list_elem_of_In. simpl. intuition discriminate.
Defined.

(** ** Theorems: two registrations and the store *)

(** C4, as stated, fails: on a database built with [if_exists="append"]
    the second registration adds its rows to those of the first. *)
Lemma add_table_append_keeps_first_rows :
  exists names w' s,
    register_both (school_world "append" (table_heap two_maths))
      = Returns names w' /\
    stores w' !! ["data"; "school.db"] = Some s /\
    PyDict.get "math" s
      = Some [("MUID", [PyInt 0; PyInt 1; PyInt 0]);
              ("age", [PyInt 15; PyInt 16; PyInt 17]);
              ("sex", [PyStr "F"; PyStr "M"; PyStr "M"])] /\
    PyDict.get "math" s <> Some (frame_to_sql "MUID" resit_frame).
Proof.
  eexists _, _, _. split; [vm_compute; reflexivity|].
  split; [vm_compute; reflexivity|].
  split; [reflexivity | discriminate].
Qed.

(** C4, amended.  On a database whose [if_exists] is ["replace"] (the
    default of the constructor), two registrations under one name, both
    returning, leave in the store behind the connection exactly one table
    of that name, and it holds the second table's frame: its index under
    the table's [index_label], then its columns. *)
Theorem add_table_replaces_stored_table
    (self : dbref) (t1 t2 : tref) (w w1 w2 : World) (r1 r2 : dbref)
    (T1 T2 : DBTable) (d : gmap string pyobj) (p : Path) (label : string) :
  database_heap w !! self = Some d ->
  d !! "connection" = Some (OConnection p) ->
  d !! "if_exists" = Some (OStr "replace") ->
  table_heap w !! t1 = Some T1 ->
  table_heap w !! t2 = Some T2 ->
  name T1 = name T2 ->
  index_label T2 = Some label ->
  Database.add_table self t1 w = Returns r1 w1 ->
  Database.add_table self t2 w1 = Returns r2 w2 ->
  exists s,
    stores w2 !! p = Some s /\
    PyDict.get (name T2) s = Some (frame_to_sql label (dataframe T2)) /\
    tables_named_in (name T2) s = 1.
Proof.
  intros Hd Hcon Hmode HT1 HT2 Hname Hlab H1 H2.
  destruct (add_table_keeps_table_data _ _ _ _ _ t2 T2 H1 HT2)
    as (T2a & HT2a & Hn2 & Hl2 & _ & Hdf2 & _).
  apply add_table_returns in H1
    as (d0 & T1' & l & nm & p0 & mode0 & label0 & s0 & Hd0 & Hl0 & _ & Ht1
        & _ & _ & _ & _ & _ & _ & Hw1).
  rewrite Hd in Hd0. injection Hd0 as <-.
  rewrite HT1 in Ht1. injection Ht1 as <-.
  apply add_table_returns in H2
    as (d1 & T2' & l1 & nm1 & p1 & mode1 & label1 & s1 & Hd1 & Hl1 & _
        & Ht2 & _ & [Hc1 Hi1] & _ & Hlab1 & Hwrite & _ & Hw2).
  rewrite HT2a in Ht2. injection Ht2 as <-.
  rewrite Hw1 in Hd1. cbn [database_heap set_stores] in Hd1.
  rewrite (instance_dict_after_bookkeeping _ _ _ _ _ _ _ Hd) in Hd1.
  injection Hd1 as <-.
  rewrite <- Hn2, <- Hname in Hc1, Hi1.
  assert (Hnt : name T1 <> "tables").
  { intros E. rewrite E, lookup_insert_eq in Hl1. discriminate. }
  assert (Hnc : name T1 <> "connection").
  { intros E. rewrite E, lookup_insert_eq in Hc1. discriminate. }
  assert (Hni : name T1 <> "if_exists").
  { intros E. rewrite E, lookup_insert_eq in Hi1. discriminate. }
  rewrite !lookup_insert_ne in Hc1, Hi1 by congruence.
  rewrite Hcon in Hc1. injection Hc1 as <-.
  rewrite Hmode in Hi1. injection Hi1 as <-.
  rewrite <- Hl2, Hlab in Hlab1. injection Hlab1 as <-.
  rewrite <- Hn2, <- Hdf2 in Hwrite.
  apply write_frame_replace in Hwrite.
  exists s1. rewrite Hw2. cbn [stores set_stores].
  split; [apply lookup_insert_eq|]. rewrite Hwrite. split.
  - apply get_after_absent, table_exists_drop.
  - apply tables_named_in_after_absent, table_exists_drop.
Qed.

Lemma add_table_replaces_stored_table_witness :
  exists w1 w2 s,
    Database.add_table 0 0 (school_world "replace" (table_heap two_maths))
      = Returns 0 w1 /\
    Database.add_table 0 1 w1 = Returns 0 w2 /\
    stores w2 !! ["data"; "school.db"] = Some s /\
    PyDict.get "math" s = Some (frame_to_sql "MUID" resit_frame) /\
    tables_named_in "math" s = 1.
Proof.
  destruct (add_table_replaces_stored_table 0 0 1
              (school_world "replace" (table_heap two_maths))
              (world_of (Database.add_table 0 0
                 (school_world "replace" (table_heap two_maths))))
              (world_of (Database.add_table 0 1
                 (world_of (Database.add_table 0 0
                    (school_world "replace" (table_heap two_maths))))))
              0 0
              (example_table "math" "school" marks_frame)
              (example_table "math" "school" resit_frame)
              (Database.instance_dict 0
                 (school_world "replace" (table_heap two_maths)))
              ["data"; "school.db"] "MUID")
    as (s & Hs & Hget & Hcount);
    try (vm_compute; reflexivity).
  eexists _, _, s. split; [vm_compute; reflexivity|].
  split; [vm_compute; reflexivity|].
  split; [|split; [exact Hget | exact Hcount]].
  etransitivity; [|exact Hs]. vm_compute. reflexivity.
Defined.

(** ** Theorems: [DatabaseGenerator.create_from_dict] *)

Ltac run_init := cbv beta iota delta
    [mbind M_bind mret M_ret modify_world get_world
     Database.getattr Database.assign Database.alloc Database.connect
     Database.lookup_method is_dir
     raise Database.instance_dict
     set_table_heap set_database_heap set_ic_output set_stores set_dirs
     table_heap database_heap ic_output stores cwd dirs files].

Lemma alter_last {A} (f : A -> A) (l : list A) (x : A) :
  alter f (length l) (l ++ [x]) = l ++ [f x].
Proof.
  replace (length l) with (length l + 0) by lia.
  rewrite alter_app_r. reflexivity.
Qed.

Lemma lookup_last {A} (l : list A) (x : A) : (l ++ [x]) !! length l = Some x.
Proof. apply list_lookup_middle. reflexivity. Qed.

Lemma ensure_dir_returns dir (b : bool) w u w' :
  (if b
   then (fun w : World => Returns () w)
   else try_except (mkdir_parents dir) FileExistsError
                   (fun w : World => Returns () w)) w = Returns u w' ->
  exists di', w' = set_dirs di' w.
Proof.
  destruct w as [cw di fi st th dh io].
  destruct b.
  - intros [= _ <-]. exists di. reflexivity.
  - unfold try_except, mkdir_parents. cbn [dirs].
    destruct (existsb _ _); [simpl; discriminate|].
    destruct (_ || _); simpl.
    + intros [= _ <-]. exists di. reflexivity.
    + intros [= _ <-]. eexists. reflexivity.
Qed.

Lemma sqlite_open_returns p w u w' :
  sqlite_open p w = Returns u w' -> exists st', w' = set_stores st' w.
Proof.
  unfold sqlite_open. destruct (bool_decide _); [|discriminate].
  intros [= _ <-]. eexists. reflexivity.
Qed.

Ltac innermost e :=
  match e with
  | match ?e' with _ => _ end => innermost e'
  | _ => e
  end.

Ltac head_match E :=
  match goal with
  | |- match ?e with _ => _ end = _ -> _ =>
      let e' := innermost e in destruct e' eqn:E
  end.

Lemma init_returns n dir mode w db w' :
  Database.init n (Some dir) mode w = Returns db w' ->
  db = length (database_heap w) /\
  database_heap w' = database_heap w ++ [fresh_dict n dir mode] /\
  table_heap w' = table_heap w /\
  ic_output w' = ic_output w /\
  files w' = files w.
Proof.
  destruct w as [cw di fi st th dh io].
  unfold Database.init. run_init.
  rewrite !alter_last, !lookup_last. simpl default.
  rewrite lookup_insert_eq. run_init.
  head_match E; [|discriminate].
  apply ensure_dir_returns in E as [di' ->]. run_init.
  rewrite !alter_last, !lookup_last. simpl default.
  rewrite !lookup_insert_ne, lookup_empty by discriminate. run_init.
  rewrite lookup_last. simpl default.
  rewrite !lookup_insert_ne, lookup_insert_eq by discriminate. run_init.
  head_match E; [|discriminate].
  apply sqlite_open_returns in E as [st' ->]. run_init.
  rewrite !alter_last.
  intros [= <- <-]. repeat split.
Qed.

Ltac run_step := cbv beta iota delta
    [mbind M_bind mret M_ret modify_world get_world update_table get_table
     Database.getattr Database.lookup_method
     raise Database.instance_dict
     set_table_heap set_database_heap set_ic_output set_stores set_dirs
     table_heap database_heap ic_output stores cwd dirs files].

Lemma table_add_returns self w r w' :
  TableMethods.add self w = Returns r w' ->
  exists t db,
    table_heap w !! self = Some t /\ database t = Some db /\
    Database.add_table db self w = Returns db w'.
Proof.
  destruct w as [cw di fi st th dh io].
  unfold TableMethods.add. run_step.
  destruct (th !! self) as [t|] eqn:Ht; [|discriminate].
  destruct (database t) as [db|] eqn:Hdb; [|discriminate]. run_step.
  destruct (_ !! "add_table"); [discriminate|].
  destruct (Database.add_table db self _) as [r' w1|] eqn:Hadd;
    [|discriminate].
  intros [= <- <-]. exists t, db.
  destruct (add_table_returns _ _ _ _ _ Hadd)
    as (?&?&?&?&?&?&?&?&_&_&_&_&_&_&_&_&_&->&_).
  repeat split; assumption.
Qed.

Lemma create_step_returns db_dict acc table w acc' w' :
  DatabaseGenerator.create_step db_dict acc table w = Returns acc' w' ->
  exists t n db w1,
    table_heap w !! table = Some t /\ db_name t = OStr n /\
    ((PyDict.get n acc = Some db /\ acc' = acc /\ w1 = w) \/
     (PyDict.get n acc = None /\ acc' = PyDict.set n db acc /\
      exists dir, Database.init n (Some dir) "replace" w = Returns db w1)) /\
    Database.add_table db table
      (set_table_heap (alter (set_database (Some db)) table (table_heap w1))
                      w1) = Returns db w'.
Proof.
  destruct w as [cw di fi st th dh io].
  unfold DatabaseGenerator.create_step. run_step.
  destruct (th !! table) as [t|] eqn:Ht; [|discriminate].
  destruct (db_name t) as [|n| | | | |] eqn:Hn; try discriminate.
  destruct (PyDict.get n acc) as [db|] eqn:Hget.
  - run_step.
    match goal with
    | |- match TableMethods.add table ?W with _ => _ end = _ -> _ =>
        destruct (TableMethods.add table W) as [r w2|] eqn:Hadd;
        [|discriminate]
    end.
    intros [= <- <-].
    apply table_add_returns in Hadd as (t' & db' & Ht' & Hdb' & Hadd).
    cbn [table_heap] in Ht'. rewrite list_lookup_alter_eq, Ht in Ht'.
    injection Ht' as <-. simpl in Hdb'. injection Hdb' as <-.
    eexists t, n, db, _. split; [reflexivity|]. split; [exact Hn|].
    split; [left; split; [exact Hget | split; reflexivity] | exact Hadd].
  - destruct (PyDict.last_item db_dict) as [[k lastr]|]; [|discriminate].
    run_step.
    destruct (th !! lastr) as [lt|]; [|discriminate].
    destruct (Database.init n (Some (parent (csv_path lt))) "replace" _)
      as [db w1|] eqn:Hinit; [|discriminate].
    pose proof (init_returns _ _ _ _ _ _ Hinit) as (Hdb & Hdh & Hth & _).
    destruct w1 as [cw1 di1 fi1 st1 th1 dh1 io1].
    cbn [database_heap table_heap] in Hdh, Hth. subst th1 dh1 db.
    run_step. rewrite lookup_last. simpl default.
    unfold fresh_dict.
    rewrite !lookup_insert_ne, lookup_insert_eq by discriminate.
    run_step.
    match goal with
    | |- match TableMethods.add table ?W with _ => _ end = _ -> _ =>
        destruct (TableMethods.add table W) as [r w2|] eqn:Hadd;
        [|discriminate]
    end.
    intros [= <- <-].
    apply table_add_returns in Hadd as (t' & db' & Ht' & Hdb' & Hadd).
    cbn [table_heap] in Ht'. rewrite list_lookup_alter_eq, Ht in Ht'.
    injection Ht' as <-. simpl in Hdb'. injection Hdb' as <-.
    eexists t, n, _, _. split; [reflexivity|]. split; [exact Hn|].
    split.
    + right. split; [exact Hget|]. split; [reflexivity|].
      eexists. exact Hinit.
    + exact Hadd.
Qed.

Section DictFacts.

Context {V : Type}.
Implicit Types (d : list (string * V)) (k : string) (v : V).

Lemma get_set_eq k v d : PyDict.get k (PyDict.set k v d) = Some v.
Proof.
  induction d as [|[k' v'] d IH]; simpl.
  - rewrite String.eqb_refl. reflexivity.
  - destruct (String.eqb k k') eqn:E; simpl; rewrite E;
      [reflexivity | exact IH].
Qed.

Lemma get_set_ne k k' v d :
  k <> k' -> PyDict.get k' (PyDict.set k v d) = PyDict.get k' d.
Proof.
  intros Hne. induction d as [|[k0 v0] d IH]; simpl.
  - destruct (String.eqb_spec k' k); [congruence | reflexivity].
  - destruct (String.eqb_spec k k0) as [->|]; simpl.
    + destruct (String.eqb_spec k' k0); [congruence | reflexivity].
    + destruct (String.eqb k' k0); [reflexivity | exact IH].
Qed.

Lemma set_absent k v d :
  PyDict.get k d = None -> PyDict.set k v d = d ++ [(k, v)].
Proof.
  induction d as [|[k' v'] d IH]; simpl; [reflexivity|].
  destruct (String.eqb k k'); [discriminate|].
  intros H. rewrite (IH H). reflexivity.
Qed.

Lemma get_none_keys k d : PyDict.get k d = None <-> k ∉ PyDict.keys d.
Proof.
  unfold PyDict.keys. induction d as [|[k' v'] d IH]; simpl.
  - split; [intros _; apply not_elem_of_nil | reflexivity].
  - rewrite not_elem_of_cons.
    destruct (String.eqb_spec k k') as [->|Hne].
    + split; [discriminate | intros [? _]; congruence].
    + rewrite IH. tauto.
Qed.

Lemma get_some_value k v d : PyDict.get k d = Some v -> v ∈ PyDict.values d.
Proof.
  unfold PyDict.values. induction d as [|[k' v'] d IH]; simpl; [discriminate|].
  destruct (String.eqb k k').
  - intros [= ->]. apply list_elem_of_here.
  - intros H. apply list_elem_of_further, IH, H.
Qed.

Lemma get_some_key k v d : PyDict.get k d = Some v -> k ∈ PyDict.keys d.
Proof.
  intros H. destruct (decide (k ∈ PyDict.keys d)) as [|Hn]; [assumption|].
  apply get_none_keys in Hn. congruence.
Qed.

Lemma get_injective k k' v d :
  NoDup (PyDict.values d) ->
  PyDict.get k d = Some v -> PyDict.get k' d = Some v -> k = k'.
Proof.
  unfold PyDict.values. induction d as [|[k0 v0] d IH]; simpl; [discriminate|].
  intros Hnd. apply NoDup_cons in Hnd as [Hnotin Hnd].
  destruct (String.eqb_spec k k0) as [->|];
    destruct (String.eqb_spec k' k0) as [->|].
  - reflexivity.
  - intros [= ->] H'. exfalso. apply Hnotin. exact (get_some_value _ _ _ H').
  - intros H [= ->]. exfalso. apply Hnotin. exact (get_some_value _ _ _ H).
  - apply IH, Hnd.
Qed.

Lemma get_in k v d : PyDict.get k d = Some v -> (k, v) ∈ d.
Proof.
  induction d as [|[k' v'] d IH]; simpl; [discriminate|].
  destruct (String.eqb_spec k k') as [->|].
  - intros [= ->]. apply list_elem_of_here.
  - intros H. apply list_elem_of_further, IH, H.
Qed.

End DictFacts.

(** What a returning [add_table] has done to the two heaps. *)
Lemma add_table_effect db table w r w' :
  Database.add_table db table w = Returns r w' ->
  exists d t l nm,
    database_heap w !! db = Some d /\
    d !! "tables" = Some (OTableList l) /\
    d !! "name" = Some nm /\
    table_heap w !! table = Some t /\
    database_heap w' !! db
      = Some (<[name t := OTable table]>
                (<["tables" := OTableList (l ++ [table])]> d)) /\
    (forall o, o <> db -> database_heap w' !! o = database_heap w !! o) /\
    length (database_heap w') = length (database_heap w) /\
    table_heap w' !! table = Some (set_db_name nm (set_database (Some db) t)) /\
    (forall o, o <> table -> table_heap w' !! o = table_heap w !! o) /\
    length (table_heap w') = length (table_heap w).
Proof.
  intros H.
  apply add_table_returns in H
    as (d & t & l & nm & p & mode & label & s' & Hd & Hl & Hn & Ht & _ & _
        & _ & _ & _ & _ & ->).
  exists d, t, l, nm. cbn [database_heap table_heap set_stores].
  split; [exact Hd|]. split; [exact Hl|]. split; [exact Hn|].
  split; [exact Ht|].
  split; [apply instance_dict_after_bookkeeping; exact Hd|].
  split; [intros o Ho; apply other_database_after_bookkeeping; exact Ho|].
  split; [unfold after_bookkeeping; cbn [database_heap];
          rewrite !length_alter; reflexivity|].
  split; [apply table_after_bookkeeping; exact Ht|].
  split; [intros o Ho; apply other_table_after_bookkeeping; exact Ho|].
  unfold after_bookkeeping. cbn [table_heap]. rewrite !length_alter.
  reflexivity.
Qed.

(** What a returning step of the loop has done. *)
Lemma create_step_effect db_dict acc table w acc' w' :
  DatabaseGenerator.create_step db_dict acc table w = Returns acc' w' ->
  exists t n db d l nm,
    table_heap w !! table = Some t /\ db_name t = OStr n /\
    ((PyDict.get n acc = Some db /\ acc' = acc /\
      database_heap w !! db = Some d /\
      length (database_heap w') = length (database_heap w)) \/
     (PyDict.get n acc = None /\ acc' = acc ++ [(n, db)] /\
      db = length (database_heap w) /\
      (exists dir, d = fresh_dict n dir "replace") /\
      length (database_heap w') = S (length (database_heap w)))) /\
    d !! "tables" = Some (OTableList l) /\
    d !! "name" = Some nm /\
    database_heap w' !! db
      = Some (<[name t := OTable table]>
                (<["tables" := OTableList (l ++ [table])]> d)) /\
    (forall o, o <> db -> o < length (database_heap w) ->
       database_heap w' !! o = database_heap w !! o) /\
    table_heap w' !! table
      = Some (set_db_name nm (set_database (Some db) t)) /\
    (forall o, o <> table -> table_heap w' !! o = table_heap w !! o) /\
    length (table_heap w') = length (table_heap w).
Proof.
  intros H.
  apply create_step_returns in H
    as (t & n & db & w1 & Ht & Hn & Hcase & Hadd).
  apply add_table_effect in Hadd
    as (d & t' & l & nm & Hd & Hl & Hnm & Ht' & Hd' & Hod & Hlen & Htab
        & Hot & Hlent).
  cbn [database_heap table_heap set_table_heap] in *.
  rewrite length_alter in Hlent.
  assert (Hsame : table_heap w1 = table_heap w).
  { destruct Hcase as [(_ & _ & ->) | (_ & _ & dir & Hinit)];
      [reflexivity|].
    apply init_returns in Hinit. tauto. }
  rewrite Hsame in *.
  rewrite list_lookup_alter_eq, Ht in Ht'. injection Ht' as <-.
  exists t, n, db, d, l, nm.
  split; [exact Ht|]. split; [exact Hn|].
  split; [|split; [exact Hl|]; split; [exact Hnm|]; split; [exact Hd'|];
           split; [|split; [exact Htab|]; split;
                    [|exact Hlent]]].
  - destruct Hcase as [(Hget & -> & ->) | (Hget & -> & dir & Hinit)].
    + left. repeat split; assumption.
    + right. apply init_returns in Hinit as (-> & Hdh & _).
      rewrite Hdh, lookup_last in Hd. injection Hd as <-.
      split; [exact Hget|]. split; [apply set_absent, Hget|].
      split; [reflexivity|]. split; [eexists; reflexivity|].
      rewrite Hlen, Hdh, length_app. simpl. lia.
  - intros o Ho Hlt. rewrite (Hod o Ho).
    destruct Hcase as [(_ & _ & ->) | (_ & _ & dir & Hinit)];
      [reflexivity|].
    apply init_returns in Hinit as (_ & -> & _).
    apply lookup_app_l. exact Hlt.
  - intros o Ho. rewrite (Hot o Ho).
    apply list_lookup_alter_ne. congruence.
Qed.

Lemma get_app {V} k (d1 d2 : list (string * V)) :
  PyDict.get k (d1 ++ d2)
  = match PyDict.get k d1 with
    | Some v => Some v
    | None => PyDict.get k d2
    end.
Proof.
  induction d1 as [|[k' v'] d1 IH]; simpl; [reflexivity|].
  destruct (String.eqb k k'); [reflexivity | exact IH].
Qed.

Lemma name_or_rebound_str n n' :
  name_or_rebound (Some (OStr n)) n' -> n = n'.
Proof. intros [[= ->] | [x [=]]]. reflexivity. Qed.

Lemma create_step_invariant db_dict w0 done acc table w acc' w' :
  loop_invariant w0 done acc w ->
  DatabaseGenerator.create_step db_dict acc table w = Returns acc' w' ->
  loop_invariant w0 (done ++ [table]) acc' w'.
Proof.
  intros [Hheap Hlen Hvals Hkeys Hnames Htables Hdone Hused] H.
  apply create_step_effect in H
    as (t & n & db & d & l & nm & Ht & Hn & Hcase & Hl & Hnm & Hd' & Hod
        & Htab & Hot & Hlent).
  set (d' := <[name t := OTable table]>
               (<["tables" := OTableList (l ++ [table])]> d)) in *.
  assert (Hbound : forall k v, PyDict.get k acc = Some v ->
                     v < length (database_heap w)).
  { intros k v Hg. apply get_some_value in Hg. rewrite Hvals in Hg.
    apply elem_of_seq in Hg. lia. }
  assert (Hnd : NoDup (PyDict.values acc))
    by (rewrite Hvals; apply NoDup_seq).
  assert (F1 : PyDict.get n acc' = Some db).
  { destruct Hcase as [(Hg & -> & _) | (Hg & -> & _)]; [exact Hg|].
    rewrite get_app, Hg. simpl. rewrite String.eqb_refl. reflexivity. }
  assert (F2 : forall k v, PyDict.get k acc = Some v ->
                 PyDict.get k acc' = Some v).
  { intros k v Hg.
    destruct Hcase as [(_ & -> & _) | (_ & -> & _)]; [exact Hg|].
    rewrite get_app, Hg. reflexivity. }
  assert (F3 : forall k, PyDict.get k acc' = Some db -> k = n).
  { intros k Hg.
    destruct Hcase as [(Hgn & -> & _) | (Hgn & -> & -> & _)].
    - exact (get_injective _ _ _ _ Hnd Hg Hgn).
    - rewrite get_app in Hg.
      destruct (PyDict.get k acc) as [v|] eqn:Hk.
      + injection Hg as ->. apply Hbound in Hk. lia.
      + simpl in Hg.
        destruct (String.eqb_spec k n); [assumption|discriminate]. }
  assert (F4 : forall k v, PyDict.get k acc' = Some v -> v <> db ->
                 PyDict.get k acc = Some v).
  { intros k v Hg Hne.
    destruct Hcase as [(_ & -> & _) | (_ & -> & _)]; [exact Hg|].
    rewrite get_app in Hg.
    destruct (PyDict.get k acc) as [v'|]; [exact Hg|].
    simpl in Hg. destruct (String.eqb k n); [|discriminate].
    injection Hg as <-. congruence. }
  assert (F5 : name_or_rebound (Some nm) n).
  { destruct Hcase as [(Hg & _ & Hd & _) | (_ & _ & _ & [dir ->] & _)].
    - specialize (Hnames _ _ Hg). unfold Database.instance_dict in Hnames.
      rewrite Hd in Hnames. simpl in Hnames. rewrite Hnm in Hnames.
      exact Hnames.
    - unfold fresh_dict in Hnm.
      rewrite !lookup_insert_ne, lookup_insert_eq in Hnm by discriminate.
      injection Hnm as <-. left. reflexivity. }
  assert (Hdict' : Database.instance_dict db w' = d')
    by (unfold Database.instance_dict; rewrite Hd'; reflexivity).
  assert (Hdict_other : forall o, o <> db -> o < length (database_heap w) ->
            Database.instance_dict o w' = Database.instance_dict o w).
  { intros o Ho Hlt. unfold Database.instance_dict.
    rewrite (Hod o Ho Hlt). reflexivity. }
  assert (Hreg_new : forall m, m = name t -> registered_in db table m w').
  { intros m ->. unfold registered_in. rewrite Hdict'. unfold d'. split.
    - eexists. apply lookup_insert_eq.
    - intros l'. destruct (decide (name t = "tables")) as [E|E].
      + rewrite E, lookup_insert_eq. discriminate.
      + rewrite lookup_insert_ne, lookup_insert_eq by exact E.
        intros [= <-]. apply elem_of_app. right. apply list_elem_of_here. }
  assert (Hreg_mono : forall o r m, o < length (database_heap w) ->
            registered_in o r m w -> registered_in o r m w').
  { intros o r m Hlt [[r' Hbind] Hlist]. unfold registered_in.
    destruct (decide (o = db)) as [->|Ho].
    - destruct Hcase as [(_ & _ & Hd & _) | (_ & _ & -> & _)]; [|lia].
      unfold Database.instance_dict in Hbind, Hlist.
      rewrite Hd in Hbind, Hlist. simpl in Hbind, Hlist.
      rewrite Hdict'. unfold d'. split.
      + destruct (decide (m = name t)) as [->|Hm].
        * eexists. apply lookup_insert_eq.
        * exists r'. rewrite lookup_insert_ne by congruence.
          destruct (decide (m = "tables")) as [->|Hmt]; [congruence|].
          rewrite lookup_insert_ne by congruence. exact Hbind.
      + intros l'. destruct (decide (name t = "tables")) as [E|E].
        * rewrite E, lookup_insert_eq. discriminate.
        * rewrite lookup_insert_ne, lookup_insert_eq by exact E.
          intros [= <-]. apply elem_of_app. left. apply Hlist, Hl.
    - rewrite (Hdict_other o Ho Hlt). split; [eauto | exact Hlist]. }
  assert (Hinit : exists t0, table_heap w0 !! table = Some t0).
  { apply lookup_lt_is_Some. rewrite <- Hheap.
    apply lookup_lt_is_Some. eauto. }
  assert (Hnow : forall t0, table_heap w0 !! table = Some t0 ->
            same_table_data t0 t /\ db_name t0 = OStr n).
  { intros t0 Ht0. destruct (Htables _ _ Ht0) as [Hu | Hp].
    - rewrite Ht in Hu. injection Hu as ->.
      split; [apply same_table_data_refl | exact Hn].
    - destruct Hp as (ti & n0 & db0 & Hti & Hs & Hn0 & _ & _ & Hnr & _).
      rewrite Ht in Hti. injection Hti as <-. rewrite Hn in Hnr.
      apply name_or_rebound_str in Hnr as ->. split; assumption. }
  assert (Hproc : forall r t0, table_heap w0 !! r = Some t0 ->
            r = table \/ processed acc w r t0 -> processed acc' w' r t0).
  { intros r t0 Ht0 Hor.
    destruct (decide (r = table)) as [->|Hr].
    - destruct (Hnow _ Ht0) as [Hs Hn0].
      exists (set_db_name nm (set_database (Some db) t)), n, db.
      split; [exact Htab|]. split; [exact Hs|]. split; [exact Hn0|].
      split; [exact F1|]. split; [reflexivity|]. split; [exact F5|].
      apply Hreg_new. apply Hs.
    - destruct Hor as [|Hp]; [contradiction|].
      destruct Hp as (ti & n0 & db0 & Hti & Hs & Hn0 & Hg0 & Hdb0 & Hnr & Hreg).
      exists ti, n0, db0. rewrite (Hot r Hr).
      split; [exact Hti|]. split; [exact Hs|]. split; [exact Hn0|].
      split; [apply F2, Hg0|]. split; [exact Hdb0|]. split; [exact Hnr|].
      apply Hreg_mono; [exact (Hbound _ _ Hg0) | exact Hreg]. }
  split.
  - rewrite Hlent. exact Hheap.
  - destruct Hcase as [(_ & -> & _ & ->) | (_ & -> & _ & _ & ->)];
      [exact Hlen|]. rewrite length_app. simpl. lia.
  - destruct Hcase as [(_ & -> & _) | (_ & -> & Hdb & _)]; [exact Hvals|].
    unfold PyDict.values in *. rewrite map_app, length_app. simpl.
    rewrite Nat.add_1_r, seq_S, Hvals, Hdb, Hlen. reflexivity.
  - destruct Hcase as [(_ & -> & _) | (Hg & -> & _)]; [exact Hkeys|].
    unfold PyDict.keys in *. rewrite map_app. simpl.
    apply NoDup_app. split; [exact Hkeys|]. split; [|apply NoDup_singleton].
    intros x Hx ->%list_elem_of_singleton.
    apply get_none_keys in Hg. contradiction.
  - intros k v Hg. destruct (decide (v = db)) as [->|Hv].
    + apply F3 in Hg as ->. rewrite Hdict'. unfold d'.
      destruct (decide (name t = "name")) as [E|E].
      * right. eexists. rewrite E. apply lookup_insert_eq.
      * rewrite !lookup_insert_ne by congruence. rewrite Hnm. exact F5.
    + pose proof (F4 _ _ Hg Hv) as Hg'.
      rewrite (Hdict_other v Hv (Hbound _ _ Hg')). apply Hnames, Hg'.
  - intros r t0 Ht0. destruct (decide (r = table)) as [->|Hr].
    + right. apply Hproc; [exact Ht0 | left; reflexivity].
    + destruct (Htables _ _ Ht0) as [Hu | Hp].
      * left. rewrite (Hot r Hr). exact Hu.
      * right. apply Hproc; [exact Ht0 | right; exact Hp].
  - intros r t0 Hin Ht0. apply elem_of_app in Hin as [Hin | Hin].
    + apply Hproc; [exact Ht0 | right; apply Hdone; assumption].
    + apply list_elem_of_singleton in Hin as ->.
      apply Hproc; [exact Ht0 | left; reflexivity].
  - intros k Hk.
    assert (Hcases : k ∈ PyDict.keys acc \/ k = n).
    { destruct Hcase as [(_ & -> & _) | (_ & -> & _)]; [left; exact Hk|].
      unfold PyDict.keys in Hk. rewrite map_app in Hk.
      apply elem_of_app in Hk as [Hk | Hk]; [left; exact Hk|].
      right. apply list_elem_of_singleton in Hk. exact Hk. }
    destruct Hcases as [Hk' | ->].
    + destruct (Hused _ Hk') as (r & t0 & Hin & Ht0 & Hn0).
      exists r, t0. split; [apply elem_of_app; left; exact Hin|].
      split; assumption.
    + destruct Hinit as [t0 Ht0]. destruct (Hnow _ Ht0) as [_ Hn0].
      exists table, t0.
      split; [apply elem_of_app; right; apply list_elem_of_here|].
      split; assumption.
Qed.

Lemma create_loop_invariant db_dict w0 tables :
  forall done acc w ret w',
    loop_invariant w0 done acc w ->
    DatabaseGenerator.create_loop db_dict acc tables w = Returns ret w' ->
    loop_invariant w0 (done ++ tables) ret w'.
Proof.
  induction tables as [|table tables IH]; intros done acc w ret w' Hinv; simpl.
  - intros [= <- <-]. rewrite app_nil_r. exact Hinv.
  - cbv beta iota delta [mbind M_bind].
    destruct (DatabaseGenerator.create_step db_dict acc table w)
      as [acc1 w1|] eqn:Hstep; [|discriminate].
    intros Hloop.
    replace (done ++ table :: tables) with ((done ++ [table]) ++ tables)
      by (rewrite <- app_assoc; reflexivity).
    eapply IH; [|exact Hloop].
    eapply create_step_invariant; eassumption.
Qed.

Lemma loop_invariant_initial w : loop_invariant w [] [] w.
Proof.
  split; simpl.
  - reflexivity.
  - lia.
  - reflexivity.
  - apply NoDup_nil_2.
  - discriminate.
  - intros r t0 H. left. exact H.
  - intros r t0 H. apply elem_of_nil in H. contradiction.
  - intros k H. apply elem_of_nil in H. contradiction.
Qed.
(** ** Theorems: the import scanner ([gather_csv_paths]) *)

Section FilterFacts.

Context {A : Type} (P : A -> bool).

Lemma filter_none (l : list A) :
  (forall x, x ∈ l -> P x = false) -> List.filter P l = [].
Proof.
  induction l as [|x l IH]; intros H; simpl; [reflexivity|].
  rewrite (H x) by apply list_elem_of_here.
  apply IH. intros y Hy. apply H, list_elem_of_further, Hy.
Qed.

Lemma filter_one (l : list A) (a : A) :
  NoDup l -> a ∈ l -> P a = true ->
  (forall x, x ∈ l -> P x = true -> x = a) ->
  List.filter P l = [a].
Proof.
  induction l as [|x l IH]; intros Hnd Ha HPa Hall.
  - apply elem_of_nil in Ha. contradiction.
  - apply NoDup_cons in Hnd as [Hx Hnd]. simpl.
    apply elem_of_cons in Ha as [<- | Ha].
    + rewrite HPa. f_equal. apply filter_none. intros y Hy.
      destruct (P y) eqn:E; [|reflexivity].
      assert (y = a)
        by (apply Hall; [apply list_elem_of_further, Hy | exact E]).
      subst y. contradiction.
    + destruct (P x) eqn:E.
      * assert (x = a) by (apply Hall; [apply list_elem_of_here | exact E]).
        subst x. contradiction.
      * apply IH; try assumption.
        intros y Hy. apply Hall, list_elem_of_further, Hy.
Qed.

Lemma filter_two (l : list A) (a b : A) :
  NoDup l -> a ∈ l -> b ∈ l -> a <> b -> P a = true -> P b = true ->
  (forall x, x ∈ l -> P x = true -> x = a \/ x = b) ->
  List.filter P l = [a; b] \/ List.filter P l = [b; a].
Proof.
  induction l as [|x l IH]; intros Hnd Ha Hb Hab HPa HPb Hall.
  - apply elem_of_nil in Ha. contradiction.
  - apply NoDup_cons in Hnd as [Hx Hnd]. simpl.
    apply elem_of_cons in Ha as [<- | Ha];
      apply elem_of_cons in Hb as [Hb | Hb]; try congruence.
    + left. rewrite HPa. f_equal.
      apply filter_one; try assumption.
      intros y Hy HPy.
      destruct (Hall y (list_elem_of_further _ _ _ Hy) HPy) as [-> | ->];
        [contradiction | reflexivity].
    + subst x. right. rewrite HPb. f_equal.
      apply filter_one; try assumption.
      intros y Hy HPy.
      destruct (Hall y (list_elem_of_further _ _ _ Hy) HPy) as [-> | ->];
        [reflexivity | contradiction].
    + destruct (P x) eqn:E.
      * destruct (Hall x (list_elem_of_here _ _) E) as [-> | ->];
          contradiction.
      * apply IH; try assumption.
        intros y Hy. apply Hall, list_elem_of_further, Hy.
Qed.

End FilterFacts.

Lemma lookup_file_in (p : Path) (text : string) (fs : list (Path * string)) :
  NoDup (map fst fs) -> (p, text) ∈ fs -> lookup_file p fs = Some text.
Proof.
  induction fs as [|[q t] fs IH]; intros Hnd Hin.
  - apply elem_of_nil in Hin. contradiction.
  - simpl in Hnd. apply NoDup_cons in Hnd as [Hq Hnd]. simpl.
    apply elem_of_cons in Hin as [[= <- <-] | Hin].
    + rewrite bool_decide_eq_true_2 by reflexivity. reflexivity.
    + destruct (bool_decide_reflect (p = q)) as [->|_].
      * exfalso. apply Hq. apply list_elem_of_fmap.
        exists (q, text). split; [reflexivity | exact Hin].
      * apply IH; assumption.
Qed.

Section Scanner.

Variable read_csv : string -> string -> res DataFrame.

Lemma new_table_returns n d p w text df :
  lookup_file p (files w) = Some text ->
  read_csv text ";" = Ok df ->
  TableMethods.new read_csv n d p w
  = Returns (length (table_heap w))
            (set_table_heap
               (table_heap w ++ [mkTable n (OStr d) None p df None None]) w).
Proof.
  intros Hf Hr. unfold TableMethods.new, read_file, alloc_table.
  cbv beta iota delta [mbind M_bind]. rewrite Hf, Hr. reflexivity.
Qed.

Lemma glob_csv_entries data_folder w :
  ImportCsv.glob_csv data_folder w
  = List.filter (globbed data_folder) (map fst (files w) ++ dirs w).
Proof. reflexivity. Qed.

(** Where no directory is matched, [glob] returns regular files only. *)
Lemma glob_csv_filter data_folder w :
  only_files_match data_folder w = true ->
  ImportCsv.glob_csv data_folder w
  = List.filter (globbed data_folder) (map fst (files w)).
Proof.
  intros H. rewrite glob_csv_entries, List.filter_app.
  rewrite (filter_none _ (dirs w)); [apply app_nil_r|].
  intros q Hq. unfold only_files_match in H.
  rewrite forallb_forall in H. apply negb_true_iff, H, list_elem_of_In, Hq.
Qed.

Lemma parent_join folder file : parent (folder ++ [file]) = folder.
Proof. apply removelast_last. Qed.

Lemma globbed_join folder file :
  globbed folder (folder ++ [file])
  = negb (ImportCsv.hidden file)
    && ImportCsv.fnmatch ImportCsv.csv_pattern file.
Proof.
  unfold globbed. rewrite last_snoc, parent_join.
  rewrite bool_decide_eq_true_2 by reflexivity. reflexivity.
Qed.

Lemma globbed_inv folder p :
  globbed folder p = true ->
  exists file, p = folder ++ [file] /\ ImportCsv.hidden file = false /\
               ImportCsv.fnmatch ImportCsv.csv_pattern file = true.
Proof.
  unfold globbed. destruct (last p) as [file|] eqn:Hlast; [|discriminate].
  intros H. apply andb_prop in H as [H Hm]. apply andb_prop in H as [Hp Hh].
  apply bool_decide_eq_true in Hp. apply negb_true_iff in Hh.
  apply last_Some in Hlast as [l' ->]. rewrite parent_join in Hp. subst l'.
  exists file. repeat split; assumption.
Qed.

Lemma stem_join folder file :
  ImportCsv.stem (folder ++ [file]) = ImportCsv.stem [file].
Proof. unfold ImportCsv.stem. rewrite last_snoc. reflexivity. Qed.

(** C5. In a folder (a path [glob] takes literally) whose files matching
    [*_*.csv] are exactly
    [school_math.csv] and [school_portuguese.csv], both parsed by pandas,
    and which has no sub-directory of a matching name,
    the scan returns a mapping with exactly the keys [school_math] and
    [school_portuguese], in the order the folder lists the files; their
    values are new tables with [db_name] ["school"] and names ["math"] and
    ["portuguese"].  The folder's other entries, which do not match the
    pattern or are hidden, leave no trace. *)
Theorem gather_csv_paths_school
    (folder : Path) (w : World) (text_m text_p : string)
    (df_m df_p : DataFrame) :
  ImportCsv.literal_folder folder = true ->
  only_files_match folder w = true ->
  NoDup (map fst (files w)) ->
  (folder ++ ["school_math.csv"], text_m) ∈ files w ->
  (folder ++ ["school_portuguese.csv"], text_p) ∈ files w ->
  (forall file, folder ++ [file] ∈ map fst (files w) ->
     file = "school_math.csv" \/ file = "school_portuguese.csv" \/
     ImportCsv.fnmatch ImportCsv.csv_pattern file = false \/
     ImportCsv.hidden file = true) ->
  read_csv text_m ";" = Ok df_m ->
  read_csv text_p ";" = Ok df_p ->
  exists ret w' rm rp,
    ImportCsv.gather_csv_paths read_csv folder w = Returns ret w' /\
    (ret = [("school_math", rm); ("school_portuguese", rp)] \/
     ret = [("school_portuguese", rp); ("school_math", rm)]) /\
    table_heap w' !! rm
      = Some (mkTable "math" (OStr "school") None
                      (folder ++ ["school_math.csv"]) df_m None None) /\
    table_heap w' !! rp
      = Some (mkTable "portuguese" (OStr "school") None
                      (folder ++ ["school_portuguese.csv"]) df_p None None).
Proof.
  intros _ Hdirs Hnd Hm Hp Hall Hrm Hrp.
  set (pm := folder ++ ["school_math.csv"]) in *.
  set (pp := folder ++ ["school_portuguese.csv"]) in *.
  assert (Hglob : ImportCsv.glob_csv folder w = [pm; pp] \/
                  ImportCsv.glob_csv folder w = [pp; pm]).
  { rewrite glob_csv_filter by exact Hdirs. apply filter_two.
    - exact Hnd.
    - apply list_elem_of_fmap. exists (pm, text_m).
      split; [reflexivity | exact Hm].
    - apply list_elem_of_fmap. exists (pp, text_p).
      split; [reflexivity | exact Hp].
    - unfold pm, pp. intros E. apply app_inv_head in E. discriminate.
    - unfold pm. rewrite globbed_join. reflexivity.
    - unfold pp. rewrite globbed_join. reflexivity.
    - intros x Hx HPx. apply globbed_inv in HPx as (file & -> & Hh & Hmatch).
      destruct (Hall file Hx) as [-> | [-> | [E | E]]];
        [left; reflexivity | right; reflexivity | congruence | congruence]. }
  pose proof (lookup_file_in _ _ _ Hnd Hm) as Hfm.
  pose proof (lookup_file_in _ _ _ Hnd Hp) as Hfp.
  subst pm pp.
  unfold ImportCsv.gather_csv_paths, get_world.
  cbv beta iota delta [mbind M_bind].
  destruct Hglob as [-> | ->]; simpl ImportCsv.gather_loop;
    unfold ImportCsv.gather_step; cbv beta iota delta [mbind M_bind mret M_ret];
    rewrite !stem_join;
    change (ImportCsv.split_underscore (ImportCsv.stem ["school_math.csv"]))
      with ["school"; "math"];
    change (ImportCsv.split_underscore
              (ImportCsv.stem ["school_portuguese.csv"]))
      with ["school"; "portuguese"];
    change (ImportCsv.stem ["school_math.csv"]) with "school_math";
    change (ImportCsv.stem ["school_portuguese.csv"])
      with "school_portuguese";
    cbv beta iota.
  - rewrite (new_table_returns _ _ _ _ _ _ Hfm Hrm).
    rewrite (new_table_returns "portuguese" "school" _ _ text_p df_p)
      by assumption.
    cbn [table_heap set_table_heap PyDict.set String.eqb Ascii.eqb Bool.eqb].
    eexists _, _, (length (table_heap w)), (S (length (table_heap w))).
    split; [reflexivity|]. cbn [table_heap set_table_heap].
    split; [left|split].
    + rewrite length_app, Nat.add_1_r. reflexivity.
    + rewrite <- app_assoc. apply list_lookup_middle.
      reflexivity.
    + rewrite lookup_app_r by (rewrite length_app; simpl; lia).
      rewrite length_app, Nat.add_1_r, Nat.sub_diag. reflexivity.
  - rewrite (new_table_returns _ _ _ _ _ _ Hfp Hrp).
    rewrite (new_table_returns "math" "school" _ _ text_m df_m)
      by assumption.
    cbn [table_heap set_table_heap PyDict.set String.eqb Ascii.eqb Bool.eqb].
    eexists _, _, (S (length (table_heap w))), (length (table_heap w)).
    split; [reflexivity|]. cbn [table_heap set_table_heap].
    split; [right|split].
    + rewrite length_app, Nat.add_1_r. reflexivity.
    + rewrite lookup_app_r by (rewrite length_app; simpl; lia).
      rewrite length_app, Nat.add_1_r, Nat.sub_diag. reflexivity.
    + rewrite <- app_assoc. apply list_lookup_middle.
      reflexivity.
Qed.

Lemma new_table_inv n d p w r w' :
  TableMethods.new read_csv n d p w = Returns r w' ->
  exists df,
    r = length (table_heap w) /\
    w' = set_table_heap
           (table_heap w ++ [mkTable n (OStr d) None p df None None]) w.
Proof.
  unfold TableMethods.new, read_file, alloc_table, lift_res.
  cbv beta iota delta [mbind M_bind mret M_ret raise].
  destruct (lookup_file p (files w)) as [text|]; [|discriminate].
  destruct (read_csv text ";") as [df|]; [|discriminate].
  intros [= <- <-]. exists df. split; reflexivity.
Qed.

Lemma split_length (s : string) :
  length (ImportCsv.split_underscore s) = S (count_underscores s).
Proof.
  induction s as [|c s IH]; simpl; [reflexivity|].
  destruct (Ascii.eqb c "_"); simpl; [rewrite IH; reflexivity|].
  destruct (ImportCsv.split_underscore s); simpl in *;
    [discriminate | exact IH].
Qed.

Lemma split_one (s b : string) : ImportCsv.split_underscore s = [b] -> s = b.
Proof.
  revert b. induction s as [|c s IH]; intros b; simpl.
  - intros [= <-]. reflexivity.
  - destruct (Ascii.eqb c "_").
    + intros [= _ H]. pose proof (split_length s) as Hl. rewrite H in Hl.
      discriminate.
    + destruct (ImportCsv.split_underscore s) as [|part parts] eqn:E;
        [intros [= <-]; pose proof (split_length s) as Hl; rewrite E in Hl;
         discriminate|].
      intros [= <- ->]. f_equal. apply IH. reflexivity.
Qed.

Lemma split_two (s a b : string) :
  ImportCsv.split_underscore s = [a; b] -> s = a +:+ "_" +:+ b.
Proof.
  revert a. induction s as [|c s IH]; intros a; simpl; [discriminate|].
  destruct (Ascii.eqb_spec c "_"%char) as [->|Hc].
  - intros [= <- H]. apply split_one in H. subst s. reflexivity.
  - destruct (ImportCsv.split_underscore s) as [|part parts] eqn:E;
      [discriminate|].
    intros [= <- ->].
    change (String c s = String c (part +:+ "_" +:+ b)).
    f_equal. apply IH. reflexivity.
Qed.

Lemma set_in {V} k v (d : list (string * V)) k' v' :
  (k', v') ∈ PyDict.set k v d -> (k' = k /\ v' = v) \/ (k', v') ∈ d.
Proof.
  induction d as [|[k0 v0] d IH]; simpl.
  - intros H. apply list_elem_of_singleton in H as [= -> ->]. left. tauto.
  - destruct (String.eqb_spec k k0) as [->|].
    + intros H. apply elem_of_cons in H as [[= -> ->] | H]; [left; tauto|].
      right. apply list_elem_of_further, H.
    + intros H. apply elem_of_cons in H as [[= -> ->] | H].
      * right. apply list_elem_of_here.
      * destruct (IH H) as [? | ?]; [left; assumption|].
        right. apply list_elem_of_further. assumption.
Qed.

Lemma gather_step_returns acc path w acc' w' :
  ImportCsv.gather_step read_csv acc path w = Returns acc' w' ->
  (forall e, e ∈ acc -> well_split w e) ->
  forall e, e ∈ acc' -> well_split w' e.
Proof.
  unfold ImportCsv.gather_step.
  destruct (ImportCsv.split_underscore (ImportCsv.stem path))
    as [|db [|tb [|]]] eqn:Hsplit; try discriminate.
  cbv beta iota delta [mbind M_bind mret M_ret].
  destruct (TableMethods.new read_csv tb db path w) as [r w1|] eqn:Hnew;
    [|discriminate].
  intros [= <- <-] Hacc [k r'] Hin.
  apply new_table_inv in Hnew as (df & -> & ->).
  apply set_in in Hin as [[-> ->] | Hin].
  - eexists _, db, tb. cbn [table_heap set_table_heap fst snd].
    split; [apply lookup_last|]. split; [exact Hsplit|]. split; reflexivity.
  - destruct (Hacc _ Hin) as (t & db' & tb' & Ht & Hs & Hd & Hn).
    exists t, db', tb'. cbn [table_heap set_table_heap fst snd] in *.
    split; [apply lookup_app_l_Some; exact Ht|]. repeat split; assumption.
Qed.

Lemma gather_loop_returns paths :
  forall acc w ret w',
    ImportCsv.gather_loop read_csv acc paths w = Returns ret w' ->
    (forall e, e ∈ acc -> well_split w e) ->
    forall e, e ∈ ret -> well_split w' e.
Proof.
  induction paths as [|path paths IH]; intros acc w ret w'; simpl.
  - intros [= <- <-] H. exact H.
  - cbv beta iota delta [mbind M_bind].
    destruct (ImportCsv.gather_step read_csv acc path w)
      as [acc1 w1|] eqn:Hstep; [|discriminate].
    intros Hloop Hacc. eapply IH; [exact Hloop|].
    eapply gather_step_returns; eassumption.
Qed.

Lemma gather_loop_raises paths p :
  p ∈ paths -> 1 < count_underscores (ImportCsv.stem p) ->
  forall acc w, exists e w',
    ImportCsv.gather_loop read_csv acc paths w = Raises e w'.
Proof.
  intros Hin Hbad. induction paths as [|path paths IH]; intros acc w.
  - apply elem_of_nil in Hin. contradiction.
  - simpl. cbv beta iota delta [mbind M_bind].
    destruct (ImportCsv.gather_step read_csv acc path w)
      as [acc1 w1|e w1] eqn:Hstep; [|eauto].
    apply elem_of_cons in Hin as [<- | Hin]; [|apply IH; exact Hin].
    exfalso. revert Hstep. unfold ImportCsv.gather_step.
    pose proof (split_length (ImportCsv.stem p)) as Hl.
    destruct (ImportCsv.split_underscore (ImportCsv.stem p))
      as [|db [|tb [|]]]; try discriminate.
    simpl in Hl. lia.
Qed.

(** C6, amended.  The stem of a matched file is split at every underscore
    and must give exactly two parts: a matched file whose stem has more
    than one underscore makes the scan raise, and whenever the scan returns,
    every key of the mapping has exactly one underscore, the part before it
    being the table's [db_name] and the part after it the table's name. *)
Theorem gather_csv_paths_needs_two_parts (folder : Path) (w : World) :
  ImportCsv.literal_folder folder = true ->
  (forall p, p ∈ ImportCsv.glob_csv folder w ->
     1 < count_underscores (ImportCsv.stem p) ->
     exists e w', ImportCsv.gather_csv_paths read_csv folder w = Raises e w') /\
  (forall ret w',
     ImportCsv.gather_csv_paths read_csv folder w = Returns ret w' ->
     forall k r, (k, r) ∈ ret ->
       exists t db tb,
         table_heap w' !! r = Some t /\
         ImportCsv.split_underscore k = [db; tb] /\
         k = db +:+ "_" +:+ tb /\ count_underscores k = 1 /\
         db_name t = OStr db /\ name t = tb).
Proof.
  intros _. unfold ImportCsv.gather_csv_paths, get_world.
  cbv beta iota delta [mbind M_bind]. split.
  - intros p Hin Hbad. apply (gather_loop_raises _ p Hin Hbad).
  - intros ret w' H k r Hin.
    destruct (gather_loop_returns _ _ _ _ _ H
                ltac:(intros e He; apply elem_of_nil in He; contradiction)
                (k, r) Hin) as (t & db & tb & Ht & Hs & Hd & Hn).
    cbn [fst snd] in *. exists t, db, tb.
    split; [exact Ht|]. split; [exact Hs|].
    split; [apply split_two, Hs|]. split; [|split; assumption].
    pose proof (split_length k) as Hl. rewrite Hs in Hl. simpl in Hl. lia.
Qed.

End Scanner.

Ltac decide_by_compute :=
  match goal with
  | |- ?P => apply (bool_decide_eq_true_1 P); vm_compute; reflexivity
  end.

Lemma gather_csv_paths_school_witness :
  exists ret w' rm rp,
    ImportCsv.gather_csv_paths header_only ["data"] school_folder
      = Returns ret w' /\
    (ret = [("school_math", rm); ("school_portuguese", rp)] \/
     ret = [("school_portuguese", rp); ("school_math", rm)]) /\
    table_heap w' !! rm
      = Some (mkTable "math" (OStr "school") None
                      ["data"; "school_math.csv"]
                      (mkFrame None [] [("G1;G2;G3", [])]) None None) /\
    table_heap w' !! rp
      = Some (mkTable "portuguese" (OStr "school") None
                      ["data"; "school_portuguese.csv"]
                      (mkFrame None [] [("G1;G2", [])]) None None).
Proof.
  apply (gather_csv_paths_school header_only ["data"] school_folder
           "G1;G2;G3" "G1;G2").
  - reflexivity.
  - reflexivity.
  - decide_by_compute.
  - decide_by_compute.
  - decide_by_compute.
  - intros file Hin. simpl in Hin.
    rewrite !elem_of_cons in Hin.
    destruct Hin as [[= ->] | [[= ->] | [[= ->] | Hin]]].
    + right. right. left. reflexivity.
    + right. left. reflexivity.
    + left. reflexivity.
    + apply elem_of_nil in Hin. contradiction.
  - reflexivity.
  - reflexivity.
Defined.

(** C6, as stated, fails: the stem [high_school_math] is not split at its
    first underscore into [high] and [school_math]; it is split into three
    parts, the unpacking raises [ValueError] and no table is built. *)
Lemma gather_csv_paths_rejects_second_underscore :
  ImportCsv.gather_csv_paths header_only ["data"] underscored_folder
    = Raises ValueError underscored_folder /\
  ImportCsv.split_underscore
    (ImportCsv.stem ["data"; "high_school_math.csv"])
    = ["high"; "school"; "math"] /\
  table_heap underscored_folder = [].
Proof. repeat split. Qed.

Lemma gather_csv_paths_needs_two_parts_witness :
  exists e w',
    ImportCsv.gather_csv_paths header_only ["data"] underscored_folder
      = Raises e w'.
Proof.
  apply (proj1 (gather_csv_paths_needs_two_parts header_only ["data"]
                  underscored_folder eq_refl)
               ["data"; "high_school_math.csv"]).
  - decide_by_compute.
  - vm_compute. lia.
Defined.

(** ** Saving and reloading a table *)

Section SaveLoad.

Variable read_csv : string -> string -> res DataFrame.
Variable to_csv : DataFrame -> string -> string.

Lemma lookup_store_file (p : Path) (text : string)
    (fs : list (Path * string)) :
  lookup_file p (store_file p text fs) = Some text.
Proof.
  induction fs as [|[q old] fs IH]; simpl.
  - rewrite bool_decide_eq_true_2 by reflexivity. reflexivity.
  - destruct (bool_decide_reflect (p = q)) as [->|Hne]; simpl.
    + rewrite bool_decide_eq_true_2 by reflexivity. reflexivity.
    + rewrite bool_decide_eq_false_2 by exact Hne. exact IH.
Qed.

(** What the repository contributes to a save followed by a reload: the
    reload parses, with the same separator, the text pandas wrote for the
    table's frame into the table's own [csv_path].  Whether that frame has
    the columns and rows of the saved one is a property of the pair
    [to_csv]/[read_csv] alone. *)
Lemma reload_parses_saved_text (self : tref) (sep : string) (w : World)
    (t : DBTable) :
  table_heap w !! self = Some t ->
  (TableMethods.dataframe_to_csv to_csv self sep;;
   TableMethods.csv_to_dataframe read_csv self sep) w
  = let text := to_csv (dataframe t) sep in
    let saved := set_files (store_file (csv_path t) text (files w)) w in
    match read_csv text sep with
    | Ok df =>
        Returns self
          (set_table_heap (alter (set_dataframe df) self (table_heap w))
                          saved)
    | Raise e => Raises e saved
    end.
Proof.
  intros Ht. destruct w as [cw di fi st th dh io]. cbn [table_heap] in Ht.
  unfold TableMethods.dataframe_to_csv, TableMethods.csv_to_dataframe,
    write_file, read_file, lift_res.
  cbv beta iota delta
    [mbind M_bind mret M_ret raise get_table update_table modify_world
     set_files set_table_heap table_heap files cwd dirs stores
     database_heap ic_output].
  rewrite Ht. cbv beta iota. rewrite Ht. cbv beta iota.
  rewrite lookup_store_file.
  destruct (read_csv (to_csv (dataframe t) sep) sep); reflexivity.
Qed.

End SaveLoad.

(** ** More on the normalisation map *)

(** A string is either left alone in every column, or mapped to [None] or
    to one of the codes. *)
Lemma students_str_map_str_cases (str_upper : string -> string)
    (s column : string) :
  (forall c, Main.students_str_map str_upper (PyStr s) c = PyStr s) \/
  Main.students_str_map str_upper (PyStr s) column = PyNone \/
  exists z, (0 <= z <= 4)%Z /\
            Main.students_str_map str_upper (PyStr s) column = PyInt z.
Proof.
  unfold Main.students_str_map. set (u := str_upper s).
  destruct (String.eqb u "YES");
    [right; right; eexists; split; [|reflexivity]; lia|].
  destruct (String.eqb u "NO");
    [right; right; eexists; split; [|reflexivity]; lia|].
  destruct (String.eqb u "OTHER").
  { right.
    destruct (String.eqb column "reason");
      [right; eexists; split; [|reflexivity]; lia|].
    destruct (String.eqb column "guardian");
      [right; eexists; split; [|reflexivity]; lia|].
    destruct (Main.in_job_columns column);
      [right; eexists; split; [|reflexivity]; lia|].
    left. reflexivity. }
  repeat match goal with
  | |- context [String.eqb u ?k] =>
      destruct (String.eqb u k);
      [right; right; eexists; split; [|reflexivity]; lia|]
  end.
  left. reflexivity.
Qed.

Lemma students_str_map_again (str_upper : string -> string)
    (v : pyval) (column column' : string) :
  Main.students_str_map str_upper
    (Main.students_str_map str_upper v column) column'
  = Main.students_str_map str_upper v column.
Proof.
  destruct v as [|b|z|bits| |s]; try reflexivity.
  destruct (students_str_map_str_cases str_upper s column)
    as [Hsame | [Hnone | (z & Hz & Hcode)]].
  - rewrite (Hsame column). apply Hsame.
  - rewrite Hnone. reflexivity.
  - rewrite Hcode. reflexivity.
Qed.

(** X1. The normalisation map returns its argument, [None], or a code
    between 0 and 4; a value that is not a string is returned as it is;
    and mapping a result again, in any column, changes nothing. *)
Theorem students_str_map_codes (str_upper : string -> string)
    (v : pyval) (column column' : string) :
  (Main.students_str_map str_upper v column = v \/
   Main.students_str_map str_upper v column = PyNone \/
   exists z, (0 <= z <= 4)%Z /\
             Main.students_str_map str_upper v column = PyInt z) /\
  (match v with
   | PyStr _ => True
   | _ => Main.students_str_map str_upper v column = v
   end) /\
  Main.students_str_map str_upper
    (Main.students_str_map str_upper v column) column'
  = Main.students_str_map str_upper v column.
Proof.
  split; [|split; [|apply students_str_map_again]].
  - destruct v as [|b|z|bits| |s]; try (left; reflexivity).
    destruct (students_str_map_str_cases str_upper s column)
      as [Hsame | [Hnone | (z & Hz & Hcode)]].
    + left. apply Hsame.
    + right. left. exact Hnone.
    + right. right. exists z. split; assumption.
  - destruct v; exact I || reflexivity.
Qed.

(** ** [DBTable.normalise_data] *)

Lemma frame_ext (a b : DataFrame) :
  index_name a = index_name b -> index_values a = index_values b ->
  columns a = columns b -> a = b.
Proof. destruct a, b. simpl. intros -> -> ->. reflexivity. Qed.

Section NormaliseFacts.

Variable data_map : pyval -> string -> pyval.

Let step (df : DataFrame) (column : string) : DataFrame :=
  map_column (fun v => data_map v column) column df.

Let mapped (c : string * list pyval) : string * list pyval :=
  (fst c, map (fun v => data_map v (fst c)) (snd c)).

Lemma fold_map_column_index (ls : list string) (df : DataFrame) :
  index_name (fold_left step ls df) = index_name df /\
  index_values (fold_left step ls df) = index_values df.
Proof.
  revert df. induction ls as [|l ls IH]; intros df; simpl; [tauto|].
  destruct (IH (step df l)) as [-> ->]. split; reflexivity.
Qed.

Lemma fold_map_column_columns (ls : list string) (df : DataFrame) :
  NoDup ls ->
  columns (fold_left step ls df)
  = map (fun c => if existsb (fun l => String.eqb l (fst c)) ls
                  then mapped c else c) (columns df).
Proof.
  revert df. induction ls as [|l ls IH]; intros df Hnd; simpl.
  - symmetry. apply map_id.
  - apply NoDup_cons in Hnd as [Hl Hnd]. rewrite (IH _ Hnd).
    unfold step, map_column. simpl. rewrite map_map.
    apply map_ext. intros [k vs]. simpl.
    destruct (String.eqb_spec l k) as [->|Hne]; simpl; [|reflexivity].
    assert (E : existsb (fun l => String.eqb l k) ls = false).
    { apply not_true_is_false. intros E. apply existsb_exists in E
        as (x & Hx & Hxk). apply String.eqb_eq in Hxk. subst x.
      apply Hl. apply list_elem_of_In. exact Hx. }
    rewrite E. reflexivity.
Qed.

Lemma normalise_data_columns (t : DBTable) :
  NoDup (labels (dataframe t)) ->
  columns (dataframe (Table.normalise_data data_map t))
  = map mapped (columns (dataframe t)).
Proof.
  intros Hnd. unfold Table.normalise_data. simpl.
  change (fold_left _ (labels (dataframe t)) (dataframe t))
    with (fold_left step (labels (dataframe t)) (dataframe t)).
  rewrite (fold_map_column_columns _ _ Hnd).
  apply map_ext_in. intros c Hc.
  assert (E : existsb (fun l => String.eqb l (fst c)) (labels (dataframe t))
              = true).
  { apply existsb_exists. exists (fst c).
    split; [apply in_map; exact Hc | apply String.eqb_refl]. }
  rewrite E. reflexivity.
Qed.

End NormaliseFacts.

(** X2. [normalise_data] keeps the shape of the frame: the column labels
    and their order, the number of cells of every column, and the index
    are those of before; no slot but [dataframe] is assigned. *)
Theorem normalise_data_keeps_shape (data_map : pyval -> string -> pyval)
    (t : DBTable) :
  NoDup (labels (dataframe t)) ->
  let t' := Table.normalise_data data_map t in
  labels (dataframe t') = labels (dataframe t) /\
  map (fun c => length (snd c)) (columns (dataframe t'))
    = map (fun c => length (snd c)) (columns (dataframe t)) /\
  index_name (dataframe t') = index_name (dataframe t) /\
  index_values (dataframe t') = index_values (dataframe t) /\
  nrows (dataframe t') = nrows (dataframe t) /\
  t' = set_dataframe (dataframe t') t.
Proof.
  intros Hnd t'. subst t'.
  pose proof (normalise_data_columns data_map t Hnd) as Hcols.
  destruct (fold_map_column_index data_map (labels (dataframe t))
              (dataframe t)) as [Hin Hiv].
  split; [|split; [|split; [|split; [|split]]]].
  - unfold labels. rewrite Hcols, map_map. reflexivity.
  - rewrite Hcols, map_map. apply map_ext. intros c. simpl.
    apply length_map.
  - exact Hin.
  - exact Hiv.
  - unfold nrows. f_equal. exact Hiv.
  - reflexivity.
Qed.

Lemma normalise_data_keeps_shape_witness :
  labels (dataframe (Table.normalise_data (Main.students_str_map upper)
                       (example_table "math" "school" marks_frame)))
  = ["age"; "sex"].
Proof.
  refine (proj1 (normalise_data_keeps_shape (Main.students_str_map upper)
                   (example_table "math" "school" marks_frame) _)).
  unfold labels. simpl. apply NoDup_cons. split.
  - rewrite list_elem_of_In. simpl. intuition discriminate.
  - apply NoDup_singleton.
Defined.

(** X3. Normalising with [students_str_map] a second time changes
    nothing. *)
Theorem normalise_data_students_twice (str_upper : string -> string)
    (t : DBTable) :
  NoDup (labels (dataframe t)) ->
  Table.normalise_data (Main.students_str_map str_upper)
    (Table.normalise_data (Main.students_str_map str_upper) t)
  = Table.normalise_data (Main.students_str_map str_upper) t.
Proof.
  intros Hnd. set (f := Main.students_str_map str_upper).
  set (t1 := Table.normalise_data f t).
  pose proof (normalise_data_columns f t Hnd) as Hc1. fold t1 in Hc1.
  assert (Hl1 : labels (dataframe t1) = labels (dataframe t))
    by (unfold labels; rewrite Hc1, map_map; reflexivity).
  assert (Hnd1 : NoDup (labels (dataframe t1))) by (rewrite Hl1; exact Hnd).
  pose proof (normalise_data_columns f t1 Hnd1) as Hc2.
  destruct (fold_map_column_index f (labels (dataframe t)) (dataframe t))
    as [Hin1 Hiv1].
  destruct (fold_map_column_index f (labels (dataframe t1)) (dataframe t1))
    as [Hin2 Hiv2].
  assert (Hdf : dataframe (Table.normalise_data f t1) = dataframe t1).
  { apply frame_ext.
    - exact Hin2.
    - exact Hiv2.
    - rewrite Hc2, Hc1, map_map.
      apply map_ext. intros [k vs]. simpl. f_equal. rewrite map_map.
      apply map_ext. intros v. apply students_str_map_again. }
  unfold Table.normalise_data at 1.
  change (fold_left _ (labels (dataframe t1)) (dataframe t1))
    with (dataframe (Table.normalise_data f t1)).
  rewrite Hdf. reflexivity.
Qed.

Lemma normalise_data_students_twice_witness :
  Table.normalise_data (Main.students_str_map upper)
    (Table.normalise_data (Main.students_str_map upper)
       (example_table "math" "school" marks_frame))
  = example_table "math" "school"
      (mkFrame (Some "MUID") [PyInt 0; PyInt 1]
         [("age", [PyInt 15; PyInt 16]); ("sex", [PyInt 0; PyInt 1])]).
Proof.
  rewrite (normalise_data_students_twice upper
             (example_table "math" "school" marks_frame)).
  - reflexivity.
  - unfold labels. simpl. apply NoDup_cons. split.
    + rewrite list_elem_of_In. simpl. intuition discriminate.
    + apply NoDup_singleton.
Defined.

(** ** One run of [DBTable.modify_index] *)

Lemma has_column_values (l : string) (df : DataFrame) :
  has_column l df = true ->
  exists vs, column_values l (columns df) = Some vs.
Proof. apply column_values_some. Qed.

Lemma labels_drop_column (l : string) (cols : list (string * list pyval)) :
  map fst (drop_column l cols)
  = List.filter (fun k => negb (String.eqb l k)) (map fst cols).
Proof.
  unfold drop_column. induction cols as [|[k vs] cols IH]; simpl;
    [reflexivity|].
  destruct (String.eqb l k); simpl; rewrite IH; reflexivity.
Qed.

Lemma filter_absent_label (l : string) (ls : list string) :
  existsb (String.eqb l) ls = false ->
  List.filter (fun k => negb (String.eqb l k)) ls = ls.
Proof.
  induction ls as [|k ls IH]; simpl; [reflexivity|].
  destruct (String.eqb l k); simpl; [discriminate|].
  intros H. rewrite (IH H). reflexivity.
Qed.

(** X4. When [modify_index] raises and when it returns: an unassigned
    [index_label] gives [AttributeError]; identifiers pre-assigned in
    [index] whose number is not the number of rows of a non-empty frame give
    [ValueError]; in every other case the call returns. *)
Theorem modify_index_outcome (t : DBTable) :
  (index_label t = None -> modify_index t = Raise AttributeError) /\
  (forall l vs,
     index_label t = Some l -> has_column l (dataframe t) = false ->
     index t = Some vs -> length vs <> nrows (dataframe t) ->
     nrows (dataframe t) <> 0 ->
     modify_index t = Raise ValueError) /\
  (forall l,
     index_label t = Some l ->
     (has_column l (dataframe t) = true /\ NoDup (labels (dataframe t))) \/
     (has_column l (dataframe t) = false /\
      match index t with
      | None => True
      | Some vs => length vs = nrows (dataframe t) \/ nrows (dataframe t) = 0
      end) ->
     exists t', modify_index t = Ok t').
Proof.
  split; [|split].
  - intros Hl. unfold modify_index. rewrite Hl. reflexivity.
  - intros l vs Hl Hc Hi Hlen Hrows.
    rewrite (modify_index_insert_branch t l Hl Hc). rewrite Hi.
    unfold insert_front. rewrite Hc.
    apply Nat.eqb_neq in Hlen, Hrows. rewrite Hrows, Hlen. reflexivity.
  - intros l Hl [[Hc _] | [Hc Hidx]].
    + unfold modify_index. rewrite Hl, Hc. unfold set_index.
      destruct (has_column_values l _ Hc) as [vs ->]. eauto.
    + rewrite (modify_index_insert_branch t l Hl Hc).
      destruct (index t) as [vs|].
      * unfold insert_front. rewrite Hc.
        destruct (Nat.eqb (nrows (dataframe t)) 0 && Nat.ltb 0 (length vs))
          eqn:Hgrow; [eauto|].
        destruct (Nat.eqb_spec (length vs) (nrows (dataframe t)));
          [eauto|].
        destruct Hidx as [? | Hz]; [contradiction|].
        rewrite Hz in Hgrow. simpl in Hgrow.
        apply Nat.ltb_ge in Hgrow. lia.
      * rewrite (insert_front_fits l _ _ Hc)
          by apply length_range_values.
        eauto.
Qed.

Lemma modify_index_outcome_witness :
  modify_index
    (set_index_attr (Some [PyInt 7])
       (set_index_label "MUID" table_with_id_column))
  = Raise ValueError /\
  exists t', modify_index table_with_id_column = Ok t'.
Proof.
  split.
  - apply (proj1 (proj2 (modify_index_outcome
                           (set_index_attr (Some [PyInt 7])
                              (set_index_label "MUID" table_with_id_column))))
                 "MUID" [PyInt 7]);
      try reflexivity; unfold nrows; simpl; lia.
  - apply (proj2 (proj2 (modify_index_outcome table_with_id_column)) "id");
      [reflexivity|].
    left. split; [reflexivity|].
    unfold labels. simpl. apply NoDup_cons. split.
    + rewrite list_elem_of_In. simpl. intuition discriminate.
    + apply NoDup_singleton.
Defined.

(** X5. What one returning run of [modify_index] does, on a frame whose
    labels are distinct: the label becomes the name of the index and is not
    a regular column; the other columns keep their order; if the label named
    a column, that column's values become the index and [index] is left
    alone; if not, the index is the list held in [index], or [0..N-1] when
    there is none, that list is stored in [index], and the regular columns
    are untouched as long as the number of rows is; no other slot is
    assigned. *)
Theorem modify_index_effect (t t' : DBTable) (l : string) :
  index_label t = Some l ->
  NoDup (labels (dataframe t)) ->
  modify_index t = Ok t' ->
  t' = set_dataframe (dataframe t') (set_index_attr (index t') t) /\
  index_name (dataframe t') = Some l /\
  has_column l (dataframe t') = false /\
  labels (dataframe t')
    = List.filter (fun k => negb (String.eqb l k)) (labels (dataframe t)) /\
  (has_column l (dataframe t) = true ->
     column_values l (columns (dataframe t))
       = Some (index_values (dataframe t')) /\
     columns (dataframe t') = drop_column l (columns (dataframe t)) /\
     index t' = index t) /\
  (has_column l (dataframe t) = false ->
     index_values (dataframe t')
       = match index t with
         | Some vs => vs
         | None => range_values (nrows (dataframe t))
         end /\
     index t' = Some (index_values (dataframe t')) /\
     (nrows (dataframe t') = nrows (dataframe t) ->
      columns (dataframe t') = columns (dataframe t))).
Proof.
  intros Hl _ H.
  destruct (has_column l (dataframe t)) eqn:Hc.
  - unfold modify_index in H. rewrite Hl, Hc in H. unfold set_index in H.
    destruct (column_values l (columns (dataframe t))) as [vs|] eqn:Hv;
      [|discriminate].
    injection H as <-. simpl.
    split; [destruct t; reflexivity|]. split; [reflexivity|].
    split; [unfold has_column, labels; simpl; apply drop_column_removes|].
    split; [unfold labels; simpl; apply labels_drop_column|].
    split; [intros _; repeat split | discriminate].
  - rewrite (modify_index_insert_branch t l Hl Hc) in H.
    destruct (insert_front l _ (dataframe t)) as [df1|e] eqn:Hins;
      [|discriminate].
    injection H as <-.
    destruct (insert_front_ok _ _ _ _ Hins)
      as (_ & _ & Hn & cs & Hcs & Hlab & Hfit).
    rewrite Hcs. simpl.
    split; [reflexivity|]. split; [reflexivity|].
    split; [unfold has_column, labels; simpl; rewrite Hlab; exact Hc|].
    split.
    { unfold labels at 1. simpl. rewrite Hlab.
      symmetry. apply filter_absent_label. exact Hc. }
    split; [discriminate|]. intros _.
    split; [reflexivity|]. split; [reflexivity|].
    unfold nrows at 1. simpl. intros Hrows.
    specialize (Hfit Hrows). rewrite Hfit in Hcs. simpl in Hcs.
    injection Hcs as <-. reflexivity.
Qed.

Lemma modify_index_effect_witness :
  exists t',
    modify_index table_with_id_column = Ok t' /\
    index_name (dataframe t') = Some "id" /\
    labels (dataframe t') = ["x"].
Proof.
  eexists. split; [reflexivity|].
  assert (Hnd : NoDup (labels (dataframe table_with_id_column))).
  { unfold labels. simpl. apply NoDup_cons. split.
    - rewrite list_elem_of_In. simpl. intuition discriminate.
    - apply NoDup_singleton. }
  pose proof (modify_index_effect table_with_id_column _ "id" eq_refl Hnd
                eq_refl) as (_ & Hn & _ & Hlab & _).
  split; [exact Hn | exact Hlab].
Defined.

(** ** [Database.__init__] *)

Lemma init_default_folder (n mode : string) (w : World) :
  Database.init n None mode w
  = Database.init n (Some (parent (cwd w) ++ ["data"])) mode w.
Proof.
  destruct w as [cw di fi st th dh io].
  unfold Database.init. run_init. simpl from_option.
  rewrite !alter_last. simpl default.
  rewrite insert_insert_eq. reflexivity.
Qed.

Lemma prefixes_self (p : Path) : p ∈ prefixes p.
Proof.
  induction p as [|c p IH]; simpl.
  - apply list_elem_of_here.
  - apply list_elem_of_further. apply list_elem_of_fmap.
    exists p. split; [reflexivity | exact IH].
Qed.

Lemma sqlite_open_in (dir : Path) (file : string) (w : World) :
  sqlite_open (joinpath dir file) w
  = if bool_decide (dir ∈ dirs w)
    then Returns ()
           (set_stores (<[joinpath dir file :=
                            default [] (stores w !! joinpath dir file)]>
                          (stores w)) w)
    else Raises OperationalError w.
Proof.
  unfold sqlite_open.
  replace (parent (joinpath dir file)) with dir
    by (symmetry; apply parent_join).
  reflexivity.
Qed.

(** The four ways [__init__] can go, for a given folder. *)
Lemma init_cases (n : string) (dir : Path) (mode : string) (w : World) :
  Database.init n (Some dir) mode w
  = let dh := database_heap w in
    let p := joinpath dir (n +:+ ".db") in
    let started :=
      <["folder" := OPath dir]>
        (<["tables" := OTableList []]> (<["name" := OStr n]> ∅)) in
    let unopened :=
      <["if_exists" := OStr mode]>
        (<["cursor" := ONone]>
           (<["connection" := ONone]> (<["path" := OPath p]> started))) in
    let opened di :=
      mkWorld (cwd w) di (files w)
              (<[p := default [] (stores w !! p)]> (stores w))
              (table_heap w) (dh ++ [fresh_dict n dir mode]) (ic_output w) in
    if bool_decide (dir ∈ dirs w) then Returns (length dh) (opened (dirs w))
    else if under_file dir w then
      Raises OSError (set_database_heap (dh ++ [started]) w)
    else if is_file dir w then
      Raises OperationalError (set_database_heap (dh ++ [unopened]) w)
    else
      Returns (length dh)
        (opened (dirs w
                 ++ List.filter (fun q => negb (bool_decide (q ∈ dirs w)))
                                (prefixes dir))).
Proof.
  destruct w as [cw di fi st th dh io].
  unfold Database.init. run_init. simpl from_option.
  rewrite !alter_last, !lookup_last. simpl default.
  rewrite lookup_insert_eq. run_init.
  cbv zeta.
  destruct (bool_decide_reflect (dir ∈ di)) as [Hd|Hd].
  - run_init. rewrite !alter_last, !lookup_last. simpl default.
    rewrite !lookup_insert_ne, lookup_empty by discriminate. run_init.
    rewrite lookup_last. simpl default.
    rewrite !lookup_insert_ne, lookup_insert_eq by discriminate. run_init.
    rewrite sqlite_open_in. cbn [dirs stores].
    rewrite (bool_decide_eq_true_2 _ Hd). run_init.
    rewrite !alter_last. reflexivity.
  - unfold try_except, mkdir_parents, under_file, is_file. cbn [files dirs].
    destruct (existsb _ _); [reflexivity|].
    rewrite (bool_decide_eq_false_2 _ Hd), orb_false_r.
    destruct (bool_decide (dir ∈ map fst fi)).
    + destruct (decide (FileExistsError = FileExistsError)) as [_|Hne];
        [|congruence].
      run_init.
      rewrite !alter_last, !lookup_last. simpl default.
      rewrite !lookup_insert_ne, lookup_empty by discriminate. run_init.
      rewrite lookup_last. simpl default.
      rewrite !lookup_insert_ne, lookup_insert_eq by discriminate. run_init.
      rewrite sqlite_open_in. cbn [dirs stores].
      rewrite (bool_decide_eq_false_2 _ Hd). reflexivity.
    + run_init. rewrite !alter_last, !lookup_last. simpl default.
      rewrite !lookup_insert_ne, lookup_empty by discriminate. run_init.
      rewrite lookup_last. simpl default.
      rewrite !lookup_insert_ne, lookup_insert_eq by discriminate. run_init.
      rewrite sqlite_open_in. cbn [dirs stores].
      rewrite bool_decide_eq_true_2.
      * run_init. rewrite !alter_last. reflexivity.
      * apply elem_of_app. right. apply list_elem_of_In, filter_In.
        split; [apply list_elem_of_In, prefixes_self|].
        rewrite (bool_decide_eq_false_2 _ Hd). reflexivity.
Qed.

Lemma init_folder (n : string) (folder : option Path) (mode : string)
    (w : World) :
  Database.init n folder mode w
  = Database.init n (Some (database_folder folder w)) mode w.
Proof. destruct folder; [reflexivity | apply init_default_folder]. Qed.


(** X7. What a returning [Database(name, folder, if_exists)] has done: one
    new object, whose attributes are those the constructor assigns, the
    connection and the cursor being on [folder/name.db]; that store keeps
    the tables it had, or is created empty; the folder exists, and the only
    folders created are the folder and its missing ancestors; no file, no
    table object, no other database object and no other store is
    touched. *)
Theorem init_effect (n : string) (folder : option Path) (mode : string)
    (w : World) (db : dbref) (w' : World) :
  plain_name n = true ->
  Database.init n folder mode w = Returns db w' ->
  let dir := database_folder folder w in
  let p := joinpath dir (n +:+ ".db") in
  db = length (database_heap w) /\
  database_heap w' = database_heap w ++ [fresh_dict n dir mode] /\
  stores w' = <[p := default [] (stores w !! p)]> (stores w) /\
  dir ∈ dirs w' /\
  (forall q, q ∈ dirs w' <->
             q ∈ dirs w \/ ((dir ∉ dirs w) /\ q ∈ prefixes dir)) /\
  table_heap w' = table_heap w /\ files w' = files w /\
  ic_output w' = ic_output w /\ cwd w' = cwd w.
Proof.
  intros _ H dir p. rewrite init_folder, init_cases in H.
  fold dir in H. cbv zeta in H. fold p in H.
  destruct (bool_decide_reflect (dir ∈ dirs w)) as [Hd|Hd].
  - injection H as <- <-. cbn [database_heap stores dirs table_heap files
                               ic_output cwd].
    repeat (split; [reflexivity|]). split; [exact Hd|].
    split; [|repeat split]. intros q. tauto.
  - destruct (under_file dir w); [discriminate|].
    destruct (is_file dir w); [discriminate|].
    injection H as <- <-. cbn [database_heap stores dirs table_heap files
                               ic_output cwd].
    repeat (split; [reflexivity|]).
    assert (Hin : forall q,
              q ∈ dirs w ++ List.filter
                     (fun q => negb (bool_decide (q ∈ dirs w)))
                     (prefixes dir)
              <-> q ∈ dirs w \/ ((dir ∉ dirs w) /\ q ∈ prefixes dir)).
    { intros q. rewrite elem_of_app, !list_elem_of_In, filter_In.
      rewrite <- !list_elem_of_In.
      destruct (bool_decide_reflect (q ∈ dirs w)); simpl;
        intuition discriminate. }
    split; [apply Hin; right; split; [exact Hd | apply prefixes_self]|].
    split; [exact Hin | repeat split].
Qed.


Lemma init_effect_witness :
  stores (world_of (Database.init "school" None "append" (world_with [])))
  = <[ ["data"; "school.db"] := [] ]> ∅.
Proof.
  refine (proj1 (proj2 (proj2 (init_effect "school" None "append"
                                  (world_with []) 0 _ eq_refl _)))).
  vm_compute. reflexivity.
Defined.

(** ** [Database.add_table]: when it returns, when it raises *)







Ltac not_listed :=
  let H := fresh in
  intros H; apply list_elem_of_In in H; simpl in H; intuition discriminate.


Lemma instance_dict_lookup (self : dbref) (w : World) :
  self < length (database_heap w) ->
  database_heap w !! self = Some (Database.instance_dict self w).
Proof.
  intros H. unfold Database.instance_dict.
  destruct (lookup_lt_is_Some_2 _ _ H) as [d ->]. reflexivity.
Qed.




(** ** [Database.add_tables], [table_names] and [show_tables] *)

Lemma add_tables_cons self x ts w r w' :
  Database.add_tables self (x :: ts) w = Returns r w' ->
  exists w1,
    Database.add_table self x w = Returns self w1 /\
    Database.add_tables self ts w1 = Returns r w'.
Proof.
  unfold Database.add_tables. simpl for_each.
  cbv beta iota delta [mbind M_bind mret M_ret Database.lookup_method].
  destruct (Database.instance_dict self w !! "add_table"); [discriminate|].
  destruct (Database.add_table self x w) as [r1 w1|] eqn:Hadd;
    [|discriminate].
  intros H. exists w1. split; [|exact H].
  destruct (add_table_returns _ _ _ _ _ Hadd)
    as (?&?&?&?&?&?&?&?&_&_&_&_&_&_&_&_&_&->&_).
  reflexivity.
Qed.

(** A returning [add_table] renames no table object. *)
Lemma add_table_named self table w r w1 :
  Database.add_table self table w = Returns r w1 ->
  forall y n, named w1 y n <-> named w y n.
Proof.
  intros H y n.
  apply add_table_effect in H
    as (d & t & l & nm & _ & _ & _ & Ht & _ & _ & _ & Htab & Hot & _).
  unfold named. destruct (decide (y = table)) as [->|Hne].
  - rewrite Htab, Ht. split; intros (T & [= <-] & Hn); eauto.
  - rewrite (Hot y Hne). reflexivity.
Qed.

Lemma table_names_list self w d l :
  database_heap w !! self = Some d ->
  d !! "tables" = Some (OTableList l) ->
  Database.table_names self w = Database.names_of l w.
Proof.
  intros Hd Hl. unfold Database.table_names.
  cbv beta iota delta [mbind M_bind Database.getattr Database.instance_dict].
  rewrite Hd. simpl default. rewrite Hl. reflexivity.
Qed.

(** X11. When [add_tables] returns, the owned list is the list of before
    followed by the tables in argument order, and [table_names] gives the
    names of before followed by the names of the tables in that order, a
    repeated name being listed as often as it was added. *)
Theorem add_tables_table_names (self : dbref) (ts : list tref) :
  forall (w : World) (r : dbref) (w' : World) (d : gmap string pyobj)
         (l : list tref) (ns : list string),
  database_heap w !! self = Some d ->
  d !! "tables" = Some (OTableList l) ->
  Database.table_names self w = Returns ns w ->
  (forall x, x ∈ ts -> ~ named w x "tables") ->
  Database.add_tables self ts w = Returns r w' ->
  exists names,
    Forall2 (named w) ts names /\
    Database.instance_dict self w' !! "tables" = Some (OTableList (l ++ ts)) /\
    Database.table_names self w' = Returns (ns ++ names) w'.
Proof.
  induction ts as [|x ts IH]; intros w r w' d l ns Hd Hl Hns Hnot H.
  - unfold Database.add_tables in H. simpl in H. injection H as <- <-.
    exists []. split; [constructor|]. rewrite !app_nil_r.
    split; [|exact Hns].
    unfold Database.instance_dict. rewrite Hd. exact Hl.
  - apply add_tables_cons in H as (w1 & Hadd & Hrest).
    pose proof (add_table_named _ _ _ _ _ Hadd) as Hnamed.
    pose proof (add_table_effect _ _ _ _ _ Hadd)
      as (d0 & t & l0 & nm & Hd0 & Hl0 & _ & Ht & Hd1 & _ & _ & Htab & _).
    rewrite Hd in Hd0. injection Hd0 as <-.
    rewrite Hl in Hl0. injection Hl0 as <-.
    assert (Hnt : name t <> "tables").
    { intros E. apply (Hnot x); [apply list_elem_of_here|].
      exists t. split; assumption. }
    assert (Hl1 : <[name t := OTable x]>
                    (<["tables" := OTableList (l ++ [x])]> d) !! "tables"
                  = Some (OTableList (l ++ [x]))).
    { rewrite lookup_insert_ne by exact Hnt. apply lookup_insert_eq. }
    assert (Hns1 : Database.table_names self w1
                   = Returns (ns ++ [name t]) w1).
    { rewrite (table_names_list _ _ _ _ Hd1 Hl1).
      rewrite (table_names_list _ _ _ _ Hd Hl) in Hns.
      rewrite (names_of_app l [x] w w1 ns Hns).
      - simpl. cbv beta iota delta [mbind M_bind mret M_ret get_table].
        rewrite Htab. reflexivity.
      - intros y T HT.
        destruct (add_table_keeps_table_data _ _ _ _ _ y T Hadd HT)
          as (T' & HT' & Hsame).
        exists T'. split; [exact HT' | apply Hsame]. }
    destruct (IH w1 r w' _ (l ++ [x]) (ns ++ [name t]) Hd1 Hl1 Hns1)
      as (names & Hall & Hlist & Hnames).
    + intros y Hy Hn. apply (Hnot y); [apply list_elem_of_further, Hy|].
      apply Hnamed. exact Hn.
    + exact Hrest.
    + exists (name t :: names). split; [|split].
      * constructor; [exists t; split; [exact Ht | reflexivity]|].
        eapply Forall2_impl; [exact Hall|]. intros y n Hn.
        apply Hnamed. exact Hn.
      * rewrite Hlist, <- app_assoc. reflexivity.
      * rewrite Hnames, <- app_assoc. reflexivity.
Qed.

Lemma add_tables_table_names_witness :
  exists names w',
    Database.add_tables 0 [0; 1]
      (school_world "replace" (table_heap two_maths)) = Returns 0 w' /\
    Forall2 (named (school_world "replace" (table_heap two_maths)))
            [0; 1] names /\
    Database.table_names 0 w' = Returns names w'.
Proof.
  destruct (add_tables_table_names 0 [0; 1]
              (school_world "replace" (table_heap two_maths)) 0
              (world_of (Database.add_tables 0 [0; 1]
                           (school_world "replace" (table_heap two_maths))))
              (Database.instance_dict 0
                 (school_world "replace" (table_heap two_maths)))
              [] [])
    as (names & Hall & _ & Hnames).
  - apply instance_dict_lookup. vm_compute. lia.
  - vm_compute. reflexivity.
  - vm_compute. reflexivity.
  - intros x Hx (T & HT & Hn).
    rewrite !elem_of_cons in Hx.
    destruct Hx as [-> | [-> | Hx]];
      [| | apply elem_of_nil in Hx; contradiction];
      vm_compute in HT; injection HT as <-; discriminate.
  - vm_compute. reflexivity.
  - exists names,
      (world_of (Database.add_tables 0 [0; 1]
                   (school_world "replace" (table_heap two_maths)))).
    split; [vm_compute; reflexivity|].
    split; [exact Hall | exact Hnames].
Defined.




(** ** The import scanner, in general *)

Lemma fnmatch_star (rest : list ImportCsv.glob_token) (s : string) :
  ImportCsv.fnmatch (ImportCsv.Star :: rest) s = true ->
  exists a b, s = a +:+ b /\ ImportCsv.fnmatch rest b = true.
Proof.
  induction s as [|c s IH].
  - simpl. rewrite orb_false_r. intros H. exists "", "". split;
      [reflexivity | exact H].
  - intros H.
    change (ImportCsv.fnmatch rest (String c s)
            || ImportCsv.fnmatch (ImportCsv.Star :: rest) s = true) in H.
    apply orb_prop in H as [H | H].
    + exists "", (String c s). split; [reflexivity | exact H].
    + destruct (IH H) as (a & b & -> & Hb).
      exists (String c a), b. split; [reflexivity | exact Hb].
Qed.

Lemma fnmatch_lit (c : ascii) (rest : list ImportCsv.glob_token)
    (s : string) :
  ImportCsv.fnmatch (ImportCsv.Lit c :: rest) s = true ->
  exists s', s = String c s' /\ ImportCsv.fnmatch rest s' = true.
Proof.
  destruct s as [|c' s']; simpl; [discriminate|].
  intros H. apply andb_prop in H as [Hc H].
  apply Ascii.eqb_eq in Hc. subst c'. eauto.
Qed.

Lemma append_cons (c : ascii) (s t : string) :
  String c s +:+ t = String c (s +:+ t).
Proof. reflexivity. Qed.

Lemma append_assoc (a b c : string) : (a +:+ b) +:+ c = a +:+ (b +:+ c).
Proof.
  induction a as [|x a IH]; [reflexivity|].
  rewrite !append_cons, IH. reflexivity.
Qed.

(** A name the pattern [*_*.csv] matches ends in [.csv] after a non-empty
    stem. *)
Lemma csv_pattern_inv (file : string) :
  ImportCsv.fnmatch ImportCsv.csv_pattern file = true ->
  exists s, file = s +:+ ".csv" /\ s <> "".
Proof.
  unfold ImportCsv.csv_pattern. intros H.
  apply fnmatch_star in H as (a & b & -> & H).
  apply fnmatch_lit in H as (b1 & -> & H).
  apply fnmatch_star in H as (a2 & b2 & -> & H).
  apply fnmatch_lit in H as (b3 & -> & H).
  apply fnmatch_lit in H as (b4 & -> & H).
  apply fnmatch_lit in H as (b5 & -> & H).
  apply fnmatch_lit in H as (b6 & -> & H).
  destruct b6; [|discriminate].
  exists (a +:+ String "_" a2). split.
  - rewrite append_assoc. reflexivity.
  - destruct a; discriminate.
Qed.

Lemma rfind_dot_csv (s : string) :
  ImportCsv.rfind_dot (s +:+ ".csv") = Some (String.length s).
Proof.
  induction s as [|c s IH]; [reflexivity|].
  rewrite append_cons. simpl. rewrite IH. reflexivity.
Qed.

Lemma substring_prefix (s t : string) :
  String.substring 0 (String.length s) (s +:+ t) = s.
Proof.
  induction s as [|c s IH].
  - destruct t; reflexivity.
  - rewrite append_cons. simpl. rewrite IH. reflexivity.
Qed.

Lemma length_append (s t : string) :
  String.length (s +:+ t) = String.length s + String.length t.
Proof.
  induction s as [|c s IH]; [reflexivity|].
  rewrite append_cons. simpl. rewrite IH. reflexivity.
Qed.

Lemma stem_csv (folder : Path) (s : string) :
  s <> "" -> ImportCsv.stem (folder ++ [s +:+ ".csv"]) = s.
Proof.
  intros Hs. rewrite stem_join. unfold ImportCsv.stem. simpl last.
  simpl default. rewrite rfind_dot_csv, length_append. simpl String.length.
  assert (Hpos : 0 < String.length s) by (destruct s; simpl; [congruence | lia]).
  apply Nat.ltb_lt in Hpos. rewrite Hpos.
  assert (Hlt : (String.length s <? String.length s + 4 - 1) = true)
    by (apply Nat.ltb_lt; lia).
  rewrite Hlt. simpl andb. cbv iota. apply substring_prefix.
Qed.

(** A matched path is its folder, then its stem followed by [.csv]. *)
Lemma globbed_stem (folder p : Path) :
  globbed folder p = true ->
  p = folder ++ [ImportCsv.stem p +:+ ".csv"].
Proof.
  intros H. apply globbed_inv in H as (file & -> & _ & Hm).
  apply csv_pattern_inv in Hm as (s & -> & Hs).
  rewrite (stem_csv folder s Hs). reflexivity.
Qed.

Lemma lookup_file_some (p : Path) (fs : list (Path * string)) :
  p ∈ map fst fs -> exists text, lookup_file p fs = Some text.
Proof.
  induction fs as [|[q t] fs IH]; simpl.
  - intros H. apply elem_of_nil in H. contradiction.
  - intros H. destruct (bool_decide_reflect (p = q)) as [->|Hne]; [eauto|].
    apply elem_of_cons in H as [H | H]; [contradiction | exact (IH H)].
Qed.

Section ScannerInGeneral.

Variable read_csv : string -> string -> res DataFrame.

(** One turn of the loop of [gather_csv_paths]. *)
Lemma gather_step_run acc path w :
  ImportCsv.gather_step read_csv acc path w
  = match ImportCsv.split_underscore (ImportCsv.stem path) with
    | [db; tb] =>
        match lookup_file path (files w) with
        | None => Raises OSError w
        | Some text =>
            match read_csv text ";" with
            | Ok df =>
                Returns
                  (PyDict.set (ImportCsv.stem path) (length (table_heap w))
                              acc)
                  (set_table_heap
                     (table_heap w
                      ++ [mkTable tb (OStr db) None path df None None]) w)
            | Raise e => Raises e w
            end
        end
    | _ => Raises ValueError w
    end.
Proof.
  unfold ImportCsv.gather_step.
  destruct (ImportCsv.split_underscore (ImportCsv.stem path))
    as [|db [|tb [|]]]; try reflexivity.
  unfold TableMethods.new, read_file, alloc_table, lift_res.
  cbv beta iota delta [mbind M_bind mret M_ret raise].
  destruct (lookup_file path (files w)) as [text|]; [|reflexivity].
  destruct (read_csv text ";") as [df|e]; reflexivity.
Qed.

Lemma loadable_files w w1 p :
  files w1 = files w -> loadable read_csv w1 p <-> loadable read_csv w p.
Proof. unfold loadable. intros ->. reflexivity. Qed.

Lemma scanned_files w w1 p t :
  files w1 = files w -> scanned read_csv w1 p t <-> scanned read_csv w p t.
Proof. unfold scanned. intros ->. reflexivity. Qed.

Lemma gather_loop_returns_iff paths :
  forall acc w,
    (exists ret w', ImportCsv.gather_loop read_csv acc paths w
                    = Returns ret w')
    <-> Forall (loadable read_csv w) paths.
Proof.
  induction paths as [|p paths IH]; intros acc w; simpl.
  - split; [constructor | eauto].
  - cbv beta iota delta [mbind M_bind]. rewrite gather_step_run.
    rewrite Forall_cons. unfold loadable at 1.
    destruct (ImportCsv.split_underscore (ImportCsv.stem p))
      as [|db [|tb [|]]].
    1, 2, 4: split; [intros (? & ? & [=]) | intros [[(? & ? & [=]) _] _]].
    destruct (lookup_file p (files w)) as [text|].
    2: split; [intros (? & ? & [=]) | intros [[_ (? & ? & [=] & _)] _]].
    destruct (read_csv text ";") as [df|e] eqn:Hr.
    2: { split; [intros (? & ? & [=])|].
         intros [[_ (? & ? & [= <-] & E)] _]. congruence. }
    rewrite IH. rewrite Forall_forall. setoid_rewrite loadable_files at 1;
      [|reflexivity]. rewrite <- Forall_forall.
    split; [|tauto]. intros H. split; [|exact H].
    split; eauto.
Qed.

Lemma gather_loop_effect paths :
  forall acc w ret w',
    ImportCsv.gather_loop read_csv acc paths w = Returns ret w' ->
    NoDup (map ImportCsv.stem paths) ->
    (forall p, p ∈ paths -> PyDict.get (ImportCsv.stem p) acc = None) ->
    exists ts,
      Forall2 (scanned read_csv w) paths ts /\
      w' = set_table_heap (table_heap w ++ ts) w /\
      ret = acc ++ zip (map ImportCsv.stem paths)
                       (seq (length (table_heap w)) (length paths)).
Proof.
  induction paths as [|p paths IH]; intros acc w ret w'; simpl.
  - intros [= <- <-] _ _. exists []. split; [constructor|].
    rewrite !app_nil_r. split; [destruct w; reflexivity | reflexivity].
  - cbv beta iota delta [mbind M_bind]. rewrite gather_step_run.
    destruct (ImportCsv.split_underscore (ImportCsv.stem p))
      as [|db [|tb [|]]] eqn:Hsplit; try discriminate.
    destruct (lookup_file p (files w)) as [text|] eqn:Hf; [|discriminate].
    destruct (read_csv text ";") as [df|e] eqn:Hr; [|discriminate].
    intros Hloop Hnd Hfresh. apply NoDup_cons in Hnd as [Hp Hnd].
    apply IH in Hloop as (ts & Hall & -> & ->).
    + exists (mkTable tb (OStr db) None p df None None :: ts).
      split; [|split].
      * constructor.
        -- exists db, tb, text, df. repeat split; assumption.
        -- eapply Forall2_impl; [exact Hall|]. intros q t Hq.
           eapply scanned_files; [|exact Hq]. reflexivity.
      * cbn [table_heap set_table_heap]. rewrite <- app_assoc.
        destruct w; reflexivity.
      * rewrite set_absent by (apply Hfresh, list_elem_of_here).
        cbn [table_heap set_table_heap]. rewrite <- app_assoc.
        rewrite length_app, Nat.add_1_r. reflexivity.
    + exact Hnd.
    + intros q Hq.
      rewrite set_absent by (apply Hfresh, list_elem_of_here).
      rewrite get_app, (Hfresh q (list_elem_of_further _ _ _ Hq)).
      simpl. destruct (String.eqb_spec (ImportCsv.stem q) (ImportCsv.stem p))
        as [E|_]; [|reflexivity].
      exfalso. apply Hp. rewrite <- E. apply list_elem_of_fmap.
      exists q. split; [reflexivity | exact Hq].
Qed.

End ScannerInGeneral.

Lemma glob_csv_globbed (folder : Path) (w : World) (p : Path) :
  only_files_match folder w = true ->
  p ∈ ImportCsv.glob_csv folder w <->
  p ∈ map fst (files w) /\ globbed folder p = true.
Proof.
  intros H.
  rewrite (glob_csv_filter _ _ H), !list_elem_of_In, filter_In. reflexivity.
Qed.

Lemma NoDup_list_filter {A} (P : A -> bool) (l : list A) :
  NoDup l -> NoDup (List.filter P l).
Proof.
  induction l as [|x l IH]; intros Hnd; simpl; [constructor|].
  apply NoDup_cons in Hnd as [Hx Hnd].
  destruct (P x); [|exact (IH Hnd)].
  apply NoDup_cons. split; [|exact (IH Hnd)].
  rewrite list_elem_of_In, filter_In, <- list_elem_of_In. tauto.
Qed.

Lemma glob_csv_stems (folder : Path) (w : World) :
  only_files_match folder w = true ->
  NoDup (map fst (files w)) ->
  NoDup (ImportCsv.glob_csv folder w) /\
  NoDup (map ImportCsv.stem (ImportCsv.glob_csv folder w)).
Proof.
  intros Hdirs Hnd.
  assert (Hg : NoDup (ImportCsv.glob_csv folder w))
    by (rewrite glob_csv_filter by exact Hdirs;
        apply NoDup_list_filter, Hnd).
  split; [exact Hg|].
  apply (NoDup_fmap_2_strong ImportCsv.stem); [|exact Hg].
  intros p q Hp Hq E.
  apply (glob_csv_globbed _ _ _ Hdirs) in Hp as [_ Hp].
  apply (glob_csv_globbed _ _ _ Hdirs) in Hq as [_ Hq].
  rewrite (globbed_stem _ _ Hp), (globbed_stem _ _ Hq), E. reflexivity.
Qed.

Section ScannerTheorems.

Variable read_csv : string -> string -> res DataFrame.

(** What a returning scan has built. *)
Lemma gather_csv_paths_inv (folder : Path) (w : World)
    (ret : list (string * tref)) (w' : World) :
  only_files_match folder w = true ->
  NoDup (map fst (files w)) ->
  ImportCsv.gather_csv_paths read_csv folder w = Returns ret w' ->
  let paths := ImportCsv.glob_csv folder w in
  exists ts,
    Forall2 (scanned read_csv w) paths ts /\
    w' = set_table_heap (table_heap w ++ ts) w /\
    ret = zip (map ImportCsv.stem paths)
              (seq (length (table_heap w)) (length paths)) /\
    PyDict.keys ret = map ImportCsv.stem paths /\
    NoDup (PyDict.keys ret) /\
    PyDict.values ret = seq (length (table_heap w)) (length paths).
Proof.
  intros Hdirs Hnd H paths.
  unfold ImportCsv.gather_csv_paths, get_world in H.
  cbv beta iota delta [mbind M_bind] in H. fold paths in H.
  destruct (glob_csv_stems folder w Hdirs Hnd) as [_ Hstems].
  fold paths in Hstems.
  apply gather_loop_effect in H as (ts & Hall & -> & ->);
    [|exact Hstems | reflexivity].
  simpl app.
  assert (Hk : PyDict.keys
                 (zip (map ImportCsv.stem paths)
                      (seq (length (table_heap w)) (length paths)))
               = map ImportCsv.stem paths).
  { unfold PyDict.keys. apply fst_zip.
    rewrite length_map, length_seq. reflexivity. }
  exists ts. split; [exact Hall|]. split; [reflexivity|].
  split; [reflexivity|]. split; [exact Hk|].
  split; [rewrite Hk; exact Hstems|].
  unfold PyDict.values. apply snd_zip.
  rewrite length_map, length_seq. reflexivity.
Qed.

(** X13. Where the pattern matches regular files only, the scan returns
    exactly when every matched file has a stem of two parts and is parsed
    by [read_csv]. *)
Theorem gather_csv_paths_returns_iff (folder : Path) (w : World) :
  ImportCsv.literal_folder folder = true ->
  only_files_match folder w = true ->
  (exists ret w',
     ImportCsv.gather_csv_paths read_csv folder w = Returns ret w')
  <-> Forall (loadable read_csv w) (ImportCsv.glob_csv folder w).
Proof.
  intros _ _. unfold ImportCsv.gather_csv_paths, get_world.
  cbv beta iota delta [mbind M_bind]. apply gather_loop_returns_iff.
Qed.

(** X14. What a returning scan has built: one new table object per matched
    file, in the order of the listing, with the parts of the stem as
    [db_name] and [name], the file as [csv_path], the parsed frame, and
    [index_label] unassigned; the mapping has the stems as keys, without
    repetition, and these objects as values; nothing else is changed. *)
Theorem gather_csv_paths_effect (folder : Path) (w : World)
    (ret : list (string * tref)) (w' : World) :
  ImportCsv.literal_folder folder = true ->
  only_files_match folder w = true ->
  NoDup (map fst (files w)) ->
  ImportCsv.gather_csv_paths read_csv folder w = Returns ret w' ->
  let paths := ImportCsv.glob_csv folder w in
  exists ts,
    Forall2 (scanned read_csv w) paths ts /\
    w' = set_table_heap (table_heap w ++ ts) w /\
    PyDict.keys ret = map ImportCsv.stem paths /\
    NoDup (PyDict.keys ret) /\
    PyDict.values ret = seq (length (table_heap w)) (length paths).
Proof.
  intros _ Hdirs Hnd H paths.
  destruct (gather_csv_paths_inv folder w ret w' Hdirs Hnd H)
    as (ts & Hall & Hw & _ & Hk & Hkd & Hv).
  exists ts. repeat split; assumption.
Qed.

End ScannerTheorems.

Lemma gather_csv_paths_returns_iff_witness :
  exists ret w',
    ImportCsv.gather_csv_paths header_only ["data"] school_folder
    = Returns ret w'.
Proof.
  apply (proj2 (gather_csv_paths_returns_iff header_only ["data"]
                  school_folder eq_refl eq_refl)).
  change (ImportCsv.glob_csv ["data"] school_folder)
    with [["data"; "school_portuguese.csv"]; ["data"; "school_math.csv"]].
  apply Forall_cons; split; [|apply Forall_cons; split; [|constructor]];
    (split; [eexists _, _; vm_compute; reflexivity
            | eexists _, _; split; vm_compute; reflexivity]).
Defined.

Lemma gather_csv_paths_effect_witness :
  exists ret w',
    ImportCsv.gather_csv_paths header_only ["data"] school_folder
    = Returns ret w' /\
    PyDict.keys ret = ["school_portuguese"; "school_math"] /\
    PyDict.values ret = [0; 1].
Proof.
  eexists _, _. split; [vm_compute; reflexivity|].
  destruct (gather_csv_paths_effect header_only ["data"] school_folder
              _ _ eq_refl eq_refl ltac:(decide_by_compute) eq_refl)
    as (ts & _ & _ & Hk & _ & Hv).
  split; [exact Hk | exact Hv].
Defined.

(** X15. A folder in which the pattern matches no file gives the empty
    mapping and changes nothing: no error is raised, whether the folder is
    empty, holds only other files, or does not exist. *)
Theorem gather_csv_paths_nothing_matched
    (read_csv : string -> string -> res DataFrame) (folder : Path)
    (w : World) :
  ImportCsv.literal_folder folder = true ->
  only_files_match folder w = true ->
  (forall file, folder ++ [file] ∈ map fst (files w) ->
     ImportCsv.hidden file = true \/
     ImportCsv.fnmatch ImportCsv.csv_pattern file = false) ->
  ImportCsv.gather_csv_paths read_csv folder w = Returns [] w.
Proof.
  intros _ Hdirs Hnone. unfold ImportCsv.gather_csv_paths, get_world.
  cbv beta iota delta [mbind M_bind].
  rewrite (glob_csv_filter _ _ Hdirs), filter_none; [reflexivity|].
  intros p Hp. destruct (globbed folder p) eqn:Hg; [|reflexivity].
  apply globbed_inv in Hg as (file & -> & Hh & Hm).
  destruct (Hnone file Hp); congruence.
Qed.

Lemma gather_csv_paths_nothing_matched_witness :
  ImportCsv.gather_csv_paths header_only ["elsewhere"] school_folder
  = Returns [] school_folder.
Proof.
  apply (gather_csv_paths_nothing_matched header_only ["elsewhere"]
           school_folder eq_refl eq_refl).
  intros file Hin. exfalso. simpl in Hin. rewrite !elem_of_cons in Hin.
  destruct Hin as [E | [E | [E | Hin]]];
    [| | | apply elem_of_nil in Hin; contradiction];
    destruct file; discriminate.
Defined.

(** ** [prepare_tables] *)

Lemma set_label_run (d : list (string * tref)) (k l : string) (w : World) :
  Main.set_label d k l w
  = match PyDict.get k d with
    | Some r =>
        Returns () (set_table_heap
                      (alter (set_index_label l) r (table_heap w)) w)
    | None => Raises KeyError w
    end.
Proof. unfold Main.set_label. destruct (PyDict.get k d); reflexivity. Qed.

Lemma modify_index_on_run (r : tref) (w : World) :
  TableMethods.modify_index_on r w
  = match table_heap w !! r with
    | None => Raises AttributeError w
    | Some t =>
        match modify_index t with
        | Ok t' =>
            Returns r (set_table_heap
                         (alter (fun _ => t') r (table_heap w)) w)
        | Raise e => Raises e w
        end
    end.
Proof.
  unfold TableMethods.modify_index_on, get_table, lift_res, update_table,
    modify_world.
  cbv beta iota delta [mbind M_bind mret M_ret raise].
  destruct (table_heap w !! r) as [t|]; [|reflexivity].
  destruct (modify_index t); reflexivity.
Qed.

(** [modify_index] assigns no slot but [dataframe] and [index]. *)
Lemma modify_index_slots (t t' : DBTable) :
  modify_index t = Ok t' ->
  name t' = name t /\ db_name t' = db_name t /\
  index_label t' = index_label t /\ csv_path t' = csv_path t /\
  database t' = database t /\ index_label t <> None.
Proof.
  unfold modify_index. destruct (index_label t) as [l|] eqn:Hl;
    [|discriminate].
  destruct (has_column l (dataframe t)).
  - destruct (set_index l (dataframe t)); [|discriminate].
    intros [= <-]. simpl. rewrite Hl. repeat split. discriminate.
  - destruct (insert_front l _ (dataframe t)) as [df1|]; [|discriminate].
    destruct (set_index l df1); [|discriminate].
    intros [= <-]. simpl. rewrite Hl. repeat split. discriminate.
Qed.

(** The loop [[tab.modify_index() for tab in ...]]. *)
Lemma modify_loop_returns (rs : list tref) :
  forall w w',
    for_each (fun tab => TableMethods.modify_index_on tab;; mret ()) rs w
    = Returns () w' ->
    exists th',
      w' = set_table_heap th' w /\
      length th' = length (table_heap w) /\
      (forall r, r ∉ rs -> th' !! r = table_heap w !! r) /\
      (forall r, r ∈ rs ->
         exists t, table_heap w !! r = Some t /\ index_label t <> None) /\
      (forall r t', th' !! r = Some t' ->
         exists t, table_heap w !! r = Some t /\
                   name t' = name t /\ db_name t' = db_name t /\
                   index_label t' = index_label t /\
                   csv_path t' = csv_path t /\ database t' = database t) /\
      (NoDup rs -> forall r, r ∈ rs ->
         exists t t', table_heap w !! r = Some t /\
                      modify_index t = Ok t' /\ th' !! r = Some t').
Proof.
  induction rs as [|x rs IH]; intros w w'; simpl.
  - intros [= <-]. exists (table_heap w).
    split; [destruct w; reflexivity|]. split; [reflexivity|].
    split; [reflexivity|].
    split; [intros r Hr; apply elem_of_nil in Hr; contradiction|].
    split; [intros r t' Ht'; exists t'; repeat split; exact Ht'|].
    intros _ r Hr. apply elem_of_nil in Hr. contradiction.
  - cbv beta iota delta [mbind M_bind mret M_ret].
    rewrite modify_index_on_run.
    destruct (table_heap w !! x) as [t|] eqn:Ht; [|discriminate].
    destruct (modify_index t) as [t1|e] eqn:Hm; [|discriminate].
    intros Hloop.
    apply IH in Hloop as (th' & -> & Hlen & Hout & Hlab & Hslots & Hnd).
    cbn [table_heap set_table_heap] in *.
    rewrite length_alter in Hlen.
    pose proof (modify_index_slots _ _ Hm)
      as (Hn1 & Hd1 & Hl1 & Hc1 & Hb1 & Hnone).
    exists th'. split; [destruct w; reflexivity|]. split; [exact Hlen|].
    split; [|split; [|split]].
    + intros r Hr. apply not_elem_of_cons in Hr as [Hne Hr].
      rewrite (Hout r Hr). apply list_lookup_alter_ne. congruence.
    + intros r Hr. destruct (decide (r = x)) as [->|Hne].
      * exists t. split; [exact Ht | exact Hnone].
      * apply elem_of_cons in Hr as [-> | Hr]; [contradiction|].
        destruct (Hlab r Hr) as (t0 & Ht0 & Hl0).
        rewrite list_lookup_alter_ne in Ht0 by congruence. eauto.
    + intros r t' Ht'. destruct (Hslots r t' Ht')
        as (t0 & Ht0 & Hn0 & Hd0 & Hl0 & Hc0 & Hb0).
      destruct (decide (r = x)) as [->|Hne].
      * rewrite list_lookup_alter_eq, Ht in Ht0. injection Ht0 as <-.
        exists t. split; [exact Ht|]. repeat split; congruence.
      * rewrite list_lookup_alter_ne in Ht0 by congruence.
        exists t0. repeat split; assumption.
    + intros Hnodup r Hr. apply NoDup_cons in Hnodup as [Hx Hnodup].
      apply elem_of_cons in Hr as [-> | Hr].
      * exists t, t1. split; [exact Ht|]. split; [exact Hm|].
        rewrite (Hout x Hx), list_lookup_alter_eq, Ht. reflexivity.
      * destruct (Hnd Hnodup r Hr) as (t0 & t0' & Ht0 & Hm0 & Ht0').
        assert (r <> x) by (intros ->; contradiction).
        rewrite list_lookup_alter_ne in Ht0 by congruence.
        exists t0, t0'. repeat split; assumption.
Qed.

Lemma lookup_store_file_ne (p q : Path) (text : string)
    (fs : list (Path * string)) :
  p <> q -> lookup_file q (store_file p text fs) = lookup_file q fs.
Proof.
  intros Hne. induction fs as [|[q0 old] fs IH]; simpl.
  - rewrite bool_decide_eq_false_2 by congruence. reflexivity.
  - destruct (bool_decide_reflect (p = q0)) as [->|Hp]; simpl.
    + rewrite !bool_decide_eq_false_2 by congruence. reflexivity.
    + destruct (bool_decide (q = q0)); [reflexivity | exact IH].
Qed.

Section PrepareTables.

Variable to_csv : DataFrame -> string -> string.

Lemma dataframe_to_csv_run (r : tref) (sep : string) (w : World) :
  TableMethods.dataframe_to_csv to_csv r sep w
  = match table_heap w !! r with
    | None => Raises AttributeError w
    | Some t =>
        Returns r (set_files (store_file (csv_path t)
                                         (to_csv (dataframe t) sep)
                                         (files w)) w)
    end.
Proof.
  unfold TableMethods.dataframe_to_csv, get_table, write_file, modify_world.
  cbv beta iota delta [mbind M_bind mret M_ret].
  destruct (table_heap w !! r); reflexivity.
Qed.

(** The loop [[tab.dataframe_to_csv() for tab in ...]]. *)
Lemma save_loop_returns (rs : list tref) :
  forall w w',
    for_each (fun tab => TableMethods.dataframe_to_csv to_csv tab ";";;
                         mret ()) rs w
    = Returns () w' ->
    exists fs',
      w' = set_files fs' w /\
      (forall r, r ∈ rs -> is_Some (table_heap w !! r)) /\
      (forall q,
         (forall r t, r ∈ rs -> table_heap w !! r = Some t ->
                      csv_path t <> q) ->
         lookup_file q fs' = lookup_file q (files w)) /\
      (forall r t,
         r ∈ rs -> table_heap w !! r = Some t ->
         (forall r' t', r' ∈ rs -> table_heap w !! r' = Some t' ->
                        csv_path t' = csv_path t ->
                        dataframe t' = dataframe t) ->
         lookup_file (csv_path t) fs' = Some (to_csv (dataframe t) ";")).
Proof.
  induction rs as [|x rs IH]; intros w w'; simpl.
  - intros [= <-]. exists (files w). split; [destruct w; reflexivity|].
    split; [intros r Hr; apply elem_of_nil in Hr; contradiction|].
    split; [reflexivity|].
    intros r t Hr. apply elem_of_nil in Hr. contradiction.
  - cbv beta iota delta [mbind M_bind mret M_ret].
    rewrite dataframe_to_csv_run.
    destruct (table_heap w !! x) as [tx|] eqn:Hx; [|discriminate].
    intros Hloop. apply IH in Hloop as (fs' & -> & Hsome & Hother & Hsaved).
    cbn [table_heap files set_files] in *.
    exists fs'. split; [destruct w; reflexivity|]. split; [|split].
    + intros r Hr. apply elem_of_cons in Hr as [-> | Hr];
        [rewrite Hx; eauto | exact (Hsome r Hr)].
    + intros q Hq. rewrite Hother.
      * apply lookup_store_file_ne.
        exact (Hq x tx (list_elem_of_here _ _) Hx).
      * intros r t Hr. apply Hq, list_elem_of_further, Hr.
    + intros r t Hr Ht Hsame.
      destruct (decide (Exists (fun r' => csv_path <$> table_heap w !! r'
                                          = Some (csv_path t)) rs))
        as [Hex | Hno].
      * apply Exists_exists in Hex as (r' & Hr' & Hp).
        destruct (table_heap w !! r') as [t'|] eqn:Ht'; [|discriminate].
        simpl in Hp. injection Hp as Hp.
        rewrite <- Hp, <- (Hsame r' t' (list_elem_of_further _ _ _ Hr') Ht' Hp).
        apply (Hsaved r' t' Hr' Ht').
        intros r'' t'' Hr'' Ht'' Hp''.
        rewrite (Hsame r' t' (list_elem_of_further _ _ _ Hr') Ht' Hp).
        apply (Hsame r'' t'' (list_elem_of_further _ _ _ Hr'') Ht'').
        congruence.
      * assert (Hnone : forall r0 t0, r0 ∈ rs -> table_heap w !! r0 = Some t0 ->
                          csv_path t0 <> csv_path t).
        { intros r0 t0 Hr0 Ht0 E. apply Hno, Exists_exists.
          exists r0. split; [exact Hr0|]. rewrite Ht0. simpl. congruence. }
        rewrite (Hother _ Hnone).
        apply elem_of_cons in Hr as [-> | Hr].
        -- rewrite Hx in Ht. injection Ht as <-. apply lookup_store_file.
        -- exfalso. exact (Hnone r t Hr Ht eq_refl).
Qed.

(** What a returning [prepare_tables] has done. *)
Lemma prepare_tables_inv (d : list (string * tref)) (w w' : World) :
  Main.prepare_tables to_csv d w = Returns () w' ->
  exists rd td th' fs',
    (forall k, k ∈ map fst student_labels -> is_Some (PyDict.get k d)) /\
    for_each (fun tab => TableMethods.modify_index_on tab;; mret ())
             (PyDict.values d)
             (set_table_heap (label_tables d (table_heap w)) w)
    = Returns () (set_table_heap th' w) /\
    for_each (fun tab => TableMethods.dataframe_to_csv to_csv tab ";";;
                         mret ())
             (PyDict.values d) (set_table_heap th' w)
    = Returns () (set_files fs' (set_table_heap th' w)) /\
    PyDict.get "students_description" d = Some rd /\
    th' !! rd = Some td /\
    w' = set_ic_output (ic_output w ++ [IcFrame (dataframe td)])
           (set_files fs' (set_table_heap th' w)).
Proof.
  intros H. unfold Main.prepare_tables in H.
  cbv beta iota delta [mbind M_bind] in H. rewrite set_label_run in H.
  destruct (PyDict.get "students_description" d) as [r1|] eqn:H1;
    [|discriminate].
  rewrite set_label_run in H.
  destruct (PyDict.get "students_math" d) as [r2|] eqn:H2; [|discriminate].
  rewrite set_label_run in H.
  destruct (PyDict.get "students_portuguese" d) as [r3|] eqn:H3;
    [|discriminate].
  cbn [table_heap set_table_heap] in H.
  match type of H with
  | context [for_each _ _ ?W] =>
      replace W with (set_table_heap (label_tables d (table_heap w)) w) in H
        by (unfold label_tables; simpl; rewrite H1, H2, H3;
            destruct w; reflexivity)
  end.
  match type of H with
  | match for_each ?f ?rs ?W with _ => _ end = _ =>
      destruct (for_each f rs W) as [[] w2|] eqn:Hmod; [|discriminate]
  end.
  pose proof Hmod as Hmod'.
  apply modify_loop_returns in Hmod' as (th' & Hw2 & _).
  cbn [table_heap set_table_heap] in Hw2.
  assert (Hw2' : w2 = set_table_heap th' w)
    by (rewrite Hw2; destruct w; reflexivity).
  clear Hw2. subst w2.
  match type of H with
  | match for_each ?f ?rs ?W with _ => _ end = _ =>
      destruct (for_each f rs W) as [[] w3|] eqn:Hsave; [|discriminate]
  end.
  pose proof Hsave as Hsave'.
  apply save_loop_returns in Hsave' as (fs' & -> & _).
  unfold get_table, ic, modify_world in H.
  cbn [table_heap set_files set_table_heap] in H.
  destruct (th' !! r1) as [td|] eqn:Htd; [|discriminate].
  injection H as <-. exists r1, td, th', fs'.
  split; [|split; [exact Hmod|]; split; [exact Hsave|]; split;
           [reflexivity|]; split; [exact Htd | destruct w; reflexivity]].
  intros k Hk. simpl in Hk. rewrite !elem_of_cons in Hk.
  destruct Hk as [-> | [-> | [-> | Hk]]]; eauto.
  apply elem_of_nil in Hk. contradiction.
Qed.

End PrepareTables.

Lemma in_get {V} (k : string) (v : V) (d : list (string * V)) :
  NoDup (PyDict.keys d) -> (k, v) ∈ d -> PyDict.get k d = Some v.
Proof.
  unfold PyDict.keys. induction d as [|[k' v'] d IH]; simpl; intros Hnd Hin.
  - apply elem_of_nil in Hin. contradiction.
  - apply NoDup_cons in Hnd as [Hk Hnd].
    apply elem_of_cons in Hin as [[= -> ->] | Hin].
    + rewrite String.eqb_refl. reflexivity.
    + destruct (String.eqb_spec k k') as [->|_]; [|exact (IH Hnd Hin)].
      exfalso. apply Hk. apply list_elem_of_fmap.
      exists (k', v). split; [reflexivity | exact Hin].
Qed.

Lemma value_in {V} (v : V) (d : list (string * V)) :
  v ∈ PyDict.values d -> exists k, (k, v) ∈ d.
Proof.
  unfold PyDict.values. intros H.
  apply list_elem_of_fmap in H as ([k v'] & -> & H). eauto.
Qed.

Lemma in_value {V} (k : string) (v : V) (d : list (string * V)) :
  (k, v) ∈ d -> v ∈ PyDict.values d.
Proof.
  intros H. unfold PyDict.values. apply list_elem_of_fmap.
  exists (k, v). split; [reflexivity | exact H].
Qed.

Lemma alter_option_other (h : list DBTable) (l : string) (o : option tref)
    (r : tref) :
  o <> Some r ->
  match o with
  | Some x => alter (set_index_label l) x h
  | None => h
  end !! r = h !! r.
Proof.
  destruct o as [x|]; [|reflexivity].
  intros Hne. apply list_lookup_alter_ne. congruence.
Qed.

(** The three assignments leave the tables they do not name. *)
Lemma label_tables_other (d : list (string * tref)) (th : list DBTable)
    (r : tref) :
  (forall k, k ∈ map fst student_labels -> PyDict.get k d <> Some r) ->
  label_tables d th !! r = th !! r.
Proof.
  intros Hnot. unfold label_tables. simpl.
  rewrite !alter_option_other; [reflexivity | ..];
    apply Hnot; simpl; rewrite !elem_of_cons; tauto.
Qed.

(** The three assignments change labels only. *)
Lemma label_tables_slots (d : list (string * tref)) (th : list DBTable)
    (r : tref) (t1 : DBTable) :
  label_tables d th !! r = Some t1 ->
  exists t, th !! r = Some t /\
            name t1 = name t /\ db_name t1 = db_name t /\
            csv_path t1 = csv_path t /\ dataframe t1 = dataframe t /\
            database t1 = database t /\ index t1 = index t.
Proof.
  unfold label_tables. simpl.
  set (f1 := match PyDict.get "students_description" d with
             | Some r1 => alter (set_index_label "DID") r1 th
             | None => th
             end).
  set (f2 := match PyDict.get "students_math" d with
             | Some r2 => alter (set_index_label "MUID") r2 f1
             | None => f1
             end).
  assert (Hstep : forall (h : list DBTable) l x t',
            alter (set_index_label l) x h !! r = Some t' ->
            exists t, h !! r = Some t /\
              name t' = name t /\ db_name t' = db_name t /\
              csv_path t' = csv_path t /\ dataframe t' = dataframe t /\
              database t' = database t /\ index t' = index t).
  { intros h l x t' H. destruct (decide (r = x)) as [->|Hne].
    - rewrite list_lookup_alter_eq in H.
      destruct (h !! x) as [t|]; [|discriminate]. injection H as <-.
      exists t. repeat split.
    - rewrite list_lookup_alter_ne in H by congruence.
      exists t'. repeat split. exact H. }
  assert (Hopt : forall (h : list DBTable) l (o : option tref) t',
            match o with
            | Some x => alter (set_index_label l) x h
            | None => h
            end !! r = Some t' ->
            exists t, h !! r = Some t /\
              name t' = name t /\ db_name t' = db_name t /\
              csv_path t' = csv_path t /\ dataframe t' = dataframe t /\
              database t' = database t /\ index t' = index t).
  { intros h l [x|] t' H; [exact (Hstep _ _ _ _ H)|].
    exists t'. repeat split. exact H. }
  intros L3.
  apply Hopt in L3 as (t2 & L2 & A1 & A2 & A3 & A4 & A5 & A6).
  apply Hopt in L2 as (t1' & L1 & B1 & B2 & B3 & B4 & B5 & B6).
  apply Hopt in L1 as (t & L0 & C1 & C2 & C3 & C4 & C5 & C6).
  exists t. split; [exact L0|]. repeat split; congruence.
Qed.

Lemma alter_option_lookup (h : list DBTable) (l : string) (o : option tref)
    (r : tref) :
  match o with
  | Some x => alter (set_index_label l) x h
  | None => h
  end !! r
  = (if bool_decide (o = Some r) then set_index_label l else id) <$> h !! r.
Proof.
  destruct (bool_decide_reflect (o = Some r)) as [->|Hne].
  - apply list_lookup_alter_eq.
  - rewrite alter_option_other by exact Hne.
    destruct (h !! r); reflexivity.
Qed.

(** On a mapping without repeated keys or values, the table under the key
    [k] gets the label, if any, that goes with [k]. *)
Lemma label_tables_lookup (d : list (string * tref)) (th : list DBTable)
    (k : string) (r : tref) :
  NoDup (PyDict.keys d) -> NoDup (PyDict.values d) ->
  (k, r) ∈ d ->
  label_tables d th !! r = relabel k <$> th !! r.
Proof.
  intros Hk Hv Hin. pose proof (in_get _ _ _ Hk Hin) as Hget.
  assert (Hinj : forall k', PyDict.get k' d = Some r -> k' = k)
    by (intros k' H'; exact (get_injective _ _ _ _ Hv H' Hget)).
  unfold label_tables, relabel. simpl fold_left.
  rewrite !alter_option_lookup. cbn [fst snd].
  destruct (bool_decide_reflect
              (PyDict.get "students_description" d = Some r)) as [E1|E1];
    destruct (bool_decide_reflect
                (PyDict.get "students_math" d = Some r)) as [E2|E2];
    destruct (bool_decide_reflect
                (PyDict.get "students_portuguese" d = Some r)) as [E3|E3];
    try (apply Hinj in E1); try (apply Hinj in E2); try (apply Hinj in E3);
    try congruence; subst;
    try (destruct (th !! r); reflexivity).
  unfold student_labels. simpl PyDict.get.
  destruct (String.eqb_spec k "students_description") as [->|_];
    [congruence|].
  destruct (String.eqb_spec k "students_math") as [->|_]; [congruence|].
  destruct (String.eqb_spec k "students_portuguese") as [->|_];
    [congruence|].
  destruct (th !! r); reflexivity.
Qed.

Lemma relabel_slots (k : string) (t : DBTable) :
  name (relabel k t) = name t /\ db_name (relabel k t) = db_name t /\
  csv_path (relabel k t) = csv_path t /\
  dataframe (relabel k t) = dataframe t.
Proof.
  unfold relabel. destruct (PyDict.get k student_labels); repeat split.
Qed.

Section PrepareTheorems.

Variable to_csv : DataFrame -> string -> string.

(** X16. [prepare_tables] needs the three keys: if the mapping lacks
    [students_description], [students_math] or [students_portuguese], it
    raises [KeyError] at the first one missing, before any index is
    modified and before any file is written. *)
Theorem prepare_tables_missing_key (d : list (string * tref)) (w : World) :
  (exists k, k ∈ map fst student_labels /\ PyDict.get k d = None) ->
  exists w',
    Main.prepare_tables to_csv d w = Raises KeyError w' /\
    files w' = files w /\
    (forall r, dataframe <$> table_heap w' !! r
               = dataframe <$> table_heap w !! r).
Proof.
  intros (k & Hk & Hnone).
  assert (Hdf : forall (h : list DBTable) l x r,
            dataframe <$> alter (set_index_label l) x h !! r
            = dataframe <$> h !! r).
  { intros h l x r. destruct (decide (r = x)) as [->|Hne].
    - rewrite list_lookup_alter_eq. destruct (h !! x); reflexivity.
    - rewrite list_lookup_alter_ne by congruence. reflexivity. }
  unfold Main.prepare_tables. cbv beta iota delta [mbind M_bind].
  rewrite set_label_run.
  destruct (PyDict.get "students_description" d) as [r1|] eqn:H1.
  2: { eexists. split; [reflexivity|]. split; reflexivity. }
  rewrite set_label_run.
  destruct (PyDict.get "students_math" d) as [r2|] eqn:H2.
  2: { eexists. split; [reflexivity|]. split; [reflexivity|].
       intros r. cbn [table_heap set_table_heap]. apply Hdf. }
  rewrite set_label_run.
  destruct (PyDict.get "students_portuguese" d) as [r3|] eqn:H3.
  2: { eexists. split; [reflexivity|]. split; [reflexivity|].
       intros r. cbn [table_heap set_table_heap]. rewrite !Hdf.
       reflexivity. }
  exfalso. simpl in Hk. rewrite !elem_of_cons in Hk.
  destruct Hk as [-> | [-> | [-> | Hk]]]; try congruence.
  apply elem_of_nil in Hk. contradiction.
Qed.

(** X17. [prepare_tables] assigns an [index_label] to three tables only: a
    mapping that holds another table, whose label was never assigned, makes
    it raise in the loop over [modify_index] (at that table, if not
    before). *)
Theorem prepare_tables_unlabelled_table (d : list (string * tref))
    (w : World) (k : string) (r : tref) (t : DBTable) :
  (k, r) ∈ d ->
  table_heap w !! r = Some t ->
  index_label t = None ->
  (forall k', k' ∈ map fst student_labels -> PyDict.get k' d <> Some r) ->
  exists e w', Main.prepare_tables to_csv d w = Raises e w'.
Proof.
  intros Hin Ht Hnone Hother.
  destruct (Main.prepare_tables to_csv d w) as [[] w'|e w'] eqn:H; [|eauto].
  exfalso.
  apply prepare_tables_inv in H
    as (rd & td & th' & fs' & _ & Hmod & _).
  apply modify_loop_returns in Hmod as (_ & _ & _ & _ & Hlab & _).
  destruct (Hlab r (in_value _ _ _ Hin)) as (t1 & Ht1 & Hl1).
  cbn [table_heap set_table_heap] in Ht1.
  rewrite (label_tables_other _ _ _ Hother), Ht in Ht1.
  injection Ht1 as <-. contradiction.
Qed.

(** X18. What a returning [prepare_tables] has done, on a mapping without
    repeated keys or values whose frames have distinct column labels: the three tables have the labels [DID], [MUID]
    and [PUID]; [modify_index] has run once on every table of the mapping;
    the file at each table's [csv_path] holds what [to_csv] writes, with
    [;] as separator, for the re-indexed frame (provided no other table of
    the mapping has that path); no other file and no other table is
    touched; the frame of [students_description] has been logged. *)
Theorem prepare_tables_effect (d : list (string * tref)) (w w' : World) :
  NoDup (PyDict.keys d) -> NoDup (PyDict.values d) ->
  (forall k r t, (k, r) ∈ d -> table_heap w !! r = Some t ->
     NoDup (labels (dataframe t))) ->
  Main.prepare_tables to_csv d w = Returns () w' ->
  (forall k, k ∈ map fst student_labels -> is_Some (PyDict.get k d)) /\
  (forall k r, (k, r) ∈ d ->
     exists t t',
       table_heap w !! r = Some t /\
       modify_index (relabel k t) = Ok t' /\
       table_heap w' !! r = Some t' /\
       ((forall k2 r2 t2, (k2, r2) ∈ d -> table_heap w !! r2 = Some t2 ->
                          csv_path t2 = csv_path t -> r2 = r) ->
        lookup_file (csv_path t) (files w')
        = Some (to_csv (dataframe t') ";"))) /\
  (forall q,
     (forall k r t, (k, r) ∈ d -> table_heap w !! r = Some t ->
                    csv_path t <> q) ->
     lookup_file q (files w') = lookup_file q (files w)) /\
  (forall r, r ∉ PyDict.values d ->
     table_heap w' !! r = table_heap w !! r) /\
  stores w' = stores w /\ database_heap w' = database_heap w /\
  dirs w' = dirs w /\
  exists rd td,
    PyDict.get "students_description" d = Some rd /\
    table_heap w' !! rd = Some td /\
    ic_output w' = ic_output w ++ [IcFrame (dataframe td)].
Proof.
  intros Hk Hv _ H.
  apply prepare_tables_inv in H
    as (rd & td & th' & fs' & Hkeys & Hmod & Hsave & Hrd & Htd & ->).
  apply modify_loop_returns in Hmod
    as (th'' & Hth & _ & Hout & _ & Hslots & Hdone).
  cbn [table_heap set_table_heap] in *.
  assert (th'' = th') by (destruct w; injection Hth as <-; reflexivity).
  subst th''. clear Hth. specialize (Hdone Hv).
  apply save_loop_returns in Hsave as (fs'' & Hfs & _ & Hfother & Hsaved).
  cbn [table_heap set_table_heap files set_files] in *.
  assert (fs'' = fs') by (destruct w; injection Hfs as <-; reflexivity).
  subst fs''. clear Hfs.
  (* every table of the mapping, before and after *)
  assert (Heach : forall k r, (k, r) ∈ d ->
            exists t t', table_heap w !! r = Some t /\
                         modify_index (relabel k t) = Ok t' /\
                         th' !! r = Some t' /\
                         csv_path t' = csv_path t).
  { intros k r Hin.
    destruct (Hdone r (in_value _ _ _ Hin)) as (t1 & t' & Ht1 & Hm & Ht').
    rewrite (label_tables_lookup d _ k r Hk Hv Hin) in Ht1.
    destruct (table_heap w !! r) as [t|] eqn:Ht; [|discriminate].
    injection Ht1 as <-. exists t, t'.
    split; [reflexivity|]. split; [exact Hm|]. split; [exact Ht'|].
    destruct (modify_index_slots _ _ Hm) as (_ & _ & _ & -> & _).
    apply relabel_slots. }
  cbn [table_heap files stores database_heap dirs ic_output set_ic_output
       set_files set_table_heap].
  split; [exact Hkeys|]. split; [|split; [|split; [|split; [|split;
    [|split]]]]].
  - intros k r Hin. destruct (Heach k r Hin) as (t & t' & Ht & Hm & Ht' & Hp).
    exists t, t'. split; [exact Ht|]. split; [exact Hm|].
    split; [exact Ht'|]. intros Hdistinct. rewrite <- Hp.
    apply (Hsaved r t' (in_value _ _ _ Hin) Ht').
    intros r2 t2' Hr2 Ht2' Hp2.
    apply value_in in Hr2 as [k2 Hin2].
    destruct (Heach k2 r2 Hin2) as (t2 & t2'' & Ht2 & _ & Ht2'' & Hp2').
    rewrite Ht2' in Ht2''. injection Ht2'' as <-.
    assert (r2 = r) by (apply (Hdistinct k2 r2 t2 Hin2 Ht2); congruence).
    subst r2. congruence.
  - intros q Hq. apply Hfother. intros r t' Hr Ht' E.
    apply value_in in Hr as [k Hin].
    destruct (Heach k r Hin) as (t & t'' & Ht & _ & Ht'' & Hp).
    rewrite Ht' in Ht''. injection Ht'' as <-.
    apply (Hq k r t Hin Ht). congruence.
  - intros r Hr. rewrite (Hout r Hr). apply label_tables_other.
    intros k' _ Hg. apply Hr. exact (get_some_value _ _ _ Hg).
  - reflexivity.
  - reflexivity.
  - reflexivity.
  - exists rd, td. repeat split; assumption.
Qed.

End PrepareTheorems.

Lemma prepare_tables_missing_key_witness :
  exists w',
    Main.prepare_tables header_line [("students_math", 0)]
      (world_with [example_table "math" "students" marks_frame])
    = Raises KeyError w' /\
    files w' = [].
Proof.
  destruct (prepare_tables_missing_key header_line [("students_math", 0)]
              (world_with [example_table "math" "students" marks_frame]))
    as (w' & Hrun & Hfiles & _).
  - exists "students_description". split; [|reflexivity].
    simpl. apply list_elem_of_here.
  - exists w'. split; [exact Hrun | exact Hfiles].
Defined.

Lemma prepare_tables_unlabelled_table_witness :
  exists e w',
    Main.prepare_tables header_line
      [("students_description", 0); ("students_math", 0);
       ("students_portuguese", 0); ("students_extra", 1)]
      (world_with
         [mkTable "description" (OStr "students") None
                  ["data"; "students_description.csv"] marks_frame None None;
          mkTable "extra" (OStr "students") None
                  ["data"; "students_extra.csv"] marks_frame None None])
    = Raises e w'.
Proof.
  apply (prepare_tables_unlabelled_table header_line _ _
           "students_extra" 1
           (mkTable "extra" (OStr "students") None
                    ["data"; "students_extra.csv"] marks_frame None None)).
  - decide_by_compute.
  - reflexivity.
  - reflexivity.
  - intros k' Hk'. simpl in Hk'. rewrite !elem_of_cons in Hk'.
    destruct Hk' as [-> | [-> | [-> | Hk']]];
      [discriminate | discriminate | discriminate|].
    apply elem_of_nil in Hk'. contradiction.
Defined.

Lemma prepare_tables_effect_witness :
  exists w' rd td,
    Main.prepare_tables header_line
      [("students_math", 0); ("students_description", 1);
       ("students_portuguese", 2)]
      (world_of (ImportCsv.gather_csv_paths header_only ["home"; "data"]
                   students_folder))
    = Returns () w' /\
    table_heap w' !! rd = Some td /\
    ic_output w' = [IcFrame (dataframe td)].
Proof.
  destruct (prepare_tables_effect header_line
              [("students_math", 0); ("students_description", 1);
               ("students_portuguese", 2)]
              (world_of (ImportCsv.gather_csv_paths header_only
                           ["home"; "data"] students_folder))
              (world_of (Main.prepare_tables header_line
                 [("students_math", 0); ("students_description", 1);
                  ("students_portuguese", 2)]
                 (world_of (ImportCsv.gather_csv_paths header_only
                              ["home"; "data"] students_folder)))))
    as (_ & _ & _ & _ & _ & _ & _ & rd & td & _ & Htd & Hic).
  - decide_by_compute.
  - decide_by_compute.
  - intros k r t Hin Ht. rewrite !elem_of_cons in Hin.
    destruct Hin as [[= -> ->] | [[= -> ->] | [[= -> ->] | Hin]]];
      [| | | apply elem_of_nil in Hin; contradiction];
      vm_compute in Ht; injection Ht as <-; apply NoDup_singleton.
  - vm_compute. reflexivity.
  - eexists _, rd, td. split; [vm_compute; reflexivity|].
    split; [exact Htd | exact Hic].
Defined.

(** ** [main] *)

Section MainTheorems.

Variable read_csv : string -> string -> res DataFrame.
Variable to_csv : DataFrame -> string -> string.

(** [prepare_tables] renames no table and moves none to another database
    or file. *)
Lemma prepare_tables_keeps_names (d : list (string * tref)) (w w' : World)
    (r : tref) (t' : DBTable) :
  Main.prepare_tables to_csv d w = Returns () w' ->
  table_heap w' !! r = Some t' ->
  exists t, table_heap w !! r = Some t /\
            name t' = name t /\ db_name t' = db_name t /\
            csv_path t' = csv_path t.
Proof.
  intros H Ht'.
  apply prepare_tables_inv in H
    as (rd & td & th' & fs' & _ & Hmod & _ & _ & _ & ->).
  apply modify_loop_returns in Hmod as (th'' & Hth & _ & _ & _ & Hslots & _).
  cbn [table_heap set_table_heap set_files set_ic_output] in *.
  assert (th'' = th') by (destruct w; injection Hth as <-; reflexivity).
  subst th''.
  destruct (Hslots r t' Ht') as (t1 & Ht1 & Hn1 & Hd1 & _ & Hc1 & _).
  destruct (label_tables_slots _ _ _ _ Ht1) as (t & Ht & Hn & Hd & Hc & _).
  exists t. split; [exact Ht|]. repeat split; congruence.
Qed.

(** The tables of a mapping [prepare_tables] returns on are the three it
    labels. *)
Lemma prepare_tables_labelled (d : list (string * tref)) (w w' : World)
    (r : tref) (t : DBTable) :
  Main.prepare_tables to_csv d w = Returns () w' ->
  r ∈ PyDict.values d ->
  table_heap w !! r = Some t -> index_label t = None ->
  exists k, k ∈ map fst student_labels /\ PyDict.get k d = Some r.
Proof.
  intros H Hr Ht Hnone.
  destruct (decide (PyDict.get "students_description" d = Some r)) as [E1|N1];
    [exists "students_description"; split;
       [simpl; rewrite !elem_of_cons; tauto | exact E1]|].
  destruct (decide (PyDict.get "students_math" d = Some r)) as [E2|N2];
    [exists "students_math"; split;
       [simpl; rewrite !elem_of_cons; tauto | exact E2]|].
  destruct (decide (PyDict.get "students_portuguese" d = Some r)) as [E3|N3];
    [exists "students_portuguese"; split;
       [simpl; rewrite !elem_of_cons; tauto | exact E3]|].
  exfalso.
  apply prepare_tables_inv in H as (rd & td & th' & fs' & _ & Hmod & _).
  apply modify_loop_returns in Hmod as (_ & _ & _ & _ & Hlab & _).
  destruct (Hlab r Hr) as (t1 & Ht1 & Hl1).
  cbn [table_heap set_table_heap] in Ht1.
  rewrite label_tables_other, Ht in Ht1.
  - injection Ht1 as <-. contradiction.
  - intros k Hk. simpl in Hk. rewrite !elem_of_cons in Hk.
    destruct Hk as [-> | [-> | [-> | Hk]]]; try assumption.
    apply elem_of_nil in Hk. contradiction.
Qed.

(** X19. The last statement of [main], the lookup of ["students"] in the
    mapping of databases, cannot fail: [main] returns 0 exactly when the
    scan, [prepare_tables] and [create_from_dict] return, and raises what
    they raise. *)
Theorem main_is_pipeline (w : World) :
  ImportCsv.literal_folder (cwd w ++ ["data"]) = true ->
  only_files_match (cwd w ++ ["data"]) w = true ->
  Main.main read_csv to_csv w
  = match pipeline read_csv to_csv w with
    | Returns _ w' => Returns 0%Z w'
    | Raises e w' => Raises e w'
    end.
Proof.
  intros _ _. unfold Main.main, pipeline, get_world.
  cbv beta iota delta [mbind M_bind mret M_ret].
  destruct (ImportCsv.gather_csv_paths read_csv (cwd w ++ ["data"]) w)
    as [d w1|e w1] eqn:Hscan; [|reflexivity].
  unfold ic, modify_world.
  set (w2 := set_ic_output (ic_output w1 ++ [IcTables d]) w1).
  destruct (Main.prepare_tables to_csv d w2) as [[] w3|e w3] eqn:Hprep;
    [|reflexivity].
  destruct (DatabaseGenerator.create_from_dict d w3) as [ret w4|e w4]
    eqn:Hcreate; [|reflexivity].
  assert (Hget : PyDict.get "students" ret <> None);
    [|destruct (PyDict.get "students" ret); [reflexivity | contradiction]].
  (* the table under [students_description] belongs to [students] *)
  pose proof (prepare_tables_inv _ _ _ _ Hprep)
    as (rd & td & th' & fs' & _ & _ & _ & Hrd & _ & Hw3).
  assert (Hin : ("students_description", rd) ∈ d) by (apply get_in, Hrd).
  unfold ImportCsv.gather_csv_paths, get_world in Hscan.
  cbv beta iota delta [mbind M_bind] in Hscan.
  destruct (gather_loop_returns read_csv _ _ _ _ _ Hscan
              ltac:(intros e He; apply elem_of_nil in He; contradiction)
              _ Hin) as (t0 & db & tb & Ht0 & Hsplit & Hdb & _).
  cbn [fst snd] in Ht0, Hsplit. injection Hsplit as <- _.
  (* [create_from_dict] maps the database name of every table *)
  unfold DatabaseGenerator.create_from_dict in Hcreate.
  apply (create_loop_invariant _ w3 _ [] [] w3 _ _ (loop_invariant_initial w3))
    in Hcreate.
  destruct Hcreate as [Hheap _ _ _ _ _ Hdone _]. simpl in Hdone.
  assert (Hsome : exists t3, table_heap w3 !! rd = Some t3).
  { apply lookup_lt_is_Some. rewrite Hw3.
    cbn [table_heap set_ic_output set_files set_table_heap].
    apply lookup_lt_is_Some.
    apply prepare_tables_inv in Hprep
      as (rd' & td' & th'' & fs'' & _ & _ & _ & Hrd' & Htd' & Hw3').
    rewrite Hrd in Hrd'. injection Hrd' as <-.
    rewrite Hw3' in Hw3.
    assert (th'' = th') by (destruct w2; injection Hw3 as _ <- _; reflexivity).
    subst th''. eauto. }
  destruct Hsome as [t3 Ht3].
  destruct (prepare_tables_keeps_names _ _ _ _ _ Hprep Ht3)
    as (t2 & Ht2 & _ & Hdb2 & _).
  unfold w2 in Ht2. cbn [table_heap set_ic_output] in Ht2.
  rewrite Ht0 in Ht2. injection Ht2 as <-.
  destruct (Hdone rd t3 (in_value _ _ _ Hin) Ht3)
    as (ti & n & dbr & _ & _ & Hn & Hgetn & _).
  rewrite Hdb2, Hdb in Hn. injection Hn as <-.
  rewrite Hgetn. discriminate.
Qed.

Lemma students_paths_stems (w : World) (p : Path) :
  p ∈ students_paths w <->
  exists k, k ∈ map fst student_labels /\
            p = (cwd w ++ ["data"]) ++ [k +:+ ".csv"].
Proof.
  unfold students_paths. simpl map. rewrite !elem_of_cons. split.
  - intros [-> | [-> | [-> | H]]];
      [exists "students_description" | exists "students_math"
       | exists "students_portuguese"
       | apply elem_of_nil in H; contradiction];
      (split; [rewrite !elem_of_cons; tauto
              | rewrite <- app_assoc; reflexivity]).
  - intros (k & Hk & ->). rewrite <- app_assoc. rewrite !elem_of_cons in Hk.
    destruct Hk as [-> | [-> | [-> | Hk]]];
      [tauto | tauto | tauto | apply elem_of_nil in Hk; contradiction].
Qed.

(** X20. [main] is written for one data set: it returns (and then returns
    0) only if the files the pattern matches in the folder [data] of the
    working directory are exactly [students_description.csv],
    [students_math.csv] and [students_portuguese.csv]. *)
Theorem main_needs_the_three_files (w : World) (z : Z) (w' : World) :
  ImportCsv.literal_folder (cwd w ++ ["data"]) = true ->
  only_files_match (cwd w ++ ["data"]) w = true ->
  NoDup (map fst (files w)) ->
  Main.main read_csv to_csv w = Returns z w' ->
  z = 0%Z /\
  ImportCsv.glob_csv (cwd w ++ ["data"]) w ≡ₚ students_paths w.
Proof.
  intros _ Hdirs Hnd H. unfold Main.main, get_world in H.
  cbv beta iota delta [mbind M_bind mret M_ret] in H.
  set (folder := cwd w ++ ["data"]) in *.
  destruct (ImportCsv.gather_csv_paths read_csv folder w)
    as [d w1|] eqn:Hscan; [|discriminate].
  unfold ic, modify_world in H.
  set (w2 := set_ic_output (ic_output w1 ++ [IcTables d]) w1) in *.
  destruct (Main.prepare_tables to_csv d w2) as [[] w3|] eqn:Hprep;
    [|discriminate].
  destruct (DatabaseGenerator.create_from_dict d w3) as [ret w4|];
    [|discriminate].
  destruct (PyDict.get "students" ret); [|discriminate].
  injection H as <- _. split; [reflexivity|].
  destruct (gather_csv_paths_inv read_csv folder w d w1 Hdirs Hnd Hscan)
    as (ts & Hall & Hw1 & _ & Hkeys & Hkd & Hvals).
  set (paths := ImportCsv.glob_csv folder w) in *.
  assert (Hvd : NoDup (PyDict.values d))
    by (rewrite Hvals; apply NoDup_seq).
  (* every new table is without label *)
  assert (Hfresh : forall r, r ∈ PyDict.values d ->
            exists t, table_heap w2 !! r = Some t /\ index_label t = None).
  { intros r Hr. rewrite Hvals in Hr. apply elem_of_seq in Hr.
    unfold w2. rewrite Hw1. cbn [table_heap set_ic_output set_table_heap].
    rewrite lookup_app_r by lia.
    pose proof (Forall2_length _ _ _ Hall) as Hlen.
    destruct (lookup_lt_is_Some_2 ts (r - length (table_heap w))
                ltac:(lia)) as [t Ht].
    destruct (Forall2_lookup_r _ _ _ _ _ Hall Ht)
      as (p & _ & (db & tb & text & df & _ & _ & _ & ->)).
    exists (mkTable tb (OStr db) None p df None None).
    split; [exact Ht | reflexivity]. }
  (* so every key is one of the three *)
  assert (Honly : forall k, k ∈ PyDict.keys d -> k ∈ map fst student_labels).
  { intros k Hk. unfold PyDict.keys in Hk.
    apply list_elem_of_fmap in Hk as ([k0 r] & -> & Hin). cbn [fst].
    destruct (Hfresh r (in_value _ _ _ Hin)) as (t & Ht & Hnone).
    destruct (prepare_tables_labelled _ _ _ _ _ Hprep
                (in_value _ _ _ Hin) Ht Hnone) as (k' & Hk' & Hg).
    rewrite (get_injective _ _ _ _ Hvd (in_get _ _ _ Hkd Hin) Hg).
    exact Hk'. }
  assert (Hthree : forall k, k ∈ map fst student_labels -> k ∈ PyDict.keys d).
  { intros k Hk.
    apply prepare_tables_inv in Hprep as (_ & _ & _ & _ & Hpresent & _).
    destruct (Hpresent k Hk) as [r Hr]. exact (get_some_key _ _ _ Hr). }
  apply NoDup_Permutation.
  - apply (glob_csv_stems folder w Hdirs Hnd).
  - unfold students_paths. rewrite !NoDup_cons, !not_elem_of_cons.
    repeat split;
      try (intros E; apply app_inv_head in E; discriminate);
      try apply not_elem_of_nil.
    apply NoDup_nil_2.
  - intros p. rewrite students_paths_stems. fold folder. split.
    + intros Hp. exists (ImportCsv.stem p). split.
      * apply Honly. rewrite Hkeys. apply list_elem_of_fmap.
        exists p. split; [reflexivity | exact Hp].
      * apply globbed_stem.
        apply (glob_csv_globbed _ _ _ Hdirs) in Hp. apply Hp.
    + intros (k & Hk & ->). apply Hthree in Hk. rewrite Hkeys in Hk.
      apply list_elem_of_fmap in Hk as (q & -> & Hq).
      rewrite <- (globbed_stem folder q); [exact Hq|].
      apply (glob_csv_globbed _ _ _ Hdirs) in Hq. apply Hq.
Qed.

End MainTheorems.

Lemma main_is_pipeline_witness :
  Main.main header_only header_line school_folder
  = match pipeline header_only header_line school_folder with
    | Returns _ w' => Returns 0%Z w'
    | Raises e w' => Raises e w'
    end.
Proof.
  exact (main_is_pipeline header_only header_line school_folder eq_refl
           eq_refl).
Defined.

Lemma main_needs_the_three_files_witness :
  exists w',
    Main.main header_only header_line students_folder = Returns 0%Z w' /\
    ImportCsv.glob_csv ["home"; "data"] students_folder
    ≡ₚ students_paths students_folder.
Proof.
  eexists. split; [vm_compute; reflexivity|].
  refine (proj2 (main_needs_the_three_files header_only header_line
                   students_folder 0%Z _ eq_refl eq_refl _ _)).
  - decide_by_compute.
  - vm_compute. reflexivity.
Defined.

(** ** Where [create_from_dict] puts the databases *)

(** The branch of the loop body that builds a database. *)
Lemma create_step_new db_dict acc table w acc' w' t n :
  DatabaseGenerator.create_step db_dict acc table w = Returns acc' w' ->
  table_heap w !! table = Some t -> db_name t = OStr n ->
  PyDict.get n acc = None ->
  exists k lastr lt db w1,
    PyDict.last_item db_dict = Some (k, lastr) /\
    table_heap w !! lastr = Some lt /\
    Database.init n (Some (parent (csv_path lt))) "replace" w
      = Returns db w1 /\
    acc' = PyDict.set n db acc /\
    Database.add_table db table
      (set_table_heap (alter (set_database (Some db)) table (table_heap w1))
                      w1) = Returns db w'.
Proof.
  destruct w as [cw di fi st th dh io]. cbn [table_heap].
  intros H Ht Hn Hget. revert H.
  unfold DatabaseGenerator.create_step. run_step.
  rewrite Ht, Hn, Hget.
  destruct (PyDict.last_item db_dict) as [[k lastr]|]; [|discriminate].
  run_step.
  destruct (th !! lastr) as [lt|] eqn:Hlt; [|discriminate].
  destruct (Database.init n (Some (parent (csv_path lt))) "replace" _)
    as [db w1|] eqn:Hinit; [|discriminate].
  pose proof (init_returns _ _ _ _ _ _ Hinit) as (Hdb & Hdh & Hth & _).
  destruct w1 as [cw1 di1 fi1 st1 th1 dh1 io1].
  cbn [database_heap table_heap] in Hdh, Hth. subst th1 dh1 db.
  run_step. rewrite lookup_last. simpl default.
  unfold fresh_dict.
  rewrite !lookup_insert_ne, lookup_insert_eq by discriminate.
  run_step.
  match goal with
  | |- match TableMethods.add table ?W with _ => _ end = _ -> _ =>
      destruct (TableMethods.add table W) as [r w2|] eqn:Hadd;
      [|discriminate]
  end.
  intros [= <- <-].
  apply table_add_returns in Hadd as (t' & db' & Ht' & Hdb' & Hadd).
  cbn [table_heap] in Ht'. rewrite list_lookup_alter_eq, Ht in Ht'.
  injection Ht' as <-. simpl in Hdb'. injection Hdb' as <-.
  eexists k, lastr, lt, (length dh), _.
  split; [reflexivity|]. split; [exact Hlt|]. split; [exact Hinit|].
  split; [reflexivity | exact Hadd].
Qed.

(** A returning [add_table] keeps every connection and every store. *)
Lemma add_table_keeps_connections db table w r w' :
  Database.add_table db table w = Returns r w' ->
  dirs w' = dirs w /\
  (forall p, is_Some (stores w !! p) -> is_Some (stores w' !! p)) /\
  (forall o p, Database.instance_dict o w !! "connection"
               = Some (OConnection p) ->
               Database.instance_dict o w' !! "connection"
               = Some (OConnection p)).
Proof.
  intros H.
  apply add_table_returns in H
    as (d & t & l & nm & p0 & mode & label & s' & Hd & _ & _ & Ht & _
        & [Hc _] & _ & _ & _ & _ & ->).
  cbn [dirs stores set_stores after_bookkeeping].
  split; [reflexivity|]. split.
  - intros p Hp. destruct (decide (p0 = p)) as [->|Hne].
    + rewrite lookup_insert_eq. eauto.
    + rewrite lookup_insert_ne by exact Hne. exact Hp.
  - intros o p Ho. unfold Database.instance_dict in *.
    cbn [database_heap set_stores].
    destruct (decide (o = db)) as [->|Hne].
    + rewrite (instance_dict_after_bookkeeping _ _ _ _ _ _ _ Hd).
      rewrite Hd in Ho. simpl default in *.
      assert (Hnc : name t <> "connection").
      { intros E. rewrite E, lookup_insert_eq in Hc. discriminate. }
      rewrite !lookup_insert_ne by congruence. exact Ho.
    + change (database_heap (after_bookkeeping db table nm d l t w) !! o)
        with (database_heap (after_bookkeeping db table nm d l t w) !! o).
      rewrite other_database_after_bookkeeping by exact Hne. exact Ho.
Qed.

Lemma init_returns_store n dir mode w db w1 :
  Database.init n (Some dir) mode w = Returns db w1 ->
  let p := joinpath dir (n +:+ ".db") in
  db = length (database_heap w) /\
  database_heap w1 = database_heap w ++ [fresh_dict n dir mode] /\
  dir ∈ dirs w1 /\
  (forall q, q ∈ dirs w -> q ∈ dirs w1) /\
  stores w1 = <[p := default [] (stores w !! p)]> (stores w).
Proof.
  intros H p. rewrite init_cases in H. cbv zeta in H. fold p in H.
  destruct (bool_decide_reflect (dir ∈ dirs w)) as [Hd|Hd].
  - injection H as <- <-. cbn [database_heap dirs stores].
    repeat split; try reflexivity; [exact Hd | tauto].
  - destruct (under_file dir w); [discriminate|].
    destruct (is_file dir w); [discriminate|].
    injection H as <- <-. cbn [database_heap dirs stores].
    split; [reflexivity|]. split; [reflexivity|]. split; [|split].
    + apply elem_of_app. right. apply list_elem_of_In, filter_In.
      split; [apply list_elem_of_In, prefixes_self|].
      rewrite (bool_decide_eq_false_2 _ Hd). reflexivity.
    + intros q Hq. apply elem_of_app. left. exact Hq.
    + reflexivity.
Qed.

Lemma create_step_connected db_dict w0 done acc table w acc' w' k lastr lt0 :
  PyDict.last_item db_dict = Some (k, lastr) ->
  table_heap w0 !! lastr = Some lt0 ->
  loop_invariant w0 done acc w ->
  connected_in (parent (csv_path lt0)) acc w ->
  DatabaseGenerator.create_step db_dict acc table w = Returns acc' w' ->
  connected_in (parent (csv_path lt0)) acc' w'.
Proof.
  intros Hlast Hlt0 Hinv Hcon Hstep.
  pose proof (create_step_returns _ _ _ _ _ _ Hstep)
    as (t & n & db & w1 & Ht & Hn & Hcase & Hadd).
  destruct Hcase as [(Hget & -> & ->) | (Hget & _ & _)].
  - (* the database exists *)
    apply add_table_keeps_connections in Hadd as (Hdirs & Hstores & Hconn).
    cbn [dirs stores set_table_heap] in Hdirs, Hstores.
    intros n' db' Hg. destruct (Hcon n' db' Hg) as (Hd & Hc & Hs).
    split; [rewrite Hdirs; exact Hd|].
    split; [apply Hconn; exact Hc | apply Hstores; exact Hs].
  - (* a database is built, in the folder of the last table *)
    clear Hadd.
    destruct (create_step_new _ _ _ _ _ _ _ _ Hstep Ht Hn Hget)
      as (k' & lastr' & lt & db1 & w2 & Hlast' & Hlt & Hinit & -> & Hadd).
    rewrite Hlast in Hlast'. injection Hlast' as <- <-.
    assert (Hpath : csv_path lt = csv_path lt0).
    { destruct (inv_tables _ _ _ _ Hinv _ _ Hlt0) as [Hu | Hp].
      - rewrite Hlt in Hu. injection Hu as ->. reflexivity.
      - destruct Hp as (ti & _ & _ & Hti & Hsame & _).
        rewrite Hlt in Hti. injection Hti as <-. symmetry. apply Hsame. }
    rewrite Hpath in Hinit.
    apply init_returns_store in Hinit as (-> & Hdh & Hdir & Hdirs & Hst).
    apply add_table_keeps_connections in Hadd as (Hdirs' & Hstores & Hconn).
    cbn [dirs stores set_table_heap] in Hdirs', Hstores.
    assert (Hconn' : forall o p,
              Database.instance_dict o w2 !! "connection"
              = Some (OConnection p) ->
              Database.instance_dict o w' !! "connection"
              = Some (OConnection p)).
    { intros o p Ho. apply Hconn. exact Ho. }
    intros n' db' Hg. rewrite set_absent, get_app in Hg by exact Hget.
    split; [rewrite Hdirs'; exact Hdir|].
    destruct (PyDict.get n' acc) as [v|] eqn:Hold.
    + injection Hg as ->. destruct (Hcon n' db' Hold) as (_ & Hc & Hs).
      assert (Hlt' : db' < length (database_heap w)).
      { pose proof (get_some_value _ _ _ Hold) as Hv.
        rewrite (inv_vals _ _ _ _ Hinv) in Hv. apply elem_of_seq in Hv.
        rewrite (inv_len _ _ _ _ Hinv). lia. }
      split.
      * apply Hconn'. unfold Database.instance_dict in *.
        rewrite Hdh, lookup_app_l by exact Hlt'. exact Hc.
      * apply Hstores. rewrite Hst.
        destruct (decide (joinpath (parent (csv_path lt0)) (n +:+ ".db")
                          = joinpath (parent (csv_path lt0)) (n' +:+ ".db")))
          as [E|E].
        -- rewrite E, lookup_insert_eq. eauto.
        -- rewrite lookup_insert_ne by exact E. exact Hs.
    + simpl in Hg. destruct (String.eqb_spec n' n) as [->|_];
        [|discriminate].
      injection Hg as <-. split.
      * apply Hconn'. unfold Database.instance_dict.
        rewrite Hdh, lookup_last. simpl default. unfold fresh_dict.
        rewrite lookup_insert_ne by discriminate.
        apply lookup_insert_eq.
      * apply Hstores. rewrite Hst, lookup_insert_eq. eauto.
Qed.

Lemma create_loop_connected db_dict w0 k lastr lt0 tables :
  PyDict.last_item db_dict = Some (k, lastr) ->
  table_heap w0 !! lastr = Some lt0 ->
  forall done acc w ret w',
    loop_invariant w0 done acc w ->
    connected_in (parent (csv_path lt0)) acc w ->
    DatabaseGenerator.create_loop db_dict acc tables w = Returns ret w' ->
    connected_in (parent (csv_path lt0)) ret w'.
Proof.
  intros Hlast Hlt0.
  induction tables as [|table tables IH]; intros done acc w ret w' Hinv Hcon;
    simpl.
  - intros [= <- <-]. exact Hcon.
  - cbv beta iota delta [mbind M_bind].
    destruct (DatabaseGenerator.create_step db_dict acc table w)
      as [acc1 w1|] eqn:Hstep; [|discriminate].
    intros Hloop.
    apply (IH (done ++ [table]) acc1 w1 ret w'); [| |exact Hloop].
    + eapply create_step_invariant; eassumption.
    + eapply create_step_connected; eassumption.
Qed.

(** X21. [create_from_dict] builds every database in one folder, the one
    that holds the file of the last table of the mapping, whatever the
    folders of the other tables' files: when the call returns, each name of
    the returned mapping is mapped to a database whose connection is on
    [name.db] in that folder, and that folder and that store exist. *)
Theorem create_from_dict_folder
    (db_dict : list (string * tref)) (w : World)
    (ret : list (string * dbref)) (w' : World)
    (k : string) (lastr : tref) (lt : DBTable) :
  PyDict.last_item db_dict = Some (k, lastr) ->
  table_heap w !! lastr = Some lt ->
  (forall key r t n,
     (key, r) ∈ db_dict -> table_heap w !! r = Some t ->
     db_name t = OStr n -> plain_name n = true) ->
  DatabaseGenerator.create_from_dict db_dict w = Returns ret w' ->
  forall n db, PyDict.get n ret = Some db ->
    let dir := parent (csv_path lt) in
    dir ∈ dirs w' /\
    Database.instance_dict db w' !! "connection"
      = Some (OConnection (joinpath dir (n +:+ ".db"))) /\
    is_Some (stores w' !! joinpath dir (n +:+ ".db")).
Proof.
  intros Hlast Hlt _ H.
  unfold DatabaseGenerator.create_from_dict in H.
  apply (create_loop_connected db_dict w k lastr lt (PyDict.values db_dict)
           Hlast Hlt [] [] w ret w' (loop_invariant_initial w)); [|exact H].
  intros n db Hg. discriminate.
Qed.

Lemma create_from_dict_folder_witness :
  exists ret w',
    DatabaseGenerator.create_from_dict three_tables_dict three_tables
      = Returns ret w' /\
    Database.instance_dict 1 w' !! "connection"
      = Some (OConnection ["data"; "uni.db"]).
Proof.
  eexists _, _. split; [vm_compute; reflexivity|].
  refine (proj1 (proj2 (create_from_dict_folder three_tables_dict three_tables
                          _ _ "uni_grades" 2
                          (example_table "grades" "uni" marks_frame)
                          eq_refl eq_refl _ ltac:(vm_compute; reflexivity)
                          "uni" 1 eq_refl))).
  intros key r t n Hin Ht Hn.
  unfold three_tables_dict in Hin. rewrite !elem_of_cons in Hin.
  destruct Hin as [[= -> ->] | [[= -> ->] | [[= -> ->] | Hin]]];
    [| | | apply elem_of_nil in Hin; contradiction];
    vm_compute in Ht; injection Ht as <-; injection Hn as <-; reflexivity.
Defined.

(** ** Saving and reloading, once more *)

(** X22. [dataframe_to_csv] followed by [csv_to_dataframe] with the same
    separator: the file at the table's [csv_path] holds the text [to_csv]
    wrote for the frame, no other file and no other table is touched, and
    the table's frame becomes what [read_csv] parses from that text; if
    [read_csv] raises, the error leaves the second call, the table keeps
    its frame and the file stays overwritten. *)
Theorem save_then_load
    (read_csv : string -> string -> res DataFrame)
    (to_csv : DataFrame -> string -> string)
    (self : tref) (sep : string) (w : World) (t : DBTable) :
  table_heap w !! self = Some t ->
  let text := to_csv (dataframe t) sep in
  let o := (TableMethods.dataframe_to_csv to_csv self sep;;
            TableMethods.csv_to_dataframe read_csv self sep) w in
  lookup_file (csv_path t) (files (world_of o)) = Some text /\
  (forall q, q <> csv_path t ->
     lookup_file q (files (world_of o)) = lookup_file q (files w)) /\
  (forall r, r <> self -> table_heap (world_of o) !! r = table_heap w !! r) /\
  match read_csv text sep with
  | Ok df =>
      o = Returns self (world_of o) /\
      table_heap (world_of o) !! self = Some (set_dataframe df t)
  | Raise e =>
      o = Raises e (world_of o) /\
      table_heap (world_of o) !! self = Some t
  end.
Proof.
  intros Ht text o. subst o.
  rewrite (reload_parses_saved_text read_csv to_csv self sep w t Ht).
  cbv zeta. fold text.
  destruct (read_csv text sep) as [df|e];
    cbn [world_of files table_heap set_files set_table_heap].
  - split; [apply lookup_store_file|].
    split; [intros q Hq; apply lookup_store_file_ne; congruence|].
    split; [intros r Hr; apply list_lookup_alter_ne; congruence|].
    split; [reflexivity|]. rewrite list_lookup_alter_eq, Ht. reflexivity.
  - split; [apply lookup_store_file|].
    split; [intros q Hq; apply lookup_store_file_ne; congruence|].
    split; [reflexivity|]. split; [reflexivity | exact Ht].
Qed.

Lemma save_then_load_witness :
  lookup_file ["data"; "school_math.csv"]
    (files (world_of
       ((TableMethods.dataframe_to_csv header_line 0 ";";;
         TableMethods.csv_to_dataframe header_only 0 ";")
          (world_with [example_table "math" "school" marks_frame]))))
  = Some "age;sex".
Proof.
  exact (proj1 (save_then_load header_only header_line 0 ";"
                  (world_with [example_table "math" "school" marks_frame])
                  (example_table "math" "school" marks_frame) eq_refl)).
Defined.

(** ** A table named [tables] *)

(** X23. Once a table named [tables] has been added, the owned list is
    gone: [table_names] raises [TypeError], and every further [add_table]
    raises [AttributeError] where it appends to [self.tables]. *)
Theorem add_table_named_tables
    (self : dbref) (table : tref) (w : World) (r : dbref) (w1 : World)
    (t : DBTable) :
  table_heap w !! table = Some t ->
  name t = "tables" ->
  Database.add_table self table w = Returns r w1 ->
  Database.table_names self w1 = Raises TypeError w1 /\
  (forall table2, exists w2,
     Database.add_table self table2 w1 = Raises AttributeError w2).
Proof.
  intros Ht Hname H.
  apply add_table_effect in H
    as (d & t0 & l & nm & _ & _ & Hnm & Ht0 & Hd1 & _).
  rewrite Ht in Ht0. injection Ht0 as <-. rewrite Hname in Hd1.
  destruct w1 as [cw di fi st th dh io]. cbn [database_heap] in Hd1.
  split.
  - unfold Database.table_names. run_head. rewrite Hd1. simpl default.
    rewrite lookup_insert_eq. reflexivity.
  - intros table2. unfold Database.add_table. run_head.
    rewrite Hd1. simpl default.
    rewrite lookup_insert_ne, lookup_insert_ne, Hnm by discriminate.
    run_head. rewrite Hd1. simpl default. rewrite lookup_insert_eq.
    run_head. eexists. reflexivity.
Qed.

Lemma add_table_named_tables_witness :
  Database.table_names 0 (world_of (Database.add_table 0 0 tables_named))
  = Raises TypeError (world_of (Database.add_table 0 0 tables_named)).
Proof.
  refine (proj1 (add_table_named_tables 0 0 tables_named 0 _
                   (example_table "tables" "school" marks_frame)
                   eq_refl eq_refl _)).
  vm_compute. reflexivity.
Defined.

(** ** The warning of [add_table] *)

Lemma warns_insert_tables (d : gmap string pyobj) (v v' : pyobj)
    (n : string) :
  d !! "tables" = Some v' ->
  warns (<["tables" := v]> d) n = warns d n.
Proof.
  intros Hd. unfold warns. f_equal. apply bool_decide_ext.
  destruct (decide (n = "tables")) as [->|Hne].
  - rewrite lookup_insert_eq, Hd. split; eauto.
  - rewrite lookup_insert_ne by congruence. reflexivity.
Qed.

(** X24. [add_table] logs ["changing <name> to new value."] exactly when
    [hasattr(self, table.name)] holds before the binding: when the instance
    already has an attribute of that name, but also, for a table added for
    the first time, when the name is that of a method or of an attribute
    every object has. *)
Theorem add_table_warning
    (self : dbref) (table : tref) (w : World) (d : gmap string pyobj)
    (l : list tref) (nm : pyobj) (t : DBTable) :
  database_heap w !! self = Some d ->
  d !! "tables" = Some (OTableList l) ->
  d !! "name" = Some nm ->
  table_heap w !! table = Some t ->
  name t ∉ unsettable ->
  ic_output (world_of (Database.add_table self table w))
  = if bool_decide (is_Some (d !! name t))
       || bool_decide (name t ∈ Database.methods ++ Database.object_attributes)
    then ic_output w ++ [IcStr ("changing " +:+ name t +:+ " to new value.")]
    else ic_output w.
Proof.
  intros Hd Hl Hn Ht Hs.
  destruct (d !! "__setattr__") as [v|] eqn:Hu.
  - rewrite (add_table_shadowed _ _ _ _ _ _ _ v Hd Hl Hn Ht
               (unsettable_not_property _ Hs) Hu).
    cbn [world_of ic_output before_binding].
    rewrite (warns_insert_tables d _ _ _ Hl). reflexivity.
  - rewrite (add_table_forward _ _ _ _ _ _ _ Hd Hl Hn Ht Hs Hu).
    destruct (store_phase_frame self table
                (after_bookkeeping self table nm d l t w))
      as (_ & _ & -> & _).
    cbn [ic_output after_bookkeeping].
    rewrite (warns_insert_tables d _ _ _ Hl). reflexivity.
Qed.

Lemma add_table_warning_witness :
  ic_output (world_of (Database.add_table 0 0
               (school_world "replace"
                  [example_table "connect" "school" marks_frame])))
  = [IcStr "changing connect to new value."].
Proof.
  refine (add_table_warning 0 0
            (school_world "replace"
               [example_table "connect" "school" marks_frame])
            (Database.instance_dict 0
               (school_world "replace"
                  [example_table "connect" "school" marks_frame]))
            [] (OStr "school")
            (example_table "connect" "school" marks_frame) _ _ _ _ _).
  - apply instance_dict_lookup. vm_compute. lia.
  - vm_compute. reflexivity.
  - vm_compute. reflexivity.
  - reflexivity.
  - not_listed.
Defined.

(** ** What [create_from_dict] leaves in the stores *)













